(** * Expense tracker: the route handlers over an in-memory document store

    A shallow embedding of [src/fullCode.js]: the Mongoose schemas
    (models/User.js, models/Category.js, models/Expense.js) become records
    and their validators; every collection is the list of its documents
    in insertion order; every route handler is a function from the caller,
    the request and the store to the response and the new store.

    Conventions of the embedding.
    - An [ObjectId] is a natural number, handed out in increasing order.
      A route parameter or a body field that is not an ObjectId is
      stopped by the driver's cast before any query runs and is not
      represented.
    - A date is the number of milliseconds since the epoch, as in a
      JavaScript [Date] and in BSON, within the range of a [Date].  The
      server's time zone is a fixed offset [tz] (minutes east of UTC);
      the aggregation operators [$month] and [$dateToString] read a date
      in UTC, as MongoDB does.
    - An amount is a JavaScript number; the embedding takes the integer
      ones, on which [+] and [-] are exact.
    - Strings are byte strings; [trim] and [toLowerCase] act on ASCII.
    - A sort is stable: documents that compare equal stay in the order
      of the collection.
    - What the libraries do is taken from their documentation: a schema
      setter ([trim], [lowercase]) runs on query filters and updates as
      on documents; [runValidators] checks the fields an update sets
      before the update is sent; an [undefined] field of an update is
      dropped; [isNumeric] accepts a sign; a cursor reads [limit(0)] as no
      limit and refuses a negative [skip].
    - A handler's [catch] answers 500 for whatever is thrown. *)

From Stdlib Require Import ZArith List String Ascii Bool Lia.
From Stdlib Require Import Permutation Sorted OrderedTypeEx.
Import ListNotations.

Local Open Scope string_scope.
Local Open Scope Z_scope.

Set Implicit Arguments.

(* ------------------------------------------------------------------ *)
(** ** JavaScript strings *)

Module JsString.

(** The ASCII white space that [String.prototype.trim] removes. *)
Definition is_space (c : ascii) : bool :=
  let n := nat_of_ascii c in
  ((n =? 32) || ((9 <=? n) && (n <=? 13)))%nat.

Fixpoint trimStart (s : string) : string :=
  match s with
  | EmptyString => EmptyString
  | String c r => if is_space c then trimStart r else s
  end.

(** [trimEnd] drops a character when it is a space and everything
    after it has been dropped too. *)
Fixpoint trimEnd (s : string) : string :=
  match s with
  | EmptyString => EmptyString
  | String c r =>
      match trimEnd r with
      | EmptyString => if is_space c then EmptyString else String c EmptyString
      | r' => String c r'
      end
  end.

Definition trim (s : string) : string := trimEnd (trimStart s).

Definition lower (c : ascii) : ascii :=
  let n := nat_of_ascii c in
  if ((65 <=? n) && (n <=? 90))%nat then ascii_of_nat (n + 32) else c.

Fixpoint toLowerCase (s : string) : string :=
  match s with
  | EmptyString => EmptyString
  | String c r => String (lower c) (toLowerCase r)
  end.

(** JavaScript truthiness of a string: only the empty string is falsy. *)
Definition truthy (s : string) : bool := negb (s =? "")%string.

(** [a || b] on an optional string field: [undefined] and [""] are falsy. *)
Definition or_default (o : option string) (d : string) : string :=
  match o with
  | Some s => if truthy s then s else d
  | None => d
  end.

End JsString.

(* ------------------------------------------------------------------ *)
(** ** Dates *)

Module JsDate.

Definition msPerDay : Z := 86400000.
Definition msPerMinute : Z := 60000.

(** Proleptic Gregorian calendar: the civil date of a day number
    (days since 1970-01-01) and back. *)
Definition yoe_of (doe : Z) : Z :=
  (doe - doe / 1460 + doe / 36524 - doe / 146096) / 365.

Definition doy_of (doe : Z) : Z :=
  let yoe := yoe_of doe in doe - (365 * yoe + yoe / 4 - yoe / 100).

Definition civil_from_days (z : Z) : Z * Z * Z :=
  let z := z + 719468 in
  let era := z / 146097 in
  let doe := z mod 146097 in
  let yoe := yoe_of doe in
  let doy := doy_of doe in
  let mp := (5 * doy + 2) / 153 in
  let d := doy - (153 * mp + 2) / 5 + 1 in
  let m := if mp <? 10 then mp + 3 else mp - 9 in
  (if m <=? 2 then yoe + era * 400 + 1 else yoe + era * 400, m, d).

Definition days_from_civil (y m d : Z) : Z :=
  let y := if m <=? 2 then y - 1 else y in
  let era := y / 400 in
  let yoe := y mod 400 in
  let mp := if 2 <? m then m - 3 else m + 9 in
  let doy := (153 * mp + 2) / 5 + d - 1 in
  let doe := yoe * 365 + yoe / 4 - yoe / 100 + doy in
  era * 146097 + doe - 719468.

(** The day number of 1 January of the year [y], in closed form. *)
Definition jan1 (y : Z) : Z :=
  365 * (y - 1) + (y - 1) / 4 - (y - 1) / 100 + (y - 1) / 400 + 306 - 719468.

Definition utcDay (t : Z) : Z := t / msPerDay.

(** [$month]: the month, 1 to 12, of a date read in UTC. *)
Definition utcMonth (t : Z) : Z :=
  let '(_, m, _) := civil_from_days (utcDay t) in m.

Definition utcFullYear (t : Z) : Z :=
  let '(y, _, _) := civil_from_days (utcDay t) in y.

Section Local.
Variable tz : Z.

Definition localTime (t : Z) : Z := t + tz * msPerMinute.

Definition getFullYear (t : Z) : Z :=
  let '(y, _, _) := civil_from_days (localTime t / msPerDay) in y.

(** [getMonth] is zero-based. *)
Definition getMonth (t : Z) : Z :=
  let '(_, m, _) := civil_from_days (localTime t / msPerDay) in m - 1.

Definition getDate (t : Z) : Z :=
  let '(_, _, d) := civil_from_days (localTime t / msPerDay) in d.

(** [new Date(year, monthIndex, day)]: local midnight of that day.
    A year from 0 to 99 means 1900 + year. *)
Definition Date_of (year monthIndex day : Z) : Z :=
  let y := if (0 <=? year) && (year <=? 99) then 1900 + year else year in
  days_from_civil y (monthIndex + 1) day * msPerDay - tz * msPerMinute.

(** [d.setDate(day)]: same local year, month and time of day, the day
    of the month replaced (and carried when out of the month). *)
Definition setDate (t day : Z) : Z :=
  let l := localTime t in
  let '(y, m, _) := civil_from_days (l / msPerDay) in
  days_from_civil y m day * msPerDay + l mod msPerDay - tz * msPerMinute.
End Local.

(** Digits of [n], [w] of them, most significant first. *)
Fixpoint pad (w : nat) (n : Z) : string :=
  match w with
  | O => EmptyString
  | S w' =>
      (pad w' (n / 10)
         ++ String (ascii_of_nat (48 + Z.to_nat (n mod 10))) EmptyString)%string
  end.

(** The UTC day of a date as [YYYY-MM-DD]. *)
Definition iso_day (t : Z) : string :=
  let '(y, m, d) := civil_from_days (utcDay t) in
  (pad 4 y ++ "-" ++ pad 2 m ++ "-" ++ pad 2 d)%string.

(** [$dateToString] with format [%Y-%m-%d].  [%Y] prints the years 0000
    to 9999: for a date of another year the operator fails, and the
    aggregation with it. *)
Definition dateToString (t : Z) : option string :=
  if (0 <=? utcFullYear t) && (utcFullYear t <=? 9999)
  then Some (iso_day t) else None.

End JsDate.

(* ------------------------------------------------------------------ *)
(** ** The schemas (models/User.js, models/Category.js, models/Expense.js) *)

Definition ObjectId := nat.
Bind Scope nat_scope with ObjectId.

Module User.
Record t := mk {
  _id : ObjectId;
  username : string;
  email : string;
  password : string;
  fullName : string;
  monthlyBudget : Z;
  currency : string
}.
End User.

Module Category.
Record t := mk {
  _id : ObjectId;
  name : string;
  description : option string;
  color : string;
  icon : string;
  userId : ObjectId;
  isDefault : bool;
  createdAt : Z
}.

Definition default_color : string := "#007bff".
Definition default_icon : string := "fas fa-tag".

(** The fields [populate('category', 'name color icon')] keeps. *)
Record ref := mkRef {
  ref_id : ObjectId;
  ref_name : string;
  ref_color : string;
  ref_icon : string
}.

Definition to_ref (c : t) : ref := mkRef (_id c) (name c) (color c) (icon c).
End Category.

Module Expense.
Record t := mk {
  _id : ObjectId;
  title : string;
  amount : Z;
  description : option string;
  category : ObjectId;
  userId : ObjectId;
  date : Z;
  paymentMethod : string;
  tags : list string;
  receipt : option string;
  createdAt : Z;
  updatedAt : Z
}.

Definition paymentMethods : list string :=
  ["cash"; "card"; "upi"; "netbanking"; "other"].

(** An expense with its category populated ([None] is JavaScript's
    [null], for a category that is no longer in the collection). *)
Record populated := mkPopulated {
  doc : t;
  categoryDoc : option Category.ref
}.
End Expense.

(** The three collections, each in insertion order, and the next fresh
    ObjectId. *)
Record Db := mkDb {
  users : list User.t;
  categories : list Category.t;
  expenses : list Expense.t;
  nextId : ObjectId
}.

(** The [amount] field of a request body, as the validators see it.
    [AmountNumber z] is text that spells the whole number [z] in plain
    decimal digits, or the number itself when JavaScript prints it so,
    which it does below 10^21 in absolute value.  A number with a
    fraction and text with an exponent, such as 1e3, which [isNumeric]
    refuses and the schema would cast, are not among these values. *)
Inductive JsAmount :=
| AmountUndefined          (* the field is absent *)
| AmountNumber (z : Z)     (* a whole number in plain decimal digits *)
| AmountNaN.               (* anything else, such as text that is no number *)

(** A group of an aggregation [$group] stage with
    [total: { $sum: '$amount' }] and [count: { $sum: 1 }]. *)
Module Group.
Record t (K : Type) := mk {
  _id : K;
  total : Z;
  count : Z
}.
Arguments mk {K} _ _ _.
Arguments _id {K} _.
Arguments total {K} _.
Arguments count {K} _.
End Group.

(* ------------------------------------------------------------------ *)
(** ** Queries of the document store *)

Module Store.

Section Generic.
Variable A : Type.

(** [Model.findOne(filter)]: the first document that matches. *)
Definition findOne (f : A -> bool) (l : list A) : option A := find f l.

(** [Model.findOneAndDelete(filter)]: the first document that matches
    is removed and returned. *)
Fixpoint findOneAndDelete (f : A -> bool) (l : list A) : option A * list A :=
  match l with
  | [] => (None, [])
  | x :: r =>
      if f x then (Some x, r)
      else let '(o, r') := findOneAndDelete f r in (o, x :: r')
  end.

(** [Model.findOneAndUpdate(filter, update, { new: true })]: the first
    document that matches is replaced and the new one returned. *)
Fixpoint findOneAndUpdate (f : A -> bool) (upd : A -> A) (l : list A)
  : option A * list A :=
  match l with
  | [] => (None, [])
  | x :: r =>
      if f x then (Some (upd x), upd x :: r)
      else let '(o, r') := findOneAndUpdate f upd r in (o, x :: r')
  end.

(** [.sort(...)]: [le x y] says that [x] may come before [y].  MongoDB
    fixes no order among documents of equal keys; this insertion sort
    keeps them in insertion order, one of the orders the database may
    return. *)
Variable le : A -> A -> bool.

Fixpoint insert (x : A) (l : list A) : list A :=
  match l with
  | [] => [x]
  | y :: r => if le x y then x :: l else y :: insert x r
  end.

Definition sort (l : list A) : list A := fold_right insert [] l.
End Generic.

(** [.skip(n)] and [.limit(n)] of a cursor. *)
Definition skip {A} (n : nat) (l : list A) : list A := skipn n l.
Definition limit {A} (n : nat) (l : list A) : list A := firstn n l.

Section Grouping.
Variables (A K : Type).
Variable eqb : K -> K -> bool.
Variable key : A -> K.
Variable value : A -> Z.

(** One document enters its group, or opens a new one. *)
Fixpoint accumulate (k : K) (v : Z) (gs : list (Group.t K)) : list (Group.t K) :=
  match gs with
  | [] => [Group.mk k v 1]
  | g :: r =>
      if eqb k (Group._id g)
      then Group.mk (Group._id g) (Group.total g + v) (Group.count g + 1) :: r
      else g :: accumulate k v r
  end.

(** The [$group] stage: groups appear in the order of their first
    document. *)
Definition group (l : list A) : list (Group.t K) :=
  fold_left (fun gs x => accumulate (key x) (value x) gs) l [].
End Grouping.

(** The sum and the number of the documents of a list, as [$sum] adds
    them up. *)
Definition sum {A} (value : A -> Z) (l : list A) : Z :=
  fold_right (fun x acc => value x + acc) 0 l.

Definition size {A} (l : list A) : Z := Z.of_nat (List.length l).

(** The amounts of the code are doubles; the embedding has the whole
    numbers among them.  Doubles add and subtract whole numbers exactly,
    in any order and grouping, as long as the absolute values together
    stay within 2^53: [exact] says so of the values of a list and of one
    more number. *)
Definition exact {A} (value : A -> Z) (l : list A) (more : Z) : bool :=
  sum (fun x => Z.abs (value x)) l + Z.abs more <=? 2 ^ 53.

(** The group of [k] once the documents [l] have entered the groups [gs]. *)
Definition merged {A K} (eqb : K -> K -> bool) (key : A -> K) (value : A -> Z)
           (k : K) (gs : list (Group.t K)) (l : list A) : option (Group.t K) :=
  let m := filter (fun x => eqb k (key x)) l in
  match find (fun g => eqb k (Group._id g)) gs with
  | Some g => Some (Group.mk (Group._id g) (Group.total g + sum value m)
                      (Group.count g + size m))
  | None =>
      match m with
      | [] => None
      | _ => Some (Group.mk k (sum value m) (size m))
      end
  end.

End Store.

(* ------------------------------------------------------------------ *)
(** ** Responses *)

Record UserView := mkUserView {
  view_id : ObjectId;
  view_username : string;
  view_email : string;
  view_fullName : string;
  view_monthlyBudget : Z;
  view_currency : string
}.

Record MonthlySummary := mkMonthly {
  monthly_total : Z;
  monthly_count : Z;
  budget : Z;
  remaining : Z
}.

Record YearlySummary := mkYearly {
  yearly_total : Z;
  yearly_count : Z
}.

Record BreakdownEntry := mkBreakdown {
  breakdown_id : ObjectId;
  breakdown_total : Z;
  breakdown_count : Z;
  breakdown_name : string;
  breakdown_color : string;
  breakdown_icon : string
}.

Record DashboardData := mkDashboard {
  monthly : MonthlySummary;
  yearly : YearlySummary;
  categoryBreakdown : list BreakdownEntry;
  recentExpenses : list Expense.populated
}.

Record ChartEntry := mkChartEntry {
  month : string;
  chart_amount : Z;
  chart_count : Z
}.

(** What [res.json] sends besides [success]. *)
Inductive Body :=
| Errors (errors : list string)
| Message (message : string)
| Registered (message token : string) (user : UserView)
| Categories (categories : list Category.t)
| CategorySaved (message : string) (category : Category.t)
| ExpensePage (expenses : list Expense.populated)
              (totalPages : option Z) (currentPage total : Z)
| ExpenseOne (expense : Expense.populated)
| ExpenseSaved (message : string) (expense : Expense.populated)
| Dashboard (data : DashboardData)
| Chart (data : list ChartEntry)
| Trends (data : list (Group.t string)).

Record Response := mkResponse {
  status : Z;
  success : bool;
  body : Body
}.

Definition fail (code : Z) (message : string) : Response :=
  mkResponse code false (Message message).

Definition ok (b : Body) : Response := mkResponse 200 true b.
Definition created (b : Body) : Response := mkResponse 201 true b.

(** The error kinds of the interface, read off a response. *)
Definition ValidationFailed (r : Response) : Prop :=
  exists errors, errors <> [] /\ r = mkResponse 400 false (Errors errors).
Definition NotFound (r : Response) : Prop :=
  exists message, r = fail 404 message.
Definition InvalidCategory (r : Response) : Prop :=
  r = fail 400 "Invalid category".
Definition Conflict (r : Response) : Prop :=
  r = fail 400 "Category with this name already exists".
Definition Internal (r : Response) : Prop :=
  exists message, r = fail 500 message.

(* ------------------------------------------------------------------ *)
(** ** Validation: express-validator chains and schema validators *)

Module Validator.

(** express-validator reads a field as text; an absent field is [""]. *)
Definition toString (o : option string) : string :=
  match o with Some s => s | None => "" end.

Definition notEmpty (o : option string) : bool :=
  negb (toString o =? "")%string.

Definition isLength_min (n : nat) (o : option string) : bool :=
  (n <=? String.length (toString o))%nat.

(** [isNumeric] reads the field as text and accepts an optional sign,
    digits and at most one decimal point: every number in plain digits,
    of either sign, which is what [AmountNumber] holds. *)
Definition isNumeric (a : JsAmount) : bool :=
  match a with
  | AmountNumber _ => true
  | AmountUndefined | AmountNaN => false
  end.

(** One rule of a chain: its message when the check fails. *)
Definition rule (passes : bool) (message : string) : list string :=
  if passes then [] else [message].

Definition isEmpty (errors : list string) : bool :=
  match errors with [] => true | _ => false end.

End Validator.

(** The validators the schemas declare.  Mongoose runs them on
    [Model.create] and, with [runValidators: true], on the fields an
    update sets; a failure is thrown before the store is touched. *)
Module Schema.

(** [required] on a String path with [trim: true]. *)
Definition required_string (s : string) : bool :=
  negb (JsString.trim s =? "")%string.

(** [amount: { type: Number, required: true, min: 0 }]: the cast, then
    the validators. *)
Definition amount_valid (a : JsAmount) : option Z :=
  match a with
  | AmountNumber z => if 0 <=? z then Some z else None
  | AmountUndefined | AmountNaN => None
  end.

(** [enum] with a default for an absent field. *)
Definition paymentMethod_valid (p : option string) : option string :=
  match p with
  | None => Some "cash"
  | Some s =>
      if existsb (String.eqb s) Expense.paymentMethods then Some s else None
  end.

End Schema.

(* ------------------------------------------------------------------ *)
(** ** The store under a handler *)

Definition set_categories (db : Db) (cs : list Category.t) : Db :=
  mkDb (users db) cs (expenses db) (nextId db).

Definition set_expenses (db : Db) (es : list Expense.t) : Db :=
  mkDb (users db) (categories db) es (nextId db).

(** [Category.create] and [Category.insertMany]: the documents are
    appended and take the next ObjectIds. *)
Definition insert_category (db : Db) (c : Category.t) : Db :=
  mkDb (users db) (categories db ++ [c]) (expenses db) (S (nextId db)).

Definition insert_expense (db : Db) (e : Expense.t) : Db :=
  mkDb (users db) (categories db) (expenses db ++ [e]) (S (nextId db)).

Definition insert_user (db : Db) (u : User.t) : Db :=
  mkDb (users db ++ [u]) (categories db) (expenses db) (S (nextId db)).

(** [populate('category', 'name color icon')]. *)
Definition populate (db : Db) (e : Expense.t) : Expense.populated :=
  Expense.mkPopulated e
    (option_map Category.to_ref
       (Store.findOne (fun c => Category._id c =? Expense.category e)%nat
          (categories db))).

(* ------------------------------------------------------------------ *)
(** ** routes/categories.js *)

Module CategoryBody.
Record t := mk {
  name : option string;
  description : option string;
  color : option string;
  icon : option string
}.
End CategoryBody.

Module Categories.

Definition owned_by (u : ObjectId) (c : Category.t) : bool :=
  (Category.userId c =? u)%nat.

(** GET /api/categories *)
Definition get (user : User.t) (db : Db) : Response :=
  let categories :=
    Store.sort (fun x y => Category.createdAt y <=? Category.createdAt x)
      (filter (owned_by (User._id user)) (categories db)) in
  ok (Categories categories).

(** POST /api/categories *)
Definition post (user : User.t) (now : Z) (b : CategoryBody.t) (db : Db)
  : Response * Db :=
  let errors :=
    Validator.rule (Validator.notEmpty (CategoryBody.name b))
      "Category name is required" in
  if negb (Validator.isEmpty errors)
  then (mkResponse 400 false (Errors errors), db)
  else
    (* the schema trims [name], in the filter as in the document *)
    let name := JsString.trim (Validator.toString (CategoryBody.name b)) in
    let existingCategory :=
      Store.findOne
        (fun c => (Category.name c =? name)%string
                  && owned_by (User._id user) c)
        (categories db) in
    match existingCategory with
    | Some _ => (fail 400 "Category with this name already exists", db)
    | None =>
        if Schema.required_string name then
          let category :=
            Category.mk (nextId db) name
              (option_map JsString.trim (CategoryBody.description b))
              (JsString.or_default (CategoryBody.color b) Category.default_color)
              (JsString.or_default (CategoryBody.icon b) Category.default_icon)
              (User._id user) false now in
          (created (CategorySaved "Category created successfully" category),
           insert_category db category)
        else (fail 500 "Server error", db)
    end.

(** The update document [{ name, description, color, icon }]: a field
    that is [undefined] is left as it is. *)
Definition apply_update (b : CategoryBody.t) (c : Category.t) : Category.t :=
  Category.mk (Category._id c)
    (match CategoryBody.name b with
     | Some s => JsString.trim s
     | None => Category.name c
     end)
    (match CategoryBody.description b with
     | Some s => Some (JsString.trim s)
     | None => Category.description c
     end)
    (match CategoryBody.color b with Some s => s | None => Category.color c end)
    (match CategoryBody.icon b with Some s => s | None => Category.icon c end)
    (Category.userId c) (Category.isDefault c) (Category.createdAt c).

Definition update_valid (b : CategoryBody.t) : bool :=
  match CategoryBody.name b with
  | Some s => Schema.required_string s
  | None => true
  end.

(** PUT /api/categories/:id *)
Definition put (user : User.t) (id : ObjectId) (b : CategoryBody.t) (db : Db)
  : Response * Db :=
  if update_valid b then
    match Store.findOneAndUpdate
            (fun c => (Category._id c =? id)%nat && owned_by (User._id user) c)
            (apply_update b) (categories db) with
    | (None, _) => (fail 404 "Category not found", db)
    | (Some category, cs) =>
        (ok (CategorySaved "Category updated successfully" category),
         set_categories db cs)
    end
  else (fail 500 "Server error", db).

(** DELETE /api/categories/:id *)
Definition delete (user : User.t) (id : ObjectId) (db : Db) : Response * Db :=
  match Store.findOneAndDelete
          (fun c => (Category._id c =? id)%nat
                    && owned_by (User._id user) c
                    && negb (Category.isDefault c))
          (categories db) with
  | (None, _) => (fail 404 "Category not found or is a default category", db)
  | (Some _, cs) =>
      (ok (Message "Category deleted successfully"), set_categories db cs)
  end.

End Categories.

(* ------------------------------------------------------------------ *)
(** ** routes/expenses.js *)

(** The body of a request on an expense.  [date] is the time its [date]
    field stands for, in milliseconds: the number sent, or the time that
    a text spells; [None] is an absent field.  The time 0 is the number
    0, which is falsy; text that spells the epoch is not among these
    values. *)
Module ExpenseBody.
Record t := mk {
  title : option string;
  amount : JsAmount;
  description : option string;
  category : option ObjectId;
  date : option Z;
  paymentMethod : option string;
  tags : option (list string)
}.
End ExpenseBody.

Module ExpenseQuery.
Record t := mk {
  page : option Z;
  limit : option Z;
  category : option ObjectId;
  startDate : option Z;
  endDate : option Z;
  search : option string;
  sortBy : option string;
  sortOrder : option string
}.
End ExpenseQuery.

Module Expenses.

Definition owned_by (u : ObjectId) (e : Expense.t) : bool :=
  (Expense.userId e =? u)%nat.

Definition default {A} (o : option A) (d : A) : A :=
  match o with Some x => x | None => d end.

(** The values a sort compares: an empty array sorts first, then a
    missing field, numbers (dates and ObjectIds among them) before
    text. *)
Inductive SortKey :=
| KEmpty
| KMissing
| KNum (z : Z)
| KStr (s : string).

Definition key_le (a b : SortKey) : bool :=
  match a, b with
  | KEmpty, _ => true
  | KMissing, KEmpty => false
  | KMissing, _ => true
  | KNum _, (KEmpty | KMissing) => false
  | KNum x, KNum y => x <=? y
  | KNum _, KStr _ => true
  | KStr _, (KEmpty | KMissing | KNum _) => false
  | KStr x, KStr y => String.leb x y
  end.

Definition of_option (o : option string) : SortKey :=
  match o with Some s => KStr s | None => KMissing end.


(** An array is compared by its smallest member in an ascending sort
    and by its largest in a descending one. *)
Definition array_key (desc : bool) (l : list string) : SortKey :=
  match l with
  | [] => KEmpty
  | x :: r =>
      KStr (fold_left
              (fun a b =>
                 if desc then (if String.leb a b then b else a)
                 else (if String.leb b a then b else a))
              r x)
  end.

(** The field [sort[sortBy]] names, for a name with no dot: the paths
    of the schema, and a missing field for any other name.  ([__v] is 0
    in every document the routes store.) *)
Definition sortKey (desc : bool) (field : string) (e : Expense.t) : SortKey :=
  if (field =? "date")%string then KNum (Expense.date e)
  else if (field =? "amount")%string then KNum (Expense.amount e)
  else if (field =? "title")%string then KStr (Expense.title e)
  else if (field =? "description")%string then of_option (Expense.description e)
  else if (field =? "paymentMethod")%string then KStr (Expense.paymentMethod e)
  else if (field =? "receipt")%string then of_option (Expense.receipt e)
  else if (field =? "createdAt")%string then KNum (Expense.createdAt e)
  else if (field =? "updatedAt")%string then KNum (Expense.updatedAt e)
  else if (field =? "tags")%string then array_key desc (Expense.tags e)
  else if (field =? "__v")%string then KNum 0
  else if (field =? "category")%string then KNum (Z.of_nat (Expense.category e))
  else if (field =? "userId")%string then KNum (Z.of_nat (Expense.userId e))
  else if (field =? "_id")%string then KNum (Z.of_nat (Expense._id e))
  else KMissing.

(** [sort[sortBy] = sortOrder === 'desc' ? -1 : 1] *)
Definition sort_le (sortBy sortOrder : string) (x y : Expense.t) : bool :=
  if (sortOrder =? "desc")%string
  then key_le (sortKey true sortBy y) (sortKey true sortBy x)
  else key_le (sortKey false sortBy x) (sortKey false sortBy y).

(** [Math.ceil(total / limit)], which is not a number to print when
    [limit] is zero. *)
Definition ceil_div (total limit : Z) : option Z :=
  if limit =? 0 then None else Some (- ((- total) / limit)).

(** A cursor's [limit(n)]: zero is no limit, and a negative [n] asks
    for one batch of at most [-n] documents, which holds 101 of them. *)
Definition cursor_limit {A} (n : Z) (l : list A) : list A :=
  if n =? 0 then l
  else if n <? 0 then Store.limit (Z.to_nat (Z.min (- n) 101)) l
       else Store.limit (Z.to_nat n) l.

Section GetAll.
(** [{ $regex: pattern, $options: 'i' }] applied to a text. *)
Variable regex_i : string -> string -> bool.

Definition in_range (q : ExpenseQuery.t) (e : Expense.t) : bool :=
  match ExpenseQuery.startDate q with
  | Some s => s <=? Expense.date e
  | None => true
  end
  && match ExpenseQuery.endDate q with
     | Some s => Expense.date e <=? s
     | None => true
     end.

Definition found (q : ExpenseQuery.t) (e : Expense.t) : bool :=
  match ExpenseQuery.search q with
  | Some s =>
      if JsString.truthy s then
        regex_i s (Expense.title e)
        || match Expense.description e with
           | Some d => regex_i s d
           | None => false
           end
      else true
  | None => true
  end.

(** The [query] object the handler builds. *)
Definition matches (user : User.t) (q : ExpenseQuery.t) (e : Expense.t) : bool :=
  owned_by (User._id user) e
  && match ExpenseQuery.category q with
     | Some c => (Expense.category e =? c)%nat
     | None => true
     end
  && in_range q e
  && found q e.

(** GET /api/expenses *)
Definition getAll (user : User.t) (q : ExpenseQuery.t) (db : Db) : Response :=
  let page := default (ExpenseQuery.page q) 1 in
  let limit := default (ExpenseQuery.limit q) 10 in
  let sortBy := default (ExpenseQuery.sortBy q) "date" in
  let sortOrder := default (ExpenseQuery.sortOrder q) "desc" in
  let matching := filter (matches user q) (expenses db) in
  let skip := (page - 1) * limit in
  if skip <? 0 then fail 500 "Server error"
  else
    let expenses :=
      map (populate db)
        (cursor_limit (limit * 1)
           (Store.skip (Z.to_nat skip)
              (Store.sort (sort_le sortBy sortOrder) matching))) in
    let total := Z.of_nat (List.length matching) in
    ok (ExpensePage expenses (ceil_div total limit) page total).
End GetAll.

(** GET /api/expenses/:id *)
Definition get (user : User.t) (id : ObjectId) (db : Db) : Response :=
  match Store.findOne
          (fun e => (Expense._id e =? id)%nat && owned_by (User._id user) e)
          (expenses db) with
  | None => fail 404 "Expense not found"
  | Some expense => ok (ExpenseOne (populate db expense))
  end.

(** "Verify category belongs to user" *)
Definition categoryExists (user : User.t) (category : ObjectId) (db : Db)
  : option Category.t :=
  Store.findOne
    (fun c => (Category._id c =? category)%nat
              && Categories.owned_by (User._id user) c)
    (categories db).

(** [Expense.create(doc)], and one document of [Expense.insertMany]:
    the document when the schema accepts it, with [date] for its
    date. *)
Definition create (user : User.t) (now : Z) (id category : ObjectId) (date : Z)
           (b : ExpenseBody.t) : option Expense.t :=
  let title := Validator.toString (ExpenseBody.title b) in
  if Schema.required_string title then
    match Schema.amount_valid (ExpenseBody.amount b),
          Schema.paymentMethod_valid (ExpenseBody.paymentMethod b) with
    | Some amount, Some paymentMethod =>
        Some (Expense.mk id (JsString.trim title) amount
                (option_map JsString.trim (ExpenseBody.description b))
                category (User._id user)
                date
                paymentMethod
                (map JsString.trim (default (ExpenseBody.tags b) []))
                None now now)
    | _, _ => None
    end
  else None.

(** [date || new Date()]: an absent date and the number 0 are falsy. *)
Definition date_or_now (date : option Z) (now : Z) : Z :=
  match date with
  | Some t => if t =? 0 then now else t
  | None => now
  end.

(** The document of POST /api/expenses. *)
Definition new_expense (user : User.t) (now : Z) (id category : ObjectId)
           (b : ExpenseBody.t) : option Expense.t :=
  create user now id category (date_or_now (ExpenseBody.date b) now) b.

(** POST /api/expenses *)
Definition post (user : User.t) (now : Z) (b : ExpenseBody.t) (db : Db)
  : Response * Db :=
  let errors :=
    (Validator.rule (Validator.notEmpty (ExpenseBody.title b)) "Title is required"
     ++ Validator.rule (Validator.isNumeric (ExpenseBody.amount b))
          "Amount must be a number"
     ++ Validator.rule
          (match ExpenseBody.category b with Some _ => true | None => false end)
          "Category is required")%list in
  if negb (Validator.isEmpty errors)
  then (mkResponse 400 false (Errors errors), db)
  else
    match ExpenseBody.category b with
    | None => (fail 500 "Server error", db)
    | Some category =>
        match categoryExists user category db with
        | None => (fail 400 "Invalid category", db)
        | Some _ =>
            match new_expense user now (nextId db) category b with
            | None => (fail 500 "Server error", db)
            | Some expense =>
                let db' := insert_expense db expense in
                (created (ExpenseSaved "Expense created successfully"
                            (populate db' expense)),
                 db')
            end
        end
    end.

(** The update document
    [{ title, amount, description, category, date, paymentMethod, tags }]:
    a field that is [undefined] is left as it is, and the schema's
    [timestamps] set [updatedAt] to the time of the update. *)
Definition apply_update (now : Z) (b : ExpenseBody.t) (e : Expense.t) : Expense.t :=
  Expense.mk (Expense._id e)
    (match ExpenseBody.title b with
     | Some s => JsString.trim s
     | None => Expense.title e
     end)
    (match ExpenseBody.amount b with
     | AmountNumber z => z
     | AmountUndefined | AmountNaN => Expense.amount e
     end)
    (match ExpenseBody.description b with
     | Some s => Some (JsString.trim s)
     | None => Expense.description e
     end)
    (default (ExpenseBody.category b) (Expense.category e))
    (Expense.userId e)
    (default (ExpenseBody.date b) (Expense.date e))
    (default (ExpenseBody.paymentMethod b) (Expense.paymentMethod e))
    (match ExpenseBody.tags b with
     | Some l => map JsString.trim l
     | None => Expense.tags e
     end)
    (Expense.receipt e) (Expense.createdAt e) now.

(** The update validators, on the fields the update sets. *)
Definition update_valid (b : ExpenseBody.t) : bool :=
  match ExpenseBody.title b with
  | Some s => Schema.required_string s
  | None => true
  end
  && match ExpenseBody.amount b with
     | AmountUndefined => true
     | a => match Schema.amount_valid a with Some _ => true | None => false end
     end
  && match ExpenseBody.paymentMethod b with
     | Some s => existsb (String.eqb s) Expense.paymentMethods
     | None => true
     end.

(** PUT /api/expenses/:id *)
Definition put (user : User.t) (now : Z) (id : ObjectId) (b : ExpenseBody.t)
           (db : Db) : Response * Db :=
  let invalidCategory :=
    match ExpenseBody.category b with
    | Some category =>
        match categoryExists user category db with
        | Some _ => false
        | None => true
        end
    | None => false
    end in
  if invalidCategory then (fail 400 "Invalid category", db)
  else if update_valid b then
    match Store.findOneAndUpdate
            (fun e => (Expense._id e =? id)%nat && owned_by (User._id user) e)
            (apply_update now b) (expenses db) with
    | (None, _) => (fail 404 "Expense not found", db)
    | (Some expense, es) =>
        let db' := set_expenses db es in
        (ok (ExpenseSaved "Expense updated successfully" (populate db' expense)),
         db')
    end
  else (fail 500 "Server error", db).

(** DELETE /api/expenses/:id *)
Definition delete (user : User.t) (id : ObjectId) (db : Db) : Response * Db :=
  match Store.findOneAndDelete
          (fun e => (Expense._id e =? id)%nat && owned_by (User._id user) e)
          (expenses db) with
  | (None, _) => (fail 404 "Expense not found", db)
  | (Some _, es) =>
      (ok (Message "Expense deleted successfully"), set_expenses db es)
  end.

End Expenses.

(* ------------------------------------------------------------------ *)
(** ** routes/reports.js *)

Module Reports.

Definition sum_amounts (l : list Expense.t) : Z := Store.sum Expense.amount l.

(** [$group: { _id: null, total: { $sum: '$amount' }, count: { $sum: 1 } }] *)
Definition group_all (l : list Expense.t) : list (Group.t unit) :=
  Store.group (fun _ _ => true) (fun _ => tt) Expense.amount l.

(** [groups[0]?.total || 0] and [groups[0]?.count || 0] *)
Definition first_total {K} (groups : list (Group.t K)) : Z :=
  match groups with g :: _ => Group.total g | [] => 0 end.
Definition first_count {K} (groups : list (Group.t K)) : Z :=
  match groups with g :: _ => Group.count g | [] => 0 end.

Definition months : list string :=
  ["Jan"; "Feb"; "Mar"; "Apr"; "May"; "Jun";
   "Jul"; "Aug"; "Sep"; "Oct"; "Nov"; "Dec"].

(** [months.map((month, index) => ...)] *)
Fixpoint mapi {A B} (f : A -> Z -> B) (index : Z) (l : list A) : list B :=
  match l with
  | [] => []
  | x :: r => f x index :: mapi f (index + 1) r
  end.

Section Zone.
Variable tz : Z.

(** [$match: { userId, date: { $gte: start } }] *)
Definition since (user : User.t) (start : Z) (db : Db) : list Expense.t :=
  filter (fun e => Expenses.owned_by (User._id user) e
                   && (start <=? Expense.date e))
    (expenses db).

(** The category breakdown: [$group] by category, [$lookup] in the
    categories, [$unwind], [$project], [$sort: { total: -1 }]. *)
Definition breakdown (user : User.t) (start : Z) (db : Db) : list BreakdownEntry :=
  let groups := Store.group Nat.eqb Expense.category Expense.amount
                  (since user start db) in
  let joined :=
    flat_map
      (fun g =>
         map (fun c =>
                mkBreakdown (Group._id g) (Group.total g) (Group.count g)
                  (Category.name c) (Category.color c) (Category.icon c))
           (filter (fun c => (Category._id c =? Group._id g)%nat)
              (categories db)))
      groups in
  Store.sort (fun x y => breakdown_total y <=? breakdown_total x) joined.

Definition startOfMonth (now : Z) : Z :=
  JsDate.Date_of tz (JsDate.getFullYear tz now) (JsDate.getMonth tz now) 1.

Definition startOfYear (now : Z) : Z :=
  JsDate.Date_of tz (JsDate.getFullYear tz now) 0 1.

(** GET /api/reports/dashboard *)
Definition dashboard (user : User.t) (now : Z) (db : Db) : Response :=
  let monthlyExpenses := group_all (since user (startOfMonth now) db) in
  let yearlyExpenses := group_all (since user (startOfYear now) db) in
  let categoryBreakdown := breakdown user (startOfMonth now) db in
  let recentExpenses :=
    map (populate db)
      (Store.limit 5
         (Store.sort (fun x y => Expense.date y <=? Expense.date x)
            (filter (Expenses.owned_by (User._id user)) (expenses db)))) in
  ok (Dashboard
        (mkDashboard
           (mkMonthly (first_total monthlyExpenses)
              (first_count monthlyExpenses)
              (User.monthlyBudget user)
              (User.monthlyBudget user - first_total monthlyExpenses))
           (mkYearly (first_total yearlyExpenses) (first_count yearlyExpenses))
           categoryBreakdown recentExpenses)).

(** The aggregation of the monthly chart: [$match] on the year,
    [$group] by [$month], [$sort: { _id: 1 }]. *)
Definition monthlyData (user : User.t) (year : Z) (db : Db) : list (Group.t Z) :=
  Store.sort (fun x y => Group._id x <=? Group._id y)
    (Store.group Z.eqb (fun e => JsDate.utcMonth (Expense.date e)) Expense.amount
       (filter (fun e => Expenses.owned_by (User._id user) e
                         && (JsDate.Date_of tz year 0 1 <=? Expense.date e)
                         && (Expense.date e <? JsDate.Date_of tz (year + 1) 0 1))
          (expenses db))).

Definition chartData (data : list (Group.t Z)) : list ChartEntry :=
  mapi (fun month index =>
          let found := find (fun item => Group._id item =? index + 1) data in
          mkChartEntry month
            (match found with Some g => Group.total g | None => 0 end)
            (match found with Some g => Group.count g | None => 0 end))
    0 months.

(** GET /api/reports/monthly-chart *)
Definition monthlyChart (user : User.t) (now : Z) (year : option Z) (db : Db)
  : Response :=
  let year := Expenses.default year (JsDate.getFullYear tz now) in
  ok (Chart (chartData (monthlyData user year db))).

(** GET /api/reports/trends *)
Definition trends (user : User.t) (now : Z) (period : option Z) (db : Db)
  : Response :=
  let days := Expenses.default period 30 in
  let startDate := JsDate.setDate tz now (JsDate.getDate tz now - days) in
  let matched := since user startDate db in
  if forallb (fun e => match JsDate.dateToString (Expense.date e) with
                       | Some _ => true
                       | None => false
                       end) matched
  then
    ok (Trends
          (Store.sort (fun x y => String.leb (Group._id x) (Group._id y))
             (Store.group String.eqb
                (fun e => Expenses.default (JsDate.dateToString (Expense.date e)) "")
                Expense.amount matched)))
  else fail 500 "Server error".
End Zone.

End Reports.

(* ------------------------------------------------------------------ *)
(** ** routes/auth.js: registration *)

Module RegisterBody.
Record t := mk {
  username : option string;
  email : option string;
  password : option string;
  fullName : option string;
  monthlyBudget : option Z;
  currency : option string
}.
End RegisterBody.

Module Auth.

Record Seed := mkSeed {
  name : string;
  icon : string;
  color : string
}.

Definition defaultCategories : list Seed :=
  [ mkSeed "Food & Dining" "fas fa-utensils" "#e74c3c";
    mkSeed "Transportation" "fas fa-car" "#3498db";
    mkSeed "Shopping" "fas fa-shopping-bag" "#f39c12";
    mkSeed "Entertainment" "fas fa-film" "#9b59b6";
    mkSeed "Bills & Utilities" "fas fa-file-invoice" "#34495e";
    mkSeed "Healthcare" "fas fa-heartbeat" "#e67e22";
    mkSeed "Education" "fas fa-graduation-cap" "#2ecc71";
    mkSeed "Other" "fas fa-ellipsis-h" "#95a5a6" ].

(** [Category.insertMany(categories)]: one batch, the documents in the
    order of the array. *)
Definition insertMany (docs : list (ObjectId -> Category.t)) (db : Db) : Db :=
  fold_left (fun db doc => insert_category db (doc (nextId db))) docs db.

Definition view (u : User.t) : UserView :=
  mkUserView (User._id u) (User.username u) (User.email u) (User.fullName u)
    (User.monthlyBudget u) (User.currency u).

Section Register.
(** The collaborators: validator.js, bcryptjs and jsonwebtoken. *)
Variable isEmail : string -> bool.
Variable hash : string -> string.
Variable sign : ObjectId -> string.

(** [User.create(...)]: the document when the schema accepts it. *)
Definition new_user (id : ObjectId) (b : RegisterBody.t) : option User.t :=
  let username := JsString.trim (Validator.toString (RegisterBody.username b)) in
  let email :=
    JsString.toLowerCase
      (JsString.trim (Validator.toString (RegisterBody.email b))) in
  let password := hash (Validator.toString (RegisterBody.password b)) in
  let fullName := JsString.trim (Validator.toString (RegisterBody.fullName b)) in
  if ((3 <=? String.length username) && (String.length username <=? 30)
      && negb (email =? "")%string
      && (6 <=? String.length password)
      && negb (fullName =? "")%string)%nat
  then
    Some (User.mk id username email password fullName
            (Expenses.default (RegisterBody.monthlyBudget b) 0)
            (JsString.or_default (RegisterBody.currency b) "INR"))
  else None.

(** POST /api/auth/register *)
Definition register (now : Z) (b : RegisterBody.t) (db : Db) : Response * Db :=
  let errors :=
    (Validator.rule (Validator.isLength_min 3 (RegisterBody.username b))
       "Username must be at least 3 characters"
     ++ Validator.rule (isEmail (Validator.toString (RegisterBody.email b)))
          "Please enter a valid email"
     ++ Validator.rule (Validator.isLength_min 6 (RegisterBody.password b))
          "Password must be at least 6 characters"
     ++ Validator.rule (Validator.notEmpty (RegisterBody.fullName b))
          "Full name is required")%list in
  if negb (Validator.isEmpty errors)
  then (mkResponse 400 false (Errors errors), db)
  else
    let username := JsString.trim (Validator.toString (RegisterBody.username b)) in
    let email :=
      JsString.toLowerCase
        (JsString.trim (Validator.toString (RegisterBody.email b))) in
    let existingUser :=
      Store.findOne
        (fun u => (User.email u =? email)%string
                  || (User.username u =? username)%string)
        (users db) in
    match existingUser with
    | Some _ =>
        (fail 400 "User already exists with this email or username", db)
    | None =>
        match new_user (nextId db) b with
        | None => (fail 500 "Server error during registration", db)
        | Some user =>
            let categories :=
              map (fun cat id =>
                     Category.mk id (name cat) None (color cat) (icon cat)
                       (User._id user) true now)
                defaultCategories in
            let db' := insertMany categories (insert_user db user) in
            (created (Registered "User registered successfully"
                        (sign (User._id user)) (view user)),
             db')
        end
    end.
End Register.

End Auth.

(* ------------------------------------------------------------------ *)
(** ** Requests of an authenticated caller *)

(** The routes behind the [auth] middleware that read or change
    categories and expenses. *)
Inductive Request :=
| GetCategories
| PostCategory (b : CategoryBody.t)
| PutCategory (id : ObjectId) (b : CategoryBody.t)
| DeleteCategory (id : ObjectId)
| GetExpenses (q : ExpenseQuery.t)
| GetExpense (id : ObjectId)
| PostExpense (b : ExpenseBody.t)
| PutExpense (id : ObjectId) (b : ExpenseBody.t)
| DeleteExpense (id : ObjectId)
| GetDashboard
| GetMonthlyChart (year : option Z)
| GetTrends (period : option Z).

Section Server.
Variable tz : Z.
Variable regex_i : string -> string -> bool.

(** One request of [user], received at time [now]. *)
Definition handle (user : User.t) (now : Z) (r : Request) (db : Db)
  : Response * Db :=
  match r with
  | GetCategories => (Categories.get user db, db)
  | PostCategory b => Categories.post user now b db
  | PutCategory id b => Categories.put user id b db
  | DeleteCategory id => Categories.delete user id db
  | GetExpenses q => (Expenses.getAll regex_i user q db, db)
  | GetExpense id => (Expenses.get user id db, db)
  | PostExpense b => Expenses.post user now b db
  | PutExpense id b => Expenses.put user now id b db
  | DeleteExpense id => Expenses.delete user id db
  | GetDashboard => (Reports.dashboard tz user now db, db)
  | GetMonthlyChart year => (Reports.monthlyChart tz user now year db, db)
  | GetTrends period => (Reports.trends tz user now period db, db)
  end.
End Server.




(* ------------------------------------------------------------------ *)
(** ** Identifiers as a request gives them *)

(** A route parameter [:id] and the [category] field of a body are
    text.  Mongoose casts the text to an ObjectId where a filter wants
    one; the cast of any other text throws a CastError, which the
    [catch] of every handler answers with 500. *)
Inductive IdText :=
| IsId (id : ObjectId)     (* text that casts to an ObjectId *)
| NoId (text : string).    (* any other text *)

Module Route.

(** PUT /api/categories/:id *)
Definition putCategory (user : User.t) (id : IdText) (b : CategoryBody.t) (db : Db)
  : Response * Db :=
  match id with
  | IsId id => Categories.put user id b db
  | NoId _ => (fail 500 "Server error", db)
  end.

(** DELETE /api/categories/:id *)
Definition deleteCategory (user : User.t) (id : IdText) (db : Db) : Response * Db :=
  match id with
  | IsId id => Categories.delete user id db
  | NoId _ => (fail 500 "Server error", db)
  end.

(** GET /api/expenses/:id *)
Definition getExpense (user : User.t) (id : IdText) (db : Db) : Response :=
  match id with
  | IsId id => Expenses.get user id db
  | NoId _ => fail 500 "Server error"
  end.

(** DELETE /api/expenses/:id *)
Definition deleteExpense (user : User.t) (id : IdText) (db : Db) : Response * Db :=
  match id with
  | IsId id => Expenses.delete user id db
  | NoId _ => (fail 500 "Server error", db)
  end.

Definition with_category (b : ExpenseBody.t) (category : option ObjectId)
  : ExpenseBody.t :=
  ExpenseBody.mk (ExpenseBody.title b) (ExpenseBody.amount b)
    (ExpenseBody.description b) category (ExpenseBody.date b)
    (ExpenseBody.paymentMethod b) (ExpenseBody.tags b).

(** POST /api/expenses, with the [category] of the body as text and the
    other fields in [b].  The rules run first; a category that is no
    ObjectId then makes [Category.findOne] throw. *)
Definition postExpense (user : User.t) (now : Z) (category : option IdText)
           (b : ExpenseBody.t) (db : Db) : Response * Db :=
  match category with
  | None => Expenses.post user now (with_category b None) db
  | Some (IsId id) => Expenses.post user now (with_category b (Some id)) db
  | Some (NoId text) =>
      let errors :=
        (Validator.rule (Validator.notEmpty (ExpenseBody.title b)) "Title is required"
         ++ Validator.rule (Validator.isNumeric (ExpenseBody.amount b))
              "Amount must be a number"
         ++ Validator.rule (Validator.notEmpty (Some text)) "Category is required")%list in
      if negb (Validator.isEmpty errors)
      then (mkResponse 400 false (Errors errors), db)
      else (fail 500 "Server error", db)
  end.

End Route.

(* ------------------------------------------------------------------ *)
(** ** Invariants of the store *)

Module Invariant.

Fixpoint distinct (l : list ObjectId) : bool :=
  match l with
  | [] => true
  | x :: r => negb (existsb (Nat.eqb x) r) && distinct r
  end.

Definition below (n : ObjectId) (l : list ObjectId) : bool :=
  forallb (fun x => (x <? n)%nat) l.

(** An expense and a category it names have the same owner. *)
Definition same_owner (cs : list Category.t) (e : Expense.t) : bool :=
  forallb (fun c => implb (Category._id c =? Expense.category e)%nat
                      (Category.userId c =? Expense.userId e)%nat) cs.

(** What MongoDB and the handlers maintain: [_id] is unique in each
    collection, every ObjectId in the store was handed out before
    [nextId], and an expense's category belongs to the expense's user. *)
Definition wf (db : Db) : bool :=
  distinct (map User._id (users db))
  && distinct (map Category._id (categories db))
  && distinct (map Expense._id (expenses db))
  && below (nextId db) (map User._id (users db))
  && below (nextId db) (map Category._id (categories db))
  && below (nextId db) (map Category.userId (categories db))
  && below (nextId db) (map Expense._id (expenses db))
  && below (nextId db) (map Expense.category (expenses db))
  && forallb (same_owner (categories db)) (expenses db).

(** [name: { required: true, trim: true }] on every stored category. *)
Definition names_ok (db : Db) : bool :=
  forallb (fun c => (JsString.trim (Category.name c) =? Category.name c)%string
                    && negb (Category.name c =? "")%string)
    (categories db).

(** [amount: { min: 0 }] on every stored expense. *)
Definition amounts_ok (db : Db) : bool :=
  forallb (fun e => 0 <=? Expense.amount e) (expenses db).

End Invariant.

(** The store before the first request. *)
Definition empty : Db := mkDb [] [] [] 0%nat.

(** The stores the server can be in: it starts empty, users register,
    and registered users send requests. *)
Section Reachable.
Variable tz : Z.
Variable regex_i : string -> string -> bool.
Variable isEmail : string -> bool.
Variable hash : string -> string.
Variable sign : ObjectId -> string.

Inductive reachable : Db -> Prop :=
| reachable_empty : reachable empty
| reachable_register (now : Z) (b : RegisterBody.t) (db : Db) :
    reachable db ->
    reachable (snd (Auth.register isEmail hash sign now b db))
| reachable_handle (caller : User.t) (now : Z) (r : Request) (db : Db) :
    reachable db -> In caller (users db) ->
    reachable (snd (handle tz regex_i caller now r db)).
End Reachable.

(** The store with one document taken out. *)
Definition without_expense (id : ObjectId) (db : Db) : Db :=
  set_expenses db (filter (fun e => negb (Expense._id e =? id)%nat) (expenses db)).

Definition without_category (id : ObjectId) (db : Db) : Db :=
  set_categories db
    (filter (fun c => negb (Category._id c =? id)%nat) (categories db)).

(* ------------------------------------------------------------------ *)
(** ** Answers of the routes outside categories, expenses and reports *)

(** [res.status(status).json({ success, ...body })]. *)
Module Reply.
Record t (B : Type) := mk {
  status : Z;
  success : bool;
  body : B
}.
Arguments mk {B} _ _ _.
Arguments status {B} _.
Arguments success {B} _.
Arguments body {B} _.
End Reply.

Definition set_users (db : Db) (us : list User.t) : Db :=
  mkDb us (categories db) (expenses db) (nextId db).

(* ------------------------------------------------------------------ *)
(** ** middleware/auth.js *)

Module JsText.

Fixpoint drop (n : nat) (s : string) : string :=
  match n, s with
  | O, _ => s
  | S _, EmptyString => EmptyString
  | S n', String _ r => drop n' r
  end.

(** [s.replace(pattern, replacement)] with a string for a pattern: the
    first occurrence is replaced. *)
Fixpoint replace (pattern replacement s : string) {struct s} : string :=
  if String.prefix pattern s
  then (replacement ++ drop (String.length pattern) s)%string
  else match s with
       | EmptyString => EmptyString
       | String c r => String c (replace pattern replacement r)
       end.

End JsText.

Module Middleware.

(** What the middleware reads of a request: the [Authorization] header
    and [req.cookies?.token]. *)
Record Headers := mkHeaders {
  authorization : option string;
  cookie_token : option string
}.

(** [.select('-password')]: the document without its password.  The
    record keeps the field, left empty; no handler reads it. *)
Definition without_password (u : User.t) : User.t :=
  User.mk (User._id u) (User.username u) (User.email u) ""
    (User.fullName u) (User.monthlyBudget u) (User.currency u).

(** [req.header('Authorization')?.replace('Bearer ', '') || req.cookies?.token] *)
Definition token_of (h : Headers) : option string :=
  match option_map (JsText.replace "Bearer " "") (authorization h) with
  | Some t => if JsString.truthy t then Some t else cookie_token h
  | None => cookie_token h
  end.

Section Auth.
(** [jwt.verify(token, secret)]: the [id] of the payload, or [None] when
    it throws. *)
Variable verify : string -> option ObjectId.

(** The middleware: the answer it sends, or the [req.user] it hands to
    the route. *)
Definition auth (h : Headers) (db : Db) : Reply.t string + User.t :=
  let denied := Reply.mk 401 false "Access denied. No token provided." in
  let invalid := Reply.mk 401 false "Invalid token." in
  match token_of h with
  | None => inl denied
  | Some token =>
      if negb (JsString.truthy token) then inl denied
      else
        match verify token with
        | None => inl invalid
        | Some id =>
            match Store.findOne (fun u => (User._id u =? id)%nat) (users db) with
            | None => inl invalid
            | Some user => inr (without_password user)
            end
        end
  end.
End Auth.

End Middleware.

(* ------------------------------------------------------------------ *)
(** ** routes/auth.js: login and profile *)

Module LoginBody.
Record t := mk {
  identifier : option string;
  password : option string
}.
End LoginBody.

Module ProfileBody.
Record t := mk {
  fullName : option string;
  monthlyBudget : JsAmount;
  currency : option string
}.
End ProfileBody.

Module Session.

Inductive Body :=
| Errors (errors : list string)
| Message (message : string)
| LoggedIn (message token : string) (user : UserView)
| Profile (user : UserView)
| ProfileSaved (message : string) (user : option User.t).

Section Login.
(** The collaborators: bcryptjs and jsonwebtoken. *)
Variable compare : string -> string -> bool.
Variable sign : ObjectId -> string.

(** POST /api/auth/login *)
Definition login (b : LoginBody.t) (db : Db) : Reply.t Body :=
  let errors :=
    (Validator.rule (Validator.notEmpty (LoginBody.identifier b))
       "Username or email is required"
     ++ Validator.rule (Validator.notEmpty (LoginBody.password b))
          "Password is required")%list in
  if negb (Validator.isEmpty errors)
  then Reply.mk 400 false (Errors errors)
  else
    let identifier := Validator.toString (LoginBody.identifier b) in
    let password := Validator.toString (LoginBody.password b) in
    (* the schema trims both paths and lowers [email], in the filter too *)
    let user :=
      Store.findOne
        (fun u => (User.email u =? JsString.toLowerCase (JsString.trim identifier))%string
                  || (User.username u =? JsString.trim identifier)%string)
        (users db) in
    match user with
    | None => Reply.mk 400 false (Message "Invalid credentials")
    | Some user =>
        if compare password (User.password user)
        then Reply.mk 200 true
               (LoggedIn "Login successful" (sign (User._id user)) (Auth.view user))
        else Reply.mk 400 false (Message "Invalid credentials")
    end.
End Login.

(** GET /api/auth/profile *)
Definition getProfile (user : User.t) : Reply.t Body :=
  Reply.mk 200 true (Profile (Auth.view user)).

(** [updateData], field by field: [if (fullName)], [if (monthlyBudget
    !== undefined)], [if (currency)]. *)
Definition updated_fullName (b : ProfileBody.t) : option string :=
  match ProfileBody.fullName b with
  | Some s => if JsString.truthy s then Some s else None
  | None => None
  end.

Definition updated_currency (b : ProfileBody.t) : option string :=
  match ProfileBody.currency b with
  | Some s => if JsString.truthy s then Some s else None
  | None => None
  end.

Definition apply_update (b : ProfileBody.t) (u : User.t) : User.t :=
  User.mk (User._id u) (User.username u) (User.email u) (User.password u)
    (match updated_fullName b with
     | Some s => JsString.trim s
     | None => User.fullName u
     end)
    (match ProfileBody.monthlyBudget b with
     | AmountNumber z => z
     | AmountUndefined | AmountNaN => User.monthlyBudget u
     end)
    (match updated_currency b with
     | Some s => s
     | None => User.currency u
     end).

(** The update validators and casts, on the fields the update sets:
    [fullName] is required once trimmed, [monthlyBudget] is a number. *)
Definition update_valid (b : ProfileBody.t) : bool :=
  match updated_fullName b with
  | Some s => Schema.required_string s
  | None => true
  end
  && match ProfileBody.monthlyBudget b with
     | AmountNaN => false
     | AmountUndefined | AmountNumber _ => true
     end.

(** PUT /api/auth/profile *)
Definition updateProfile (user : User.t) (b : ProfileBody.t) (db : Db)
  : Reply.t Body * Db :=
  let errors :=
    (Validator.rule
       (match ProfileBody.fullName b with
        | Some _ => Validator.notEmpty (ProfileBody.fullName b)
        | None => true
        end)
       "Full name cannot be empty"
     ++ Validator.rule
          (match ProfileBody.monthlyBudget b with
           | AmountUndefined => true
           | a => Validator.isNumeric a
           end)
          "Monthly budget must be a number")%list in
  if negb (Validator.isEmpty errors)
  then (Reply.mk 400 false (Errors errors), db)
  else if update_valid b then
    match Store.findOneAndUpdate
            (fun u => (User._id u =? User._id user)%nat)
            (apply_update b) (users db) with
    | (None, _) =>
        (Reply.mk 200 true (ProfileSaved "Profile updated successfully" None), db)
    | (Some updated, us) =>
        (Reply.mk 200 true
           (ProfileSaved "Profile updated successfully"
              (Some (Middleware.without_password updated))),
         set_users db us)
    end
  else (Reply.mk 500 false (Message "Server error"), db).

End Session.

(* ------------------------------------------------------------------ *)
(** ** utils/helpers.js *)

Module Helpers.







Record DateRange := mkRange {
  range_start : Z;
  range_end : Z
}.

Record DateRanges := mkRanges {
  today : DateRange;
  thisWeek : DateRange;
  thisMonth : DateRange;
  thisYear : DateRange;
  lastMonth : DateRange;
  last30Days : DateRange
}.

Section Zone.
Variable tz : Z.

(** [getDay]: 0 for Sunday; 1 January 1970 was a Thursday. *)
Definition getDay (t : Z) : Z :=
  (JsDate.localTime tz t / JsDate.msPerDay + 4) mod 7.

Definition getDateRanges (now : Z) : DateRanges :=
  let year := JsDate.getFullYear tz now in
  let month := JsDate.getMonth tz now in
  let date := JsDate.getDate tz now in
  let day := getDay now in
  mkRanges
    (mkRange (JsDate.Date_of tz year month date)
             (JsDate.Date_of tz year month (date + 1)))
    (mkRange (JsDate.Date_of tz year month (date - day))
             (JsDate.Date_of tz year month (date - day + 7)))
    (mkRange (JsDate.Date_of tz year month 1)
             (JsDate.Date_of tz year (month + 1) 1))
    (mkRange (JsDate.Date_of tz year 0 1)
             (JsDate.Date_of tz (year + 1) 0 1))
    (mkRange (JsDate.Date_of tz year (month - 1) 1)
             (JsDate.Date_of tz year month 1))
    (mkRange (now - 30 * 24 * 60 * 60 * 1000) now).
End Zone.

End Helpers.

(* ------------------------------------------------------------------ *)
(** ** middleware/error-handler.js *)

Module ErrorHandler.

(** What the handler reads of an error: [errors] are the messages of
    [Object.values(err.errors)]. *)
Record Err := mkErr {
  name : string;
  message : string;
  code : option Z;
  statusCode : option Z;
  errors : list string;
  stack : string
}.

Record Answer := mkAnswer {
  answer_status : Z;
  answer_success : bool;
  answer_message : string;
  answer_stack : option string
}.

(** [array.join(separator)] *)
Fixpoint join (separator : string) (l : list string) : string :=
  match l with
  | [] => ""
  | x :: r =>
      match r with
      | [] => x
      | _ => (x ++ separator ++ join separator r)%string
      end
  end.

Definition code_is (n : Z) (c : option Z) : bool :=
  match c with Some z => z =? n | None => false end.

(** [development] is [process.env.NODE_ENV === 'development']. *)
Definition errorHandler (development : bool) (err : Err) : Answer :=
  let error := (message err, statusCode err) in
  let error :=
    if (name err =? "CastError")%string
    then ("Invalid ID format", Some 400) else error in
  let error :=
    if code_is 11000 (code err)
    then ("Duplicate field value entered", Some 400) else error in
  let error :=
    if (name err =? "ValidationError")%string
    then (join ", " (errors err), Some 400) else error in
  let error :=
    if (name err =? "JsonWebTokenError")%string
    then ("Invalid token", Some 401) else error in
  let error :=
    if (name err =? "TokenExpiredError")%string
    then ("Token expired", Some 401) else error in
  mkAnswer
    (match snd error with
     | Some s => if s =? 0 then 500 else s
     | None => 500
     end)
    false
    (if JsString.truthy (fst error) then fst error else "Server Error")
    (if development then Some (stack err) else None).

End ErrorHandler.

(* ------------------------------------------------------------------ *)
(** ** routes/test.js (mounted in development only) *)

Module TestRoutes.

Inductive Body :=
| Message (message : string)
| Seeded (message : string) (count : Z)
| Stats (totalUsers userCategories userExpenses : Z).

(** One entry of [sampleExpenses]: its category is the caller's
    category of the name [wanted], or else [categories[fallback]]. *)
Record SampleExpense := mkSample {
  sample_title : string;
  sample_amount : Z;
  sample_description : string;
  wanted : string;
  fallback : nat;
  sample_paymentMethod : string;
  daysAgo : Z
}.

Definition sampleExpenses : list SampleExpense :=
  [ mkSample "Grocery Shopping" 2500 "Weekly grocery shopping at supermarket"
      "Food & Dining" 0 "card" 2;
    mkSample "Uber Ride" 450 "Ride to office"
      "Transportation" 1 "upi" 1;
    mkSample "Movie Tickets" 800 "Weekend movie with friends"
      "Entertainment" 2 "card" 3;
    mkSample "Electricity Bill" 1200 "Monthly electricity bill payment"
      "Bills & Utilities" 3 "netbanking" 5;
    mkSample "Online Shopping" 3200 "Bought clothes and accessories"
      "Shopping" 4 "card" 7 ].

(** [categories.find(c => c.name === name)?._id || categories[k]._id],
    which throws when [categories[k]] is [undefined]. *)
Definition category_for (categories : list Category.t) (name : string) (k : nat)
  : option ObjectId :=
  match find (fun c => (Category.name c =? name)%string) categories with
  | Some c => Some (Category._id c)
  | None => option_map Category._id (nth_error categories k)
  end.

Definition body_of (categories : list Category.t) (now : Z) (s : SampleExpense)
  : option ExpenseBody.t :=
  option_map
    (fun category =>
       ExpenseBody.mk (Some (sample_title s)) (AmountNumber (sample_amount s))
         (Some (sample_description s)) (Some category)
         (Some (now - daysAgo s * 24 * 60 * 60 * 1000))
         (Some (sample_paymentMethod s)) None)
    (category_for categories (wanted s) (fallback s)).

Fixpoint all_some {A} (l : list (option A)) : option (list A) :=
  match l with
  | [] => Some []
  | None :: _ => None
  | Some x :: r => option_map (cons x) (all_some r)
  end.

(** [Expense.insertMany(docs)] for the caller: every document is
    validated against the schema, and nothing is written unless all
    pass. *)
Fixpoint insertMany (user : User.t) (now : Z) (docs : list ExpenseBody.t) (db : Db)
  : option Db :=
  match docs with
  | [] => Some db
  | b :: r =>
      match ExpenseBody.category b with
      | None => None
      | Some category =>
          match Expenses.create user now (nextId db) category
                  (Expenses.default (ExpenseBody.date b) now) b with
          | None => None
          | Some e => insertMany user now r (insert_expense db e)
          end
      end
  end.

(** POST /api/test/seed-data *)
Definition seedData (user : User.t) (now : Z) (db : Db) : Reply.t Body * Db :=
  let categories :=
    filter (Categories.owned_by (User._id user)) (categories db) in
  if (List.length categories =? 0)%nat
  then (Reply.mk 400 false
          (Message "No categories found. Please create categories first."), db)
  else
    match all_some (map (body_of categories now) sampleExpenses) with
    | None => (Reply.mk 500 false (Message "Error creating sample data"), db)
    | Some docs =>
        match insertMany user now docs db with
        | None => (Reply.mk 500 false (Message "Error creating sample data"), db)
        | Some db' =>
            (Reply.mk 200 true
               (Seeded "Sample data created successfully"
                  (Z.of_nat (List.length sampleExpenses))),
             db')
        end
    end.

(** DELETE /api/test/clear-data: the caller's expenses, then the
    caller's categories that are no default. *)
Definition clearData (user : User.t) (db : Db) : Reply.t Body * Db :=
  let expenses :=
    filter (fun e => negb (Expenses.owned_by (User._id user) e)) (expenses db) in
  let categories :=
    filter (fun c => negb (Categories.owned_by (User._id user) c
                           && negb (Category.isDefault c)))
      (categories db) in
  (Reply.mk 200 true (Message "All user data cleared successfully"),
   mkDb (users db) categories expenses (nextId db)).

(** GET /api/test/stats *)
Definition stats (user : User.t) (db : Db) : Reply.t Body :=
  Reply.mk 200 true
    (Stats (Store.size (users db))
       (Store.size (filter (Categories.owned_by (User._id user)) (categories db)))
       (Store.size (filter (Expenses.owned_by (User._id user)) (expenses db)))).

End TestRoutes.

(* ------------------------------------------------------------------ *)
(** ** Every route that writes *)

Section Routes.
Variable tz : Z.
Variable regex_i : string -> string -> bool.
Variable isEmail : string -> bool.
Variable hash : string -> string.
Variable sign : ObjectId -> string.

(** One request that may change the store: a registration, or a request
    of a registered caller. *)
Inductive step (db : Db) : Db -> Prop :=
| step_register (now : Z) (b : RegisterBody.t) :
    step db (snd (Auth.register isEmail hash sign now b db))
| step_handle (caller : User.t) (now : Z) (r : Request) :
    In caller (users db) ->
    step db (snd (handle tz regex_i caller now r db))
| step_profile (caller : User.t) (b : ProfileBody.t) :
    In caller (users db) ->
    step db (snd (Session.updateProfile caller b db))
| step_seed (caller : User.t) (now : Z) :
    In caller (users db) ->
    step db (snd (TestRoutes.seedData caller now db))
| step_clear (caller : User.t) :
    In caller (users db) ->
    step db (snd (TestRoutes.clearData caller db)).

(** The stores that follow a store, and the stores the server can be in. *)
Inductive later (db : Db) : Db -> Prop :=
| later_now : later db db
| later_step (db' db'' : Db) : later db db' -> step db' db'' -> later db db''.

Definition served (db : Db) : Prop := later empty db.
End Routes.

(* ------------------------------------------------------------------ *)
(** ** A sample store *)

Module Sample.

Definition hash (s : string) : string := ("$2a$12$" ++ s)%string.
Definition sign (id : ObjectId) : string := "token".
Definition isEmail (s : string) : bool := true.

Definition alice_body : RegisterBody.t :=
  RegisterBody.mk (Some "alice") (Some "Alice@Example.com") (Some "secret1")
    (Some "Alice") (Some 5000) None.

Definition bob_body : RegisterBody.t :=
  RegisterBody.mk (Some "bob") (Some "bob@example.com") (Some "secret2")
    (Some "Bob") None (Some "USD").

(** Alice registers, then Bob: Alice is user 0 with categories 1 to 8,
    Bob is user 9 with categories 10 to 17. *)
Definition two_users : Db :=
  snd (Auth.register isEmail hash sign 2000
         bob_body
         (snd (Auth.register isEmail hash sign 1000 alice_body empty))).

Definition alice : User.t :=
  User.mk 0 "alice" "alice@example.com" (hash "secret1") "Alice" 5000 "INR".

Definition bob : User.t :=
  User.mk 9 "bob" "bob@example.com" (hash "secret2") "Bob" 0 "USD".

Definition expense (title : string) (amount : Z) (category : ObjectId) (date : Z)
  : ExpenseBody.t :=
  ExpenseBody.mk (Some title) (AmountNumber amount) None (Some category)
    (Some date) None None.

(** 2024-06-10T06:13:20Z, and a server five and a half hours east of UTC. *)
Definition now : Z := 1718000000000.
Definition tz : Z := 330.

(** Alice enters two expenses dated in June 2024. *)
Definition june : Db :=
  snd (Expenses.post alice now (expense "Lunch" 300 1 1717600000000)
         (snd (Expenses.post alice now (expense "Rent" 1200 5 1717500000000)
                 two_users))).

(** Alice has two expenses, dated ten days and two days before [now]. *)
Definition week : Db :=
  snd (Expenses.post alice now (expense "Cinema" 90 4 (now - 2 * JsDate.msPerDay))
         (snd (Expenses.post alice now
                 (expense "Books" 700 7 (now - 10 * JsDate.msPerDay))
                 two_users))).

(** Alice also enters an expense dated 12024-06-08, a year that
    [YYYY] cannot show. *)
Definition distant : Db :=
  snd (Expenses.post alice now
         (expense "Lease" 50 5 (JsDate.days_from_civil 12024 6 8 * JsDate.msPerDay))
         week).


End Sample.

(* ------------------------------------------------------------------ *)
(** ** What the routes keep of the store *)

Module Kept.

(** The validators of the schemas, on a stored document. *)
Definition valid_user (u : User.t) : bool :=
  (JsString.trim (User.username u) =? User.username u)%string
  && (3 <=? String.length (User.username u))%nat
  && (String.length (User.username u) <=? 30)%nat
  && negb (User.email u =? "")%string
  && (6 <=? String.length (User.password u))%nat
  && (JsString.trim (User.fullName u) =? User.fullName u)%string
  && negb (User.fullName u =? "")%string.

Definition valid_category (c : Category.t) : bool :=
  (JsString.trim (Category.name c) =? Category.name c)%string
  && negb (Category.name c =? "")%string.

Definition valid_expense (e : Expense.t) : bool :=
  (JsString.trim (Expense.title e) =? Expense.title e)%string
  && negb (Expense.title e =? "")%string
  && (0 <=? Expense.amount e)
  && existsb (String.eqb (Expense.paymentMethod e)) Expense.paymentMethods.

Definition schema_ok (db : Db) : bool :=
  forallb valid_user (users db)
  && forallb valid_category (categories db)
  && forallb valid_expense (expenses db).

(** Every category and every expense belongs to a registered user. *)
Definition registered (db : Db) (id : ObjectId) : bool :=
  existsb (fun u => (User._id u =? id)%nat) (users db).

Definition owners_ok (db : Db) : bool :=
  forallb (fun c => registered db (Category.userId c)) (categories db)
  && forallb (fun e => registered db (Expense.userId e)) (expenses db).

(** The default categories of a user. *)
Definition defaults_of (u : ObjectId) (db : Db) : list Category.t :=
  filter (fun c => Categories.owned_by u c && Category.isDefault c) (categories db).

End Kept.

(* ------------------------------------------------------------------ *)
(** ** The clock of a token *)

Module Jwt.

(** [{ expiresIn: '7d' }], in seconds. *)
Definition expiresIn : Z := 7 * 24 * 60 * 60.

(** A token issued at [issued] is good at [t], both in milliseconds:
    [jwt.sign] writes [iat], the whole seconds of its clock, and
    [exp = iat + expiresIn]; [jwt.verify] throws once the whole seconds
    of its clock have reached [exp]. *)
Definition fresh (issued t : Z) : bool := t / 1000 <? issued / 1000 + expiresIn.

End Jwt.

(* ------------------------------------------------------------------ *)
(** ** Sample collaborators *)

Module Demo.

(** A token that spells the identifier it was signed for, and the
    comparison of a password with a hash of [Sample.hash]. *)
Definition sign (id : ObjectId) : string :=
  ("t" ++ String.concat "" (repeat "." id))%string.

Definition verify (token : string) : option ObjectId :=
  match token with
  | String "t" rest => Some (String.length rest)
  | _ => None
  end.

Definition compare (password hashed : string) : bool :=
  (hashed =? Sample.hash password)%string.

(** A token with a clock: it spells the identifier in dots and the
    second of its issue in quotes, and expires as [Jwt.fresh] says. *)
Fixpoint count (c : ascii) (s : string) : nat :=
  match s with
  | EmptyString => 0
  | String a r => ((if Ascii.eqb a c then 1 else 0) + count c r)%nat
  end.

Definition sign_at (now : Z) (id : ObjectId) : string :=
  ("t" ++ String.concat "" (repeat "." id)
       ++ String.concat "" (repeat "'" (Z.to_nat (now / 1000))))%string.

Definition verify_at (t : Z) (token : string) : option ObjectId :=
  match token with
  | String "t" rest =>
      if Jwt.fresh (Z.of_nat (count "'" rest) * 1000) t
      then Some (count "." rest)
      else None
  | _ => None
  end.

(** Carol registers after Alice and Bob. *)
Definition carol_body : RegisterBody.t :=
  RegisterBody.mk (Some " carol ") (Some "Carol@Example.com") (Some "secret3")
    (Some "Carol") None None.

(** The two expenses of [Sample.june], as stored. *)
Definition rent : Expense.t :=
  Expense.mk 18 "Rent" 1200 None 5 0 1717500000000 "cash" [] None Sample.now Sample.now.

Definition lunch : Expense.t :=
  Expense.mk 19 "Lunch" 300 None 1 0 1717600000000 "cash" [] None Sample.now Sample.now.

(** In [Sample.june] Alice adds the category Travel, which gets the
    identifier 20, and enters an expense in it, which gets 21. *)
Definition travel : Db :=
  snd (Expenses.post Sample.alice Sample.now
         (Sample.expense "Flight" 900 20 1717700000000)
         (snd (Categories.post Sample.alice Sample.now
                 (CategoryBody.mk (Some "Travel") None None None) Sample.june))).

End Demo.

(* ================================================================== *)
(** * Properties *)

Local Open Scope list_scope.
Unset Implicit Arguments.

(** ** Queries of the store *)

Section StoreFacts.
Variable A : Type.
Variable f : A -> bool.

Lemma findOne_none (l : list A) :
  Store.findOne f l = None <-> (forall x, In x l -> f x = false).
Proof.
  unfold Store.findOne. split.
  - intros H x Hx. exact (find_none f l H x Hx).
  - induction l as [|a l IH]; simpl; intros H; [reflexivity|].
    rewrite (H a (or_introl eq_refl)). apply IH. intros x Hx. apply H. now right.
Qed.

Lemma findOne_some (l : list A) (x : A) :
  Store.findOne f l = Some x -> In x l /\ f x = true.
Proof. apply find_some. Qed.

Lemma findOneAndDelete_none (l : list A) :
  (forall x, In x l -> f x = false) -> Store.findOneAndDelete f l = (None, l).
Proof.
  induction l as [|a l IH]; simpl; intros H; [reflexivity|].
  rewrite (H a (or_introl eq_refl)), IH; [reflexivity|].
  intros x Hx. apply H. now right.
Qed.

Lemma findOneAndDelete_some (l : list A) (x : A) (l' : list A) :
  Store.findOneAndDelete f l = (Some x, l') ->
  f x = true /\ exists l1 l2, l = l1 ++ x :: l2 /\ l' = l1 ++ l2
                              /\ (forall y, In y l1 -> f y = false).
Proof.
  revert l'. induction l as [|a l IH]; simpl; intros l' H; [discriminate|].
  destruct (f a) eqn:Ha.
  - inversion H; subst. split; [assumption|].
    exists [], l'. repeat split. intros y [].
  - destruct (Store.findOneAndDelete f l) as [o r] eqn:E.
    inversion H; subst. destruct (IH r eq_refl) as (Hx & l1 & l2 & -> & -> & Hl1).
    split; [assumption|]. exists (a :: l1), l2. repeat split.
    intros y [<-|Hy]; auto.
Qed.

Lemma findOneAndDelete_found (l : list A) :
  fst (Store.findOneAndDelete f l) = None -> forall x, In x l -> f x = false.
Proof.
  induction l as [|a l IH]; simpl; intros H x Hx; [destruct Hx|].
  destruct (f a) eqn:Ha; [discriminate|].
  destruct (Store.findOneAndDelete f l) as [o r]. simpl in *.
  destruct Hx as [<-|Hx]; auto.
Qed.

Lemma findOneAndDelete_keeps (l : list A) (x : A) :
  In x l -> f x = false -> In x (snd (Store.findOneAndDelete f l)).
Proof.
  induction l as [|a l IH]; simpl; intros Hx Hf; [assumption|].
  destruct (f a) eqn:Ha.
  - destruct Hx as [<-|Hx]; [congruence|assumption].
  - destruct (Store.findOneAndDelete f l) as [o r]. simpl in *.
    destruct Hx as [<-|Hx]; [now left|right; auto].
Qed.

Variable upd : A -> A.


Lemma findOneAndUpdate_some (l : list A) (y : A) (l' : list A) :
  Store.findOneAndUpdate f upd l = (Some y, l') ->
  exists x l1 l2, l = l1 ++ x :: l2 /\ l' = l1 ++ upd x :: l2 /\ y = upd x
                  /\ f x = true /\ (forall z, In z l1 -> f z = false).
Proof.
  revert l'. induction l as [|a l IH]; simpl; intros l' H; [discriminate|].
  destruct (f a) eqn:Ha.
  - inversion H; subst. exists a, [], l. repeat split; auto. intros z [].
  - destruct (Store.findOneAndUpdate f upd l) as [o r] eqn:E.
    inversion H; subst.
    destruct (IH r eq_refl) as (x & l1 & l2 & -> & -> & -> & Hx & Hl1).
    exists x, (a :: l1), l2. repeat split; auto.
    intros z [<-|Hz]; auto.
Qed.
End StoreFacts.

Section Distinct.
Variable A : Type.
Variable id : A -> ObjectId.

Lemma existsb_eqb_In (x : ObjectId) (l : list ObjectId) :
  existsb (Nat.eqb x) l = true <-> In x l.
Proof.
  rewrite existsb_exists. split.
  - intros (y & Hy & E). apply Nat.eqb_eq in E. now subst.
  - intros H. exists x. split; [assumption|apply Nat.eqb_refl].
Qed.

Lemma distinct_NoDup (l : list ObjectId) :
  Invariant.distinct l = true <-> NoDup l.
Proof.
  induction l as [|x l IH]; simpl.
  - split; [constructor|reflexivity].
  - rewrite andb_true_iff, negb_true_iff, IH. split.
    + intros [H1 H2]. constructor; [|assumption].
      intros Hin. apply existsb_eqb_In in Hin. congruence.
    + intros H. inversion H; subst. split; [|assumption].
      destruct (existsb (Nat.eqb x) l) eqn:E; [|reflexivity].
      apply existsb_eqb_In in E. contradiction.
Qed.

(** Two documents of a collection with the same [_id] are the same
    document. *)
Lemma distinct_unique (l : list A) (x y : A) :
  Invariant.distinct (map id l) = true ->
  In x l -> In y l -> id x = id y -> x = y.
Proof.
  rewrite distinct_NoDup. induction l as [|a l IH]; simpl; [intros _ []|].
  intros H Hx Hy E. inversion H as [|? ? Hnot Hnd]; subst.
  destruct Hx as [<-|Hx], Hy as [<-|Hy]; auto.
  - exfalso. apply Hnot. rewrite E. now apply in_map.
  - exfalso. apply Hnot. rewrite <- E. now apply in_map.
Qed.
End Distinct.

(** ** The invariant, field by field *)

Lemma wf_category_ids (db : Db) :
  Invariant.wf db = true ->
  Invariant.distinct (map Category._id (categories db)) = true.
Proof. unfold Invariant.wf. rewrite !andb_true_iff. tauto. Qed.

Lemma wf_expense_ids (db : Db) :
  Invariant.wf db = true ->
  Invariant.distinct (map Expense._id (expenses db)) = true.
Proof. unfold Invariant.wf. rewrite !andb_true_iff. tauto. Qed.


Lemma below_In (n : ObjectId) (l : list ObjectId) (x : ObjectId) :
  Invariant.below n l = true -> In x l -> (x < n)%nat.
Proof.
  unfold Invariant.below. rewrite forallb_forall. intros H Hx.
  apply Nat.ltb_lt. auto.
Qed.

Lemma wf_category_owner_below (db : Db) (c : Category.t) :
  Invariant.wf db = true -> In c (categories db) ->
  (Category.userId c < nextId db)%nat.
Proof.
  unfold Invariant.wf. rewrite !andb_true_iff. intros H Hc.
  apply below_In with (l := map Category.userId (categories db)); [tauto|].
  now apply in_map.
Qed.

Lemma not_found_status (r : Response) : NotFound r -> status r = 404.
Proof. intros [m ->]. reflexivity. Qed.

(** ** Deleting a category *)

(** A default category never matches the filter of a delete. *)
Lemma delete_keeps_default
      (user : User.t) (id : ObjectId) (db : Db) (c : Category.t) :
  In c (categories db) -> Category.isDefault c = true ->
  In c (categories (snd (Categories.delete user id db))).
Proof.
  intros Hc Hdef. unfold Categories.delete.
  set (p := fun c : Category.t =>
              (Category._id c =? id)%nat && Categories.owned_by (User._id user) c
              && negb (Category.isDefault c)).
  assert (Hpc : p c = false) by (unfold p; rewrite Hdef; apply andb_false_r).
  pose proof (findOneAndDelete_keeps _ p (categories db) c Hc Hpc) as K.
  destruct (Store.findOneAndDelete p (categories db)) as [[x|] cs];
    [exact K|exact Hc].
Qed.

(** DELETE /api/categories/:id with an ObjectId answers NotFound exactly
    when no category has that identifier, or the one that has it belongs
    to another user or is a default category. *)
Lemma delete_category_cases (user : User.t) (id : ObjectId) (db : Db) :
  Invariant.wf db = true ->
  (NotFound (fst (Categories.delete user id db)) <->
     (forall c, In c (categories db) -> Category._id c <> id)
     \/ (exists c, In c (categories db) /\ Category._id c = id
                   /\ (Category.userId c <> User._id user
                       \/ Category.isDefault c = true))).
Proof.
  intros Hwf. unfold Categories.delete.
  set (p := fun c : Category.t =>
              (Category._id c =? id)%nat && Categories.owned_by (User._id user) c
              && negb (Category.isDefault c)).
  assert (Hp : forall c, p c = true <->
                 Category._id c = id /\ Category.userId c = User._id user
                 /\ Category.isDefault c = false).
  { intros c. unfold p, Categories.owned_by.
    rewrite !andb_true_iff, !Nat.eqb_eq, negb_true_iff. tauto. }
  destruct (Store.findOneAndDelete p (categories db)) as [[x|] cs] eqn:E; simpl.
  - apply findOneAndDelete_some in E. destruct E as (Hx & l1 & l2 & El & _).
    apply Hp in Hx. destruct Hx as (Hid & Hown & Hdef).
    assert (Hin : In x (categories db))
      by (rewrite El; apply in_or_app; right; now left).
    split.
    + intros H. apply not_found_status in H. discriminate.
    + intros [H|(c & Hc & Hcid & H)].
      * exfalso. exact (H x Hin Hid).
      * assert (c = x).
        { apply (distinct_unique _ Category._id (categories db)); auto.
          - now apply wf_category_ids.
          - congruence. }
        subst c. destruct H; congruence.
  - split; [|intros _; eexists; reflexivity].
    intros _.
    assert (Hnone : forall c, In c (categories db) -> p c = false).
    { apply findOneAndDelete_found. now rewrite E. }
    destruct (find (fun c => (Category._id c =? id)%nat) (categories db))
      as [c|] eqn:F.
    + right. apply find_some in F. destruct F as [Hc Hid].
      apply Nat.eqb_eq in Hid. exists c. split; [assumption|]. split; [assumption|].
      specialize (Hnone c Hc).
      destruct (Nat.eq_dec (Category.userId c) (User._id user)) as [Ho|Ho];
        [|now left].
      right. destruct (Category.isDefault c) eqn:D; [reflexivity|].
      assert (p c = true) by (apply Hp; auto). congruence.
    + left. intros c Hc Hid. pose proof (find_none _ _ F c Hc) as H.
      simpl in H. apply Nat.eqb_neq in H. contradiction.
Qed.

(** A delete that does not answer with success leaves the store as it
    is. *)
Lemma delete_category_failed (user : User.t) (id : ObjectId) (db : Db) :
  success (fst (Categories.delete user id db)) = false ->
  snd (Categories.delete user id db) = db.
Proof.
  unfold Categories.delete.
  destruct (Store.findOneAndDelete _ _) as [[x|] cs]; [discriminate|reflexivity].
Qed.

(** C2, as amended: DELETE /api/categories/:id with an identifier that
    is an ObjectId answers NotFound exactly when no category has that
    identifier, or the one that has it belongs to another user or is a
    default category.  Whatever the identifier, a delete that fails, with
    NotFound among the failures, removes nothing, and a default category
    is in the collection after every delete. *)
Theorem category_delete_not_found (user : User.t) (id : IdText) (db : Db) :
  Invariant.wf db = true ->
  (forall oid, id = IsId oid ->
     (NotFound (fst (Route.deleteCategory user id db)) <->
        (forall c, In c (categories db) -> Category._id c <> oid)
        \/ (exists c, In c (categories db) /\ Category._id c = oid
                      /\ (Category.userId c <> User._id user
                          \/ Category.isDefault c = true))))
  /\ (NotFound (fst (Route.deleteCategory user id db)) ->
      success (fst (Route.deleteCategory user id db)) = false)
  /\ (success (fst (Route.deleteCategory user id db)) = false ->
      snd (Route.deleteCategory user id db) = db)
  /\ (forall c, In c (categories db) -> Category.isDefault c = true ->
                In c (categories (snd (Route.deleteCategory user id db)))).
Proof.
  intros Hwf. split; [|split; [|split]].
  - intros oid ->. cbn [Route.deleteCategory]. now apply delete_category_cases.
  - intros [m ->]. reflexivity.
  - destruct id as [oid|text]; cbn [Route.deleteCategory];
      [apply delete_category_failed|reflexivity].
  - intros c Hc Hd. destruct id as [oid|text]; cbn [Route.deleteCategory snd];
      [now apply delete_keeps_default|exact Hc].
Qed.

Lemma category_delete_not_found_witness :
  Invariant.wf Sample.two_users = true
  /\ NotFound (fst (Route.deleteCategory Sample.bob (IsId 3) Sample.two_users))
  /\ snd (Route.deleteCategory Sample.bob (IsId 3) Sample.two_users) = Sample.two_users.
Proof.
  assert (Hwf : Invariant.wf Sample.two_users = true) by (vm_compute; reflexivity).
  destruct (category_delete_not_found Sample.bob (IsId 3) Sample.two_users Hwf)
    as (H & F & K & _).
  assert (N : NotFound (fst (Route.deleteCategory Sample.bob (IsId 3)
                               Sample.two_users))).
  { apply (H 3%nat eq_refl). right.
    exists (Category.mk 3 "Shopping" None "#f39c12" "fas fa-shopping-bag" 0 true 1000).
    split; [vm_compute; tauto|]. split; [reflexivity|]. right. reflexivity. }
  split; [exact Hwf|]. split; [exact N|exact (K (F N))].
Defined.

(** The claim C2 as first stated fails for an identifier that is no
    ObjectId: no category has the identifier [abc], and the delete is
    answered 500, not NotFound. *)
Lemma category_delete_malformed_id :
  (forall c, In c (categories Sample.two_users) ->
             IsId (Category._id c) <> NoId "abc")
  /\ Route.deleteCategory Sample.alice (NoId "abc") Sample.two_users
     = (fail 500 "Server error", Sample.two_users)
  /\ ~ NotFound (fst (Route.deleteCategory Sample.alice (NoId "abc")
                        Sample.two_users)).
Proof.
  split; [intros c _ H; discriminate H|].
  split; [reflexivity|]. intros [m H]. discriminate H.
Qed.

(** ** Sorting and grouping *)

Section SortFacts.
Variable A : Type.
Variable le : A -> A -> bool.

Lemma insert_perm (x : A) (l : list A) :
  Permutation (x :: l) (Store.insert le x l).
Proof.
  induction l as [|y l IH]; simpl; [reflexivity|].
  destruct (le x y); [reflexivity|].
  rewrite perm_swap. now constructor.
Qed.

Lemma sort_perm (l : list A) : Permutation l (Store.sort le l).
Proof.
  induction l as [|x l IH]; simpl; [constructor|].
  rewrite <- insert_perm. now constructor.
Qed.

Lemma sort_length (l : list A) : List.length (Store.sort le l) = List.length l.
Proof. symmetry. apply Permutation_length, sort_perm. Qed.

Lemma sort_In (l : list A) (x : A) : In x (Store.sort le l) <-> In x l.
Proof.
  split; intros H.
  - eapply Permutation_in; [symmetry; apply sort_perm|assumption].
  - eapply Permutation_in; [apply sort_perm|assumption].
Qed.

(** When [le] is total and transitive the result is sorted. *)
Hypothesis le_total : forall x y, le x y = true \/ le y x = true.
Hypothesis le_trans : forall x y z, le x y = true -> le y z = true -> le x z = true.

Lemma insert_sorted (x : A) (l : list A) :
  StronglySorted (fun a b => le a b = true) l ->
  StronglySorted (fun a b => le a b = true) (Store.insert le x l).
Proof.
  induction 1 as [|y l Hs IH Hy]; simpl.
  - repeat constructor.
  - destruct (le x y) eqn:E.
    + constructor; [now constructor|]. constructor; [assumption|].
      rewrite Forall_forall in *. intros z Hz. eauto.
    + constructor; [assumption|].
      rewrite Forall_forall in *. intros z Hz.
      apply (Permutation_in z (Permutation_sym (insert_perm x l))) in Hz.
      destruct Hz as [<-|Hz]; [|auto].
      destruct (le_total x y); congruence.
Qed.

Lemma sort_sorted (l : list A) :
  StronglySorted (fun a b => le a b = true) (Store.sort le l).
Proof.
  induction l as [|x l IH]; simpl; [constructor|]. now apply insert_sorted.
Qed.
End SortFacts.


Section GroupFacts.
Variables (A K : Type).
Variable eqb : K -> K -> bool.
Variable key : A -> K.
Variable value : A -> Z.
Hypothesis eqb_eq : forall a b, eqb a b = true <-> a = b.

Lemma eqb_refl' (k : K) : eqb k k = true.
Proof. now apply eqb_eq. Qed.

Lemma find_accumulate (k' k : K) (v : Z) (gs : list (Group.t K)) :
  find (fun g => eqb k' (Group._id g)) (Store.accumulate eqb k v gs) =
  if eqb k' k then
    match find (fun g => eqb k' (Group._id g)) gs with
    | Some g => Some (Group.mk (Group._id g) (Group.total g + v) (Group.count g + 1))
    | None => Some (Group.mk k v 1)
    end
  else find (fun g => eqb k' (Group._id g)) gs.
Proof.
  induction gs as [|g gs IH]; simpl.
  - destruct (eqb k' k); reflexivity.
  - destruct (eqb k (Group._id g)) eqn:E; simpl.
    + apply eqb_eq in E. subst k. destruct (eqb k' (Group._id g)); reflexivity.
    + destruct (eqb k' (Group._id g)) eqn:E'.
      * apply eqb_eq in E'. subst k'.
        destruct (eqb (Group._id g) k) eqn:E''; [|reflexivity].
        apply eqb_eq in E''. subst k. rewrite eqb_refl' in E. discriminate.
      * exact IH.
Qed.

Lemma size_cons {B} (x : B) (l : list B) : Store.size (x :: l) = 1 + Store.size l.
Proof. unfold Store.size. cbn [List.length]. lia. Qed.

Lemma find_fold (k : K) (l : list A) (gs : list (Group.t K)) :
  find (fun g => eqb k (Group._id g))
    (fold_left (fun gs x => Store.accumulate eqb (key x) (value x) gs) l gs)
  = Store.merged eqb key value k gs l.
Proof.
  revert gs. induction l as [|x l IH]; intros gs.
  - unfold Store.merged. simpl.
    destruct (find _ gs) as [g|]; [|reflexivity].
    destruct g; simpl. unfold Store.size. simpl. now rewrite !Z.add_0_r.
  - simpl fold_left. rewrite IH. unfold Store.merged. rewrite find_accumulate.
    simpl filter. destruct (eqb k (key x)) eqn:E.
    + destruct (find _ gs) as [g|].
      * cbn [Group._id Group.total Group.count Store.sum fold_right].
        rewrite size_cons. unfold Store.sum. f_equal. f_equal; lia.
      * apply eqb_eq in E. subst k.
        cbn [find Group._id Group.total Group.count Store.sum fold_right].
        rewrite size_cons. unfold Store.sum. f_equal.
    + destruct (find _ gs) as [g|]; reflexivity.
Qed.

(** The [$group] stage, group by group: the group of [k] exists when a
    document has the key [k], and holds the sum and the number of these
    documents. *)
Lemma find_group (k : K) (l : list A) :
  find (fun g => eqb k (Group._id g)) (Store.group eqb key value l) =
  match filter (fun x => eqb k (key x)) l with
  | [] => None
  | m => Some (Group.mk k (Store.sum value m) (Store.size m))
  end.
Proof.
  unfold Store.group. rewrite find_fold. unfold Store.merged. simpl.
  destruct (filter _ l); reflexivity.
Qed.
End GroupFacts.

Section GroupIds.
Variables (A K : Type).
Variable eqb : K -> K -> bool.
Variable key : A -> K.
Variable value : A -> Z.
Hypothesis eqb_eq : forall a b, eqb a b = true <-> a = b.

Lemma accumulate_ids (k : K) (v : Z) (gs : list (Group.t K)) :
  map Group._id (Store.accumulate eqb k v gs) =
  if existsb (fun g => eqb k (Group._id g)) gs
  then map Group._id gs else map Group._id gs ++ [k].
Proof.
  induction gs as [|g gs IH]; simpl; [reflexivity|].
  destruct (eqb k (Group._id g)); simpl; [reflexivity|].
  rewrite IH. destruct (existsb _ gs); reflexivity.
Qed.

Lemma accumulate_NoDup (k : K) (v : Z) (gs : list (Group.t K)) :
  NoDup (map Group._id gs) -> NoDup (map Group._id (Store.accumulate eqb k v gs)).
Proof.
  intros H. rewrite accumulate_ids.
  destruct (existsb _ gs) eqn:E; [assumption|].
  apply NoDup_app; [assumption|repeat constructor; intros []|].
  intros x Hx [<-|[]]. apply in_map_iff in Hx. destruct Hx as (g & Hg & Hin).
  assert (existsb (fun g => eqb k (Group._id g)) gs = true); [|congruence].
  apply existsb_exists. exists g. split; [assumption|]. now apply eqb_eq.
Qed.

Lemma group_NoDup (l : list A) :
  NoDup (map Group._id (Store.group eqb key value l)).
Proof.
  unfold Store.group.
  assert (G : forall gs, NoDup (map Group._id gs) ->
              NoDup (map Group._id
                       (fold_left (fun gs x =>
                                     Store.accumulate eqb (key x) (value x) gs) l gs))).
  { induction l as [|x l IH]; intros gs H; simpl; [assumption|].
    apply IH. now apply accumulate_NoDup. }
  apply G. constructor.
Qed.

Lemma find_by_id (gs : list (Group.t K)) (g : Group.t K) :
  NoDup (map Group._id gs) -> In g gs ->
  find (fun h => eqb (Group._id g) (Group._id h)) gs = Some g.
Proof.
  induction gs as [|h gs IH]; simpl; intros H Hin; [destruct Hin|].
  inversion H as [|? ? Hnot Hnd]; subst.
  destruct Hin as [->|Hin].
  - now rewrite (proj2 (eqb_eq _ _) eq_refl).
  - destruct (eqb (Group._id g) (Group._id h)) eqn:E; [|auto].
    apply eqb_eq in E. exfalso. apply Hnot. rewrite <- E. now apply in_map.
Qed.

(** Every group of the [$group] stage is the group of its key: the
    documents with that key are not none, and the group holds their sum
    and their number. *)
Lemma group_In (l : list A) (g : Group.t K) :
  In g (Store.group eqb key value l) ->
  let m := filter (fun x => eqb (Group._id g) (key x)) l in
  m <> [] /\ g = Group.mk (Group._id g) (Store.sum value m) (Store.size m).
Proof.
  intros Hin. pose proof (find_by_id _ g (group_NoDup l) Hin) as F.
  rewrite (find_group _ _ eqb key value eqb_eq) in F. simpl.
  destruct (filter _ l) as [|a m]; [discriminate|].
  split; [discriminate|]. now inversion F.
Qed.

Lemma group_key (l : list A) (g : Group.t K) :
  In g (Store.group eqb key value l) -> exists x, In x l /\ key x = Group._id g.
Proof.
  intros Hg. destruct (group_In l g Hg) as [Hne _].
  destruct (filter (fun x => eqb (Group._id g) (key x)) l) as [|x m] eqn:F;
    [congruence|].
  assert (Hx : In x (filter (fun x => eqb (Group._id g) (key x)) l))
    by (rewrite F; now left).
  apply filter_In in Hx. destruct Hx as [Hx Hk]. apply eqb_eq in Hk.
  exists x. split; [assumption|]. now symmetry.
Qed.

Lemma group_has (l : list A) (x : A) :
  In x l -> exists g, In g (Store.group eqb key value l) /\ Group._id g = key x.
Proof.
  intros Hx.
  pose proof (find_group _ _ eqb key value eqb_eq (key x) l) as F.
  destruct (filter (fun y => eqb (key x) (key y)) l) as [|a m] eqn:E.
  - assert (In x (filter (fun y => eqb (key x) (key y)) l)).
    { apply filter_In. split; [assumption|]. now apply eqb_eq. }
    rewrite E in H. destruct H.
  - apply find_some in F. destruct F as [Hg _].
    eexists. split; [exact Hg|]. reflexivity.
Qed.
End GroupIds.

Lemma filter_true {A} (l : list A) : filter (fun _ => true) l = l.
Proof. induction l as [|x l IH]; simpl; congruence. Qed.

(** ** The dashboard *)

Lemma group_all_totals (l : list Expense.t) :
  Reports.first_total (Reports.group_all l) = Reports.sum_amounts l
  /\ Reports.first_count (Reports.group_all l) = Store.size l.
Proof.
  assert (E : forall a b : unit, (fun _ _ => true) a b = true <-> a = b)
    by (intros [] []; tauto).
  pose proof (find_group _ _ (fun _ _ : unit => true) (fun _ : Expense.t => tt)
                Expense.amount E tt l) as F.
  rewrite filter_true in F. fold (Reports.group_all l) in F.
  unfold Reports.first_total, Reports.first_count.
  destruct (Reports.group_all l) as [|g gs]; simpl in F.
  - destruct l; [split; reflexivity|discriminate].
  - destruct l; [discriminate|]. inversion F; subst. split; reflexivity.
Qed.

(** ** Registration *)

Lemma new_user_id (hash : string -> string) (id : ObjectId) (b : RegisterBody.t)
      (u : User.t) :
  Auth.new_user hash id b = Some u -> User._id u = id.
Proof.
  unfold Auth.new_user. destruct (_ && _)%bool; [|discriminate].
  intros H. inversion H. reflexivity.
Qed.

Lemma no_category_of_fresh_user (db : Db) :
  Invariant.wf db = true ->
  filter (Categories.owned_by (nextId db)) (categories db) = [].
Proof.
  intros Hwf.
  assert (H : forall c, In c (categories db) ->
                        Categories.owned_by (nextId db) c = false).
  { intros c Hc. unfold Categories.owned_by. apply Nat.eqb_neq.
    pose proof (wf_category_owner_below db c Hwf Hc). lia. }
  induction (categories db) as [|c l IH]; simpl; [reflexivity|].
  rewrite (H c (or_introl eq_refl)). apply IH. intros x Hx. apply H. now right.
Qed.

(** C3: a successful registration appends, in one batch, eight
    categories owned by the new user, with the fixed names and all with
    [isDefault = true]; the user had no category before, so these eight
    are all the categories of the user. *)
Theorem register_seeds_defaults
        (isEmail : string -> bool) (hash : string -> string)
        (sign : ObjectId -> string) (now : Z) (b : RegisterBody.t) (db : Db) :
  Invariant.wf db = true ->
  status (fst (Auth.register isEmail hash sign now b db)) = 201 ->
  exists (user : User.t) (seeded : list Category.t),
    users (snd (Auth.register isEmail hash sign now b db)) = users db ++ [user]
    /\ categories (snd (Auth.register isEmail hash sign now b db))
       = categories db ++ seeded
    /\ filter (Categories.owned_by (User._id user)) (categories db) = []
    /\ filter (Categories.owned_by (User._id user))
         (categories (snd (Auth.register isEmail hash sign now b db))) = seeded
    /\ List.length seeded = 8%nat
    /\ map Category.name seeded
       = ["Food & Dining"; "Transportation"; "Shopping"; "Entertainment";
          "Bills & Utilities"; "Healthcare"; "Education"; "Other"]
    /\ Forall (fun c => Category.isDefault c = true
                        /\ Category.userId c = User._id user) seeded.
Proof.
  intros Hwf. unfold Auth.register.
  destruct (negb (Validator.isEmpty _)); [discriminate|].
  destruct (Store.findOne _ (users db)); [discriminate|].
  destruct (Auth.new_user hash (nextId db) b) as [user|] eqn:N; [|discriminate].
  intros _. apply new_user_id in N.
  exists user. eexists. cbn -[filter app].
  split; [reflexivity|]. rewrite <- !app_assoc. cbn [app].
  split; [reflexivity|].
  rewrite N. split; [now apply no_category_of_fresh_user|].
  rewrite filter_app, (no_category_of_fresh_user db Hwf).
  unfold Categories.owned_by. cbn. rewrite !Nat.eqb_refl.
  split; [reflexivity|]. split; [reflexivity|]. split; [reflexivity|].
  repeat constructor.
Qed.

Lemma register_seeds_defaults_witness :
  Invariant.wf empty = true
  /\ exists user,
       users (snd (Auth.register Sample.isEmail Sample.hash Sample.sign
                     1000 Sample.alice_body empty)) = [user]
       /\ map Category.name
            (filter (Categories.owned_by (User._id user))
               (categories (snd (Auth.register Sample.isEmail Sample.hash
                                   Sample.sign 1000 Sample.alice_body empty))))
          = ["Food & Dining"; "Transportation"; "Shopping"; "Entertainment";
             "Bills & Utilities"; "Healthcare"; "Education"; "Other"].
Proof.
  split; [reflexivity|].
  destruct (register_seeds_defaults Sample.isEmail Sample.hash Sample.sign 1000
              Sample.alice_body empty eq_refl eq_refl)
    as (user & seeded & Hu & _ & _ & Hf & _ & Hn & _).
  exists user. split; [exact Hu|]. rewrite Hf. exact Hn.
Defined.

(** ** Trimming *)

Lemma trimEnd_idem (s : string) :
  JsString.trimEnd (JsString.trimEnd s) = JsString.trimEnd s.
Proof.
  induction s as [|c r IH]; [reflexivity|]. cbn [JsString.trimEnd].
  destruct (JsString.trimEnd r) as [|c' r'] eqn:E.
  - destruct (JsString.is_space c) eqn:S; cbn [JsString.trimEnd]; [reflexivity|].
    now rewrite S.
  - change (JsString.trimEnd (String c (String c' r')))
      with (match JsString.trimEnd (String c' r') with
            | EmptyString =>
                if JsString.is_space c then EmptyString else String c EmptyString
            | r0 => String c r0
            end).
    now rewrite IH.
Qed.

Lemma trimStart_head (s : string) :
  JsString.trimStart s = EmptyString
  \/ exists c r, JsString.trimStart s = String c r /\ JsString.is_space c = false.
Proof.
  induction s as [|c r IH]; cbn [JsString.trimStart]; [now left|].
  destruct (JsString.is_space c) eqn:S; [assumption|].
  right. now exists c, r.
Qed.

Lemma trim_idem (s : string) : JsString.trim (JsString.trim s) = JsString.trim s.
Proof.
  unfold JsString.trim.
  destruct (trimStart_head s) as [->|(c & r & -> & S)]; [reflexivity|].
  assert (E : JsString.trimStart (JsString.trimEnd (String c r))
              = JsString.trimEnd (String c r)).
  { cbn [JsString.trimEnd].
    destruct (JsString.trimEnd r); rewrite ?S; cbn [JsString.trimStart];
      rewrite ?S; reflexivity. }
  rewrite E. apply trimEnd_idem.
Qed.

Lemma names_ok_In (db : Db) (c : Category.t) :
  Invariant.names_ok db = true -> In c (categories db) ->
  JsString.trim (Category.name c) = Category.name c /\ Category.name c <> "".
Proof.
  unfold Invariant.names_ok. rewrite forallb_forall. intros H Hc.
  specialize (H c Hc). rewrite andb_true_iff, negb_true_iff in H.
  destruct H as [H1 H2]. split; [now apply String.eqb_eq|now apply String.eqb_neq].
Qed.

(** ** Creating a category *)

(** C10, as amended: POST /api/categories with the name of a category
    the caller already owns answers Conflict and writes nothing; with a
    name that is not blank and, once trimmed, not yet used by the
    caller, it stores the category under the trimmed name with
    [isDefault = false] and with the default colour and icon when these
    are absent. *)
Theorem category_create (user : User.t) (now : Z) (b : CategoryBody.t) (db : Db) :
  Invariant.names_ok db = true ->
  let name := JsString.trim (Validator.toString (CategoryBody.name b)) in
  ((exists c, In c (categories db) /\ Category.userId c = User._id user
              /\ CategoryBody.name b = Some (Category.name c)) ->
   Conflict (fst (Categories.post user now b db))
   /\ snd (Categories.post user now b db) = db)
  /\ (name <> "" ->
      (forall c, In c (categories db) -> Category.userId c = User._id user ->
                 Category.name c <> name) ->
      exists c,
        Categories.post user now b db
        = (created (CategorySaved "Category created successfully" c),
           insert_category db c)
        /\ categories (snd (Categories.post user now b db)) = categories db ++ [c]
        /\ Category.name c = name
        /\ Category.userId c = User._id user
        /\ Category.isDefault c = false
        /\ (CategoryBody.color b = None -> Category.color c = "#007bff")
        /\ (CategoryBody.icon b = None -> Category.icon c = "fas fa-tag")
        /\ (forall s, CategoryBody.color b = Some s -> s <> "" -> Category.color c = s)
        /\ (forall s, CategoryBody.icon b = Some s -> s <> "" -> Category.icon c = s)).
Proof.
  intros Hn name. unfold Categories.post. fold name. split.
  - intros (c & Hc & Ho & Hb).
    destruct (names_ok_In db c Hn Hc) as [Ht Hne].
    assert (Hname : name = Category.name c) by (unfold name; now rewrite Hb).
    assert (V : Validator.notEmpty (CategoryBody.name b) = true).
    { unfold Validator.notEmpty. rewrite Hb. simpl.
      apply negb_true_iff. now apply String.eqb_neq. }
    rewrite V. simpl.
    destruct (Store.findOne _ (categories db)) as [x|] eqn:F.
    + split; reflexivity.
    + exfalso. rewrite findOne_none in F. specialize (F c Hc). simpl in F.
      rewrite Hname, String.eqb_refl in F. unfold Categories.owned_by in F.
      rewrite Ho, Nat.eqb_refl in F. discriminate.
  - intros Hne Hfree.
    assert (V : Validator.notEmpty (CategoryBody.name b) = true).
    { unfold Validator.notEmpty. apply negb_true_iff, String.eqb_neq.
      intros E. apply Hne. unfold name. now rewrite E. }
    rewrite V. simpl.
    assert (F : Store.findOne
                  (fun c => (Category.name c =? name)%string
                            && Categories.owned_by (User._id user) c)
                  (categories db) = None).
    { apply findOne_none. intros c Hc.
      destruct (Categories.owned_by (User._id user) c) eqn:O;
        [|apply andb_false_r].
      apply Nat.eqb_eq in O. rewrite andb_true_r.
      apply String.eqb_neq. now apply Hfree. }
    rewrite F.
    assert (R : Schema.required_string name = true).
    { unfold Schema.required_string, name. rewrite trim_idem.
      apply negb_true_iff, String.eqb_neq. exact Hne. }
    rewrite R. eexists. split; [reflexivity|]. simpl.
    repeat split.
    + intros ->. reflexivity.
    + intros ->. reflexivity.
    + intros s -> Hs. simpl. unfold JsString.truthy.
      apply String.eqb_neq in Hs. now rewrite Hs.
    + intros s -> Hs. simpl. unfold JsString.truthy.
      apply String.eqb_neq in Hs. now rewrite Hs.
Qed.

Lemma category_create_witness :
  Invariant.names_ok Sample.two_users = true
  /\ status (fst (Categories.post Sample.alice Sample.now
                    (CategoryBody.mk (Some "Travel") None None None)
                    Sample.two_users)) = 201
  /\ Conflict
       (fst (Categories.post Sample.alice Sample.now
               (CategoryBody.mk (Some "Travel") None None None)
               (snd (Categories.post Sample.alice Sample.now
                       (CategoryBody.mk (Some "Travel") None None None)
                       Sample.two_users)))).
Proof.
  set (b := CategoryBody.mk (Some "Travel") None None None).
  assert (N : Invariant.names_ok Sample.two_users = true) by (vm_compute; reflexivity).
  destruct (category_create Sample.alice Sample.now b Sample.two_users N)
    as [_ Hnew].
  destruct Hnew as (c & E & Hc & Hname & Hown & _).
  { vm_compute. discriminate. }
  { intros c Hc _.
    assert (F : forallb (fun c => negb (Category.name c =? "Travel")%string)
                  (categories Sample.two_users) = true) by (vm_compute; reflexivity).
    rewrite forallb_forall in F. specialize (F c Hc).
    apply negb_true_iff in F. now apply String.eqb_neq. }
  split; [exact N|]. split; [rewrite E; reflexivity|].
  assert (N' : Invariant.names_ok
                 (snd (Categories.post Sample.alice Sample.now b Sample.two_users))
               = true) by (vm_compute; reflexivity).
  apply (category_create Sample.alice Sample.now b _ N').
  exists c. split; [rewrite Hc; apply in_or_app; right; now left|].
  split; [exact Hown|]. rewrite Hname. reflexivity.
Defined.

(** The claim C10 as first stated fails on the empty name: no category
    has it, and the request is refused by the validation rule. *)
Lemma category_create_empty_name :
  (forall c, In c (categories Sample.two_users) -> Category.name c <> "")
  /\ Categories.post Sample.alice Sample.now
       (CategoryBody.mk (Some "") None None None) Sample.two_users
     = (mkResponse 400 false (Errors ["Category name is required"]),
        Sample.two_users).
Proof.
  split; [|reflexivity].
  intros c Hc.
  assert (F : forallb (fun c => negb (Category.name c =? "")%string)
                (categories Sample.two_users) = true) by (vm_compute; reflexivity).
  rewrite forallb_forall in F. specialize (F c Hc).
  apply negb_true_iff in F. now apply String.eqb_neq.
Qed.

(** ** Creating an expense *)


Lemma categoryExists_none (user : User.t) (cid : ObjectId) (db : Db) :
  (forall c, In c (categories db) -> Category._id c = cid ->
             Category.userId c <> User._id user) ->
  Expenses.categoryExists user cid db = None.
Proof.
  intros H. unfold Expenses.categoryExists. apply findOne_none. intros c Hc.
  destruct (Nat.eqb_spec (Category._id c) cid) as [E|E]; [|reflexivity].
  simpl. unfold Categories.owned_by. apply Nat.eqb_neq. now apply H.
Qed.

(** POST /api/expenses with the ObjectId of a category that is not one
    of the caller's answers 400 and writes nothing. *)
Lemma post_invalid_category
      (user : User.t) (now : Z) (b : ExpenseBody.t) (db : Db) :
  (forall cid c, ExpenseBody.category b = Some cid -> In c (categories db) ->
                 Category._id c = cid -> Category.userId c <> User._id user) ->
  let passes :=
    Validator.notEmpty (ExpenseBody.title b)
    && Validator.isNumeric (ExpenseBody.amount b)
    && match ExpenseBody.category b with Some _ => true | None => false end in
  snd (Expenses.post user now b db) = db
  /\ status (fst (Expenses.post user now b db)) = 400
  /\ (passes = true -> InvalidCategory (fst (Expenses.post user now b db)))
  /\ (passes = false -> ValidationFailed (fst (Expenses.post user now b db))).
Proof.
  intros H. unfold Expenses.post, InvalidCategory, ValidationFailed.
  destruct (ExpenseBody.category b) as [cid|] eqn:C.
  - rewrite (categoryExists_none user cid db (fun c => H cid c eq_refl)).
    destruct (Validator.notEmpty (ExpenseBody.title b)),
             (Validator.isNumeric (ExpenseBody.amount b));
      simpl; repeat split; intros; try reflexivity; try discriminate;
      eexists; (split; [|reflexivity]); discriminate.
  - destruct (Validator.notEmpty (ExpenseBody.title b)),
             (Validator.isNumeric (ExpenseBody.amount b));
      simpl; repeat split; intros; try reflexivity; try discriminate;
      eexists; (split; [|reflexivity]); discriminate.
Qed.

(** C4, as amended: POST /api/expenses with a category that does not
    name a category of the caller (the field absent, an ObjectId of no
    category of the caller, or text that is no ObjectId) fails and writes
    nothing; the answer is InvalidCategory, 400, when the request passes
    the route's validation rules and the category is an ObjectId, and the
    list of validation errors, 400, when the request does not pass the
    rules. *)
Theorem expense_create_invalid_category
        (user : User.t) (now : Z) (category : option IdText) (b : ExpenseBody.t)
        (db : Db) :
  (forall cid c, category = Some (IsId cid) -> In c (categories db) ->
                 Category._id c = cid -> Category.userId c <> User._id user) ->
  let passes :=
    Validator.notEmpty (ExpenseBody.title b)
    && Validator.isNumeric (ExpenseBody.amount b)
    && match category with
       | Some (IsId _) => true
       | Some (NoId text) => Validator.notEmpty (Some text)
       | None => false
       end in
  snd (Route.postExpense user now category b db) = db
  /\ success (fst (Route.postExpense user now category b db)) = false
  /\ (passes = true -> (exists cid, category = Some (IsId cid)) ->
      InvalidCategory (fst (Route.postExpense user now category b db)))
  /\ (passes = false ->
      ValidationFailed (fst (Route.postExpense user now category b db))).
Proof.
  intros H passes. unfold Route.postExpense.
  destruct category as [[cid|text]|].
  - destruct (post_invalid_category user now (Route.with_category b (Some cid)) db)
      as (Hdb & Hs & Hi & Hv).
    { cbn [Route.with_category ExpenseBody.category]. intros cid' c E.
      injection E as <-. now apply H. }
    cbn [Route.with_category ExpenseBody.category ExpenseBody.title
           ExpenseBody.amount] in Hi, Hv.
    split; [exact Hdb|]. split; [|split].
    + destruct (passes) eqn:P.
      * rewrite (Hi P). reflexivity.
      * destruct (Hv P) as (errors & _ & ->). reflexivity.
    + intros P _. exact (Hi P).
    + exact Hv.
  - unfold passes.
    destruct (Validator.notEmpty (ExpenseBody.title b)),
             (Validator.isNumeric (ExpenseBody.amount b)),
             (Validator.notEmpty (Some text));
      cbn; repeat split; intros; try reflexivity; try discriminate;
      try (destruct H1 as (cid & X); discriminate X);
      unfold ValidationFailed; eexists; (split; [|reflexivity]); discriminate.
  - destruct (post_invalid_category user now (Route.with_category b None) db)
      as (Hdb & Hs & Hi & Hv).
    { cbn [Route.with_category ExpenseBody.category]. intros cid' c E. discriminate E. }
    cbn [Route.with_category ExpenseBody.category ExpenseBody.title
           ExpenseBody.amount] in Hi, Hv.
    split; [exact Hdb|]. split; [|split].
    + destruct (Hv (andb_false_r _)) as (errors & _ & ->). reflexivity.
    + intros _ (cid & X). discriminate X.
    + intros _. apply Hv. apply andb_false_r.
Qed.

Lemma expense_create_invalid_category_witness :
  Route.postExpense Sample.alice Sample.now (Some (IsId 11))
    (Sample.expense "Taxi" 250 11 Sample.now) Sample.two_users
  = (fail 400 "Invalid category", Sample.two_users).
Proof.
  destruct (expense_create_invalid_category Sample.alice Sample.now (Some (IsId 11))
              (Sample.expense "Taxi" 250 11 Sample.now) Sample.two_users)
    as (Hdb & _ & Hr & _).
  { intros cid c E Hc Hid. injection E as <-.
    assert (F : forallb (fun c => implb (Category._id c =? 11)%nat
                                    (negb (Category.userId c =? 0)%nat))
                  (categories Sample.two_users) = true) by (vm_compute; reflexivity).
    rewrite forallb_forall in F. specialize (F c Hc).
    rewrite Hid, Nat.eqb_refl in F. simpl in F.
    apply negb_true_iff in F. now apply Nat.eqb_neq. }
  assert (R : InvalidCategory
                (fst (Route.postExpense Sample.alice Sample.now (Some (IsId 11))
                        (Sample.expense "Taxi" 250 11 Sample.now) Sample.two_users)))
    by (apply Hr; [reflexivity|now exists 11%nat]).
  unfold InvalidCategory in R.
  rewrite (surjective_pairing (Route.postExpense _ _ _ _ _)), Hdb, R. reflexivity.
Defined.

(** The claim C4 as first stated fails on a request without a title:
    category 11 is Bob's, and Alice is answered with the validation
    errors, not with InvalidCategory. *)
Lemma expense_create_untitled :
  Expenses.categoryExists Sample.alice 11 Sample.two_users = None
  /\ Expenses.post Sample.alice Sample.now
       (ExpenseBody.mk None (AmountNumber 250) None (Some 11%nat) None None None)
       Sample.two_users
     = (mkResponse 400 false (Errors ["Title is required"]), Sample.two_users)
  /\ ~ InvalidCategory
         (fst (Expenses.post Sample.alice Sample.now
                 (ExpenseBody.mk None (AmountNumber 250) None (Some 11%nat)
                    None None None)
                 Sample.two_users))
  /\ Route.postExpense Sample.alice Sample.now (Some (IsId 11))
       (ExpenseBody.mk None (AmountNumber 250) None None None None None)
       Sample.two_users
     = (mkResponse 400 false (Errors ["Title is required"]), Sample.two_users).
Proof.
  split; [reflexivity|]. split; [reflexivity|].
  split; [intros H; discriminate H|reflexivity].
Qed.

(** A category that is no ObjectId, on a request that passes the rules:
    the lookup throws and the answer is 500. *)
Example expense_create_malformed_category :
  Route.postExpense Sample.alice Sample.now (Some (NoId "abc"))
    (Sample.expense "Taxi" 250 1 Sample.now) Sample.two_users
  = (fail 500 "Server error", Sample.two_users).
Proof. reflexivity. Qed.

(** ** Amounts *)

(** C7, at the input where the code departs from it: a create request
    with a negative amount passes [isNumeric] and is stopped only by the
    schema's [min: 0]; the handler's [catch] turns that into 500, not
    into a validation failure.  An update with a negative amount ends
    the same way.  Nothing is written in either case. *)
Theorem negative_amount_server_error
        (user : User.t) (now : Z) (b : ExpenseBody.t) (db : Db) (z : Z) :
  ExpenseBody.amount b = AmountNumber z -> z < 0 ->
  (Validator.notEmpty (ExpenseBody.title b) = true ->
   (exists cid c, ExpenseBody.category b = Some cid
                  /\ Expenses.categoryExists user cid db = Some c) ->
   Expenses.post user now b db = (fail 500 "Server error", db))
  /\ (forall id,
        (forall cid, ExpenseBody.category b = Some cid ->
                     Expenses.categoryExists user cid db <> None) ->
        Expenses.put user now id b db = (fail 500 "Server error", db)).
Proof.
  intros Ha Hz.
  assert (V : Schema.amount_valid (ExpenseBody.amount b) = None).
  { rewrite Ha. simpl. destruct (Z.leb_spec 0 z); [lia|reflexivity]. }
  split.
  - intros Ht (cid & c & Hc & He). unfold Expenses.post.
    rewrite Ht, Ha, Hc, He. simpl. try unfold Expenses.new_expense; unfold Expenses.create.
    rewrite Ha in V. rewrite Ha, V.
    destruct (Schema.required_string _); reflexivity.
  - intros id Hc. unfold Expenses.put.
    assert (U : Expenses.update_valid b = false).
    { unfold Expenses.update_valid. rewrite Ha. cbn [Schema.amount_valid].
      replace (0 <=? z) with false by (symmetry; apply Z.leb_gt; exact Hz).
      destruct (ExpenseBody.title b) as [t|];
        [destruct (Schema.required_string t)|]; reflexivity. }
    rewrite U.
    destruct (ExpenseBody.category b) as [cid|]; [|reflexivity].
    specialize (Hc cid eq_refl).
    destruct (Expenses.categoryExists user cid db); [reflexivity|congruence].
Qed.

Lemma negative_amount_server_error_witness :
  Expenses.post Sample.alice Sample.now (Sample.expense "Refund" (-5) 1 Sample.now)
    Sample.two_users
  = (fail 500 "Server error", Sample.two_users)
  /\ Expenses.put Sample.alice Sample.now 18 (Sample.expense "Refund" (-5) 1 Sample.now)
       Sample.june
     = (fail 500 "Server error", Sample.june).
Proof.
  split.
  - apply (negative_amount_server_error Sample.alice Sample.now
             (Sample.expense "Refund" (-5) 1 Sample.now) Sample.two_users (-5));
      [reflexivity|lia|reflexivity|].
    eexists. eexists. split; [reflexivity|]. vm_compute. reflexivity.
  - apply (negative_amount_server_error Sample.alice Sample.now
             (Sample.expense "Refund" (-5) 1 Sample.now) Sample.june (-5));
      [reflexivity|lia|].
    intros cid E. injection E as <-. vm_compute. discriminate.
Defined.

(** ** Listing expenses *)






(** ** The calendar *)

(** The civil date of a day number has a month from 1 to 12 and a day
    from 1 to 31, and [days_from_civil] leads back: replacing the day of
    the month moves the day number by the difference. *)
Lemma civil_roundtrip (z d' : Z) :
  let '(y, m, d) := JsDate.civil_from_days z in
  JsDate.days_from_civil y m d' = z - d + d' /\ 1 <= m <= 12 /\ 1 <= d <= 31.
Proof.
  unfold JsDate.civil_from_days, JsDate.days_from_civil, JsDate.doy_of, JsDate.yoe_of.
  set (doe := (z + 719468) mod 146097).
  set (era := (z + 719468) / 146097).
  assert (Hz : z + 719468 = 146097 * era + doe) by (apply Z.div_mod; lia).
  assert (Hd : 0 <= doe < 146097) by (apply Z.mod_pos_bound; lia).
  clearbody doe era.
  repeat match goal with
         | |- context [Z.ltb ?a ?b] => destruct (Z.ltb_spec a b)
         | |- context [Z.leb ?a ?b] => destruct (Z.leb_spec a b)
         end.
  all: Z.to_euclidean_division_equations; lia.
Qed.


(** [d.setDate(d.getDate() - n)] is [n] days earlier, to the
    millisecond. *)
Lemma setDate_days (tz now n : Z) :
  JsDate.setDate tz now (JsDate.getDate tz now - n) = now - n * JsDate.msPerDay.
Proof.
  unfold JsDate.setDate, JsDate.getDate.
  pose proof (civil_roundtrip (JsDate.localTime tz now / JsDate.msPerDay)) as R.
  destruct (JsDate.civil_from_days (JsDate.localTime tz now / JsDate.msPerDay))
    as [[y m] d].
  destruct (R (d - n)) as [-> _].
  pose proof (Z.div_mod (JsDate.localTime tz now) JsDate.msPerDay) as D.
  unfold JsDate.localTime, JsDate.msPerDay in *. lia.
Qed.

Lemma jan1_mono (a b : Z) : a <= b -> JsDate.jan1 a <= JsDate.jan1 b.
Proof. unfold JsDate.jan1. intros H. Z.to_euclidean_division_equations; lia. Qed.

Lemma days_from_civil_jan1 (y : Z) : JsDate.days_from_civil y 1 1 = JsDate.jan1 y.
Proof.
  unfold JsDate.days_from_civil, JsDate.jan1.
  cbn [Z.leb Z.ltb Z.compare Pos.compare Pos.compare_cont].
  Z.to_euclidean_division_equations; lia.
Qed.

(** A day lies between 1 January of its civil year and 1 January of
    the next. *)
Lemma civil_year_bounds (z : Z) :
  let y := (let '(y', _, _) := JsDate.civil_from_days z in y') in
  JsDate.jan1 y <= z < JsDate.jan1 (y + 1).
Proof.
  unfold JsDate.civil_from_days, JsDate.doy_of, JsDate.yoe_of, JsDate.jan1.
  set (doe := (z + 719468) mod 146097).
  set (era := (z + 719468) / 146097).
  assert (Hz : z + 719468 = 146097 * era + doe) by (apply Z.div_mod; lia).
  assert (Hd : 0 <= doe < 146097) by (apply Z.mod_pos_bound; lia).
  clearbody doe era.
  repeat match goal with
         | |- context [Z.ltb ?a ?b] => destruct (Z.ltb_spec a b)
         | |- context [Z.leb ?a ?b] => destruct (Z.leb_spec a b)
         end.
  all: Z.to_euclidean_division_equations; lia.
Qed.


Lemma getFullYear_utc (t : Z) : JsDate.getFullYear 0 t = JsDate.utcFullYear t.
Proof.
  unfold JsDate.getFullYear, JsDate.utcFullYear, JsDate.localTime, JsDate.utcDay.
  now rewrite Z.add_0_r.
Qed.

(** ** The order of strings *)

Lemma ltb_lt (a b : string) : String.ltb a b = true <-> String_as_OT.lt a b.
Proof.
  unfold String.ltb. rewrite <- String_as_OT.cmp_lt. unfold String_as_OT.cmp.
  destruct (String.compare a b); split; congruence.
Qed.

Lemma leb_le (a b : string) :
  String.leb a b = true <-> String_as_OT.lt a b \/ a = b.
Proof.
  unfold String.leb. rewrite <- String_as_OT.cmp_lt, <- String_as_OT.cmp_eq.
  unfold String_as_OT.cmp.
  destruct (String.compare a b); split; try tauto; try congruence;
    intros [H|H]; congruence.
Qed.

Lemma leb_trans (a b c : string) :
  String.leb a b = true -> String.leb b c = true -> String.leb a c = true.
Proof.
  rewrite !leb_le. intros [H1| ->] [H2| ->]; auto.
  left. eapply String_as_OT.lt_trans; eassumption.
Qed.

(** A list sorted by [<=] on keys that are all different is sorted by
    [<] on them. *)
Lemma sorted_keys_strict {A} (key : A -> string) (l : list A) :
  StronglySorted (fun x y => String.leb (key x) (key y) = true) l ->
  NoDup (map key l) ->
  StronglySorted (fun a b => String.ltb a b = true) (map key l).
Proof.
  induction 1 as [|x l Hs IH Hx]; simpl; intros Hn; [constructor|].
  inversion Hn as [|? ? Hnot Hnd]; subst.
  constructor; [auto|].
  rewrite Forall_forall in *. intros k Hk.
  apply in_map_iff in Hk. destruct Hk as (y & <- & Hy).
  apply ltb_lt. specialize (Hx y Hy). apply leb_le in Hx.
  destruct Hx as [Hx|E]; [assumption|].
  exfalso. apply Hnot. rewrite E. now apply in_map.
Qed.

Lemma filter_filter {A} (f g : A -> bool) (l : list A) :
  filter f (filter g l) = filter (fun x => g x && f x) l.
Proof.
  induction l as [|x l IH]; simpl; [reflexivity|].
  destruct (g x); simpl; [destruct (f x)|]; now rewrite IH.
Qed.

Lemma filter_perm {A} (f : A -> bool) (l l' : list A) :
  Permutation l l' -> Permutation (filter f l) (filter f l').
Proof.
  induction 1; simpl.
  - constructor.
  - destruct (f x); [now constructor|assumption].
  - destruct (f x), (f y); try reflexivity. apply perm_swap.
  - etransitivity; eassumption.
Qed.

(** ** The order of ISO days *)

Lemma compare_app (s1 s2 t1 t2 : string) :
  String.length s1 = String.length s2 ->
  String.compare (s1 ++ t1)%string (s2 ++ t2)%string
  = match String.compare s1 s2 with
    | Eq => String.compare t1 t2
    | c => c
    end.
Proof.
  revert s2. induction s1 as [|a s1 IH]; intros [|b s2] H; try discriminate.
  - reflexivity.
  - simpl. destruct (Ascii.compare a b); try reflexivity.
    apply IH. simpl in H. congruence.
Qed.

Lemma pad_length (w : nat) (n : Z) : String.length (JsDate.pad w n) = w.
Proof.
  revert n. induction w as [|w IH]; intros n; [reflexivity|].
  cbn [JsDate.pad].
  assert (L : forall s c, String.length (s ++ String c EmptyString)%string = S (String.length s)).
  { induction s; simpl; intros; [reflexivity|]. now rewrite IHs. }
  now rewrite L, IH.
Qed.

Lemma digit_compare (a b : nat) :
  (a < 10)%nat -> (b < 10)%nat ->
  Ascii.compare (ascii_of_nat (48 + a)) (ascii_of_nat (48 + b)) = Nat.compare a b.
Proof.
  intros Ha Hb.
  do 10 (destruct a as [|a]; [do 10 (destruct b as [|b]; [reflexivity|]); lia|]).
  lia.
Qed.

Lemma pad_compare (w : nat) (a b : Z) :
  0 <= a < 10 ^ Z.of_nat w -> 0 <= b < 10 ^ Z.of_nat w ->
  String.compare (JsDate.pad w a) (JsDate.pad w b) = (a ?= b).
Proof.
  revert a b. induction w as [|w IH]; intros a b Ha Hb.
  - simpl in *. assert (a = 0) by lia. assert (b = 0) by lia. subst. reflexivity.
  - cbn [JsDate.pad]. rewrite compare_app by now rewrite !pad_length.
    rewrite Nat2Z.inj_succ, Z.pow_succ_r in Ha, Hb by lia.
    rewrite IH by (Z.to_euclidean_division_equations; lia).
    cbn [String.compare].
    rewrite digit_compare
      by (apply Nat2Z.inj_lt; rewrite Z2Nat.id; Z.to_euclidean_division_equations; lia).
    rewrite Z2Nat.inj_compare by (Z.to_euclidean_division_equations; lia).
    destruct (Z.compare_spec (a / 10) (b / 10)) as [E|E|E];
      destruct (Z.compare_spec (a mod 10) (b mod 10)) as [F|F|F];
      destruct (Z.compare_spec a b) as [G|G|G]; try reflexivity;
        exfalso; Z.to_euclidean_division_equations; lia.
Qed.

Lemma dateToString_compare (t1 t2 : Z) :
  0 <= JsDate.utcFullYear t1 <= 9999 -> 0 <= JsDate.utcFullYear t2 <= 9999 ->
  String.compare (JsDate.iso_day t1) (JsDate.iso_day t2)
  = let '(y1, m1, d1) := JsDate.civil_from_days (JsDate.utcDay t1) in
    let '(y2, m2, d2) := JsDate.civil_from_days (JsDate.utcDay t2) in
    match y1 ?= y2 with
    | Eq => match m1 ?= m2 with Eq => d1 ?= d2 | c => c end
    | c => c
    end.
Proof.
  unfold JsDate.iso_day, JsDate.utcFullYear.
  pose proof (civil_roundtrip (JsDate.utcDay t1) 1) as R1.
  pose proof (civil_roundtrip (JsDate.utcDay t2) 1) as R2.
  destruct (JsDate.civil_from_days (JsDate.utcDay t1)) as [[y1 m1] d1].
  destruct (JsDate.civil_from_days (JsDate.utcDay t2)) as [[y2 m2] d2].
  intros H1 H2.
  rewrite compare_app by now rewrite !pad_length.
  rewrite (pad_compare 4) by (simpl; lia).
  destruct (y1 ?= y2); try reflexivity.
  cbn [String.append String.compare].
  change (Ascii.compare "-" "-") with Eq. cbv iota.
  rewrite compare_app by now rewrite !pad_length.
  rewrite (pad_compare 2) by (simpl; lia).
  destruct (m1 ?= m2); try reflexivity.
  cbn [String.append String.compare].
  change (Ascii.compare "-" "-") with Eq. cbv iota.
  apply (pad_compare 2); simpl; lia.
Qed.

Lemma month_next (z : Z) :
  let '(y, m, d) := JsDate.civil_from_days z in
  m < 12 -> z < JsDate.days_from_civil y (m + 1) 1.
Proof.
  unfold JsDate.civil_from_days, JsDate.days_from_civil, JsDate.doy_of, JsDate.yoe_of.
  set (doe := (z + 719468) mod 146097).
  set (era := (z + 719468) / 146097).
  assert (Hz : z + 719468 = 146097 * era + doe) by (apply Z.div_mod; lia).
  assert (Hd : 0 <= doe < 146097) by (apply Z.mod_pos_bound; lia).
  clearbody doe era.
  set (yoe := (doe - doe / 1460 + doe / 36524 - doe / 146096) / 365).
  assert (Hy : 0 <= yoe <= 399) by (unfold yoe; Z.to_euclidean_division_equations; lia).
  set (doy := doe - (365 * yoe + yoe / 4 - yoe / 100)).
  assert (Hdoy : 0 <= doy <= 365) by (unfold doy, yoe; Z.to_euclidean_division_equations; lia).
  assert (Hleap : doy = 365 -> (yoe + 1) mod 4 = 0 /\ ((yoe + 1) mod 100 <> 0 \/ yoe = 399))
    by (unfold doy, yoe; (Z.to_euclidean_division_equations; lia)).
  set (mp := (5 * doy + 2) / 153).
  assert (Hmp : 0 <= mp <= 11) by (unfold mp; Z.to_euclidean_division_equations; lia).
  assert (Hmp2 : (153 * mp + 2) / 5 <= doy < (153 * (mp + 1) + 2) / 5)
    by (unfold mp; (Z.to_euclidean_division_equations; lia)).
  assert (E1 : (yoe + era * 400) / 400 = era) by (Z.to_euclidean_division_equations; lia).
  assert (E2 : (yoe + era * 400) mod 400 = yoe) by (Z.to_euclidean_division_equations; lia).
  assert (Edoy : doe = doy + (365 * yoe + yoe / 4 - yoe / 100)) by (unfold doy; lia).
  clearbody mp. clearbody doy. clearbody yoe.
  repeat match goal with
         | |- context [Z.ltb ?a ?b] => destruct (Z.ltb_spec a b)
         | |- context [Z.leb ?a ?b] => destruct (Z.leb_spec a b)
         end.
  all: intros Hm.
  all: try (replace (yoe + era * 400 + 1 - 1) with (yoe + era * 400) by lia).
  all: rewrite ?E1, ?E2.
  all: (Z.to_euclidean_division_equations; lia).
Qed.

Lemma month_start_mono (y m1 m2 : Z) :
  1 <= m1 -> m1 <= m2 -> m2 <= 12 ->
  JsDate.days_from_civil y m1 1 <= JsDate.days_from_civil y m2 1.
Proof.
  intros. unfold JsDate.days_from_civil.
  repeat match goal with
         | |- context [Z.ltb ?a ?b] => destruct (Z.ltb_spec a b)
         | |- context [Z.leb ?a ?b] => destruct (Z.leb_spec a b)
         end.
  all: Z.to_euclidean_division_equations; lia.
Qed.

Lemma lex_lt (y1 m1 d1 y2 m2 d2 : Z) :
  match y1 ?= y2 with
  | Eq => match m1 ?= m2 with Eq => d1 ?= d2 | c => c end
  | c => c
  end = Lt
  <-> y1 < y2 \/ (y1 = y2 /\ (m1 < m2 \/ (m1 = m2 /\ d1 < d2))).
Proof.
  destruct (Z.compare_spec y1 y2); [|split; [lia|reflexivity]|split; [discriminate|lia]].
  destruct (Z.compare_spec m1 m2); [|split; [lia|reflexivity]|split; [discriminate|lia]].
  rewrite Z.compare_lt_iff. lia.
Qed.

(** Later days have later civil dates. *)
Lemma civil_lt (z1 z2 : Z) :
  z1 < z2 ->
  let '(y1, m1, d1) := JsDate.civil_from_days z1 in
  let '(y2, m2, d2) := JsDate.civil_from_days z2 in
  y1 < y2 \/ (y1 = y2 /\ (m1 < m2 \/ (m1 = m2 /\ d1 < d2))).
Proof.
  intros H.
  pose proof (civil_year_bounds z1) as Y1. pose proof (civil_year_bounds z2) as Y2.
  pose proof (month_next z1) as N1. pose proof (month_next z2) as N2.
  pose proof (civil_roundtrip z1 1) as R1. pose proof (civil_roundtrip z2 1) as R2.
  destruct (JsDate.civil_from_days z1) as [[y1 m1] d1].
  destruct (JsDate.civil_from_days z2) as [[y2 m2] d2].
  cbv zeta in Y1, Y2.
  destruct R1 as (R1 & Hm1 & Hd1). destruct R2 as (R2 & Hm2 & Hd2).
  destruct (Z.lt_trichotomy y1 y2) as [Hy|[->|Hy]]; [now left| |].
  - right. split; [reflexivity|].
    destruct (Z.lt_trichotomy m1 m2) as [Hm|[->|Hm]]; [now left| |].
    + right. split; [reflexivity|lia].
    + exfalso. assert (m2 < 12) by lia.
      pose proof (month_start_mono y2 (m2 + 1) m1 ltac:(lia) ltac:(lia) ltac:(lia)).
      specialize (N2 ltac:(lia)). lia.
  - exfalso. pose proof (jan1_mono (y2 + 1) y1 ltac:(lia)). lia.
Qed.

(** Between the years 0000 and 9999 the ISO days are ordered as the
    days they name. *)
Lemma dateToString_order (t1 t2 : Z) :
  0 <= JsDate.utcFullYear t1 <= 9999 -> 0 <= JsDate.utcFullYear t2 <= 9999 ->
  (String.ltb (JsDate.iso_day t1) (JsDate.iso_day t2) = true
   <-> JsDate.utcDay t1 < JsDate.utcDay t2).
Proof.
  intros H1 H2. unfold String.ltb. rewrite (dateToString_compare t1 t2 H1 H2).
  pose proof (civil_lt (JsDate.utcDay t1) (JsDate.utcDay t2)) as L12.
  pose proof (civil_lt (JsDate.utcDay t2) (JsDate.utcDay t1)) as L21.
  destruct (JsDate.civil_from_days (JsDate.utcDay t1)) as [[y1 m1] d1] eqn:C1.
  destruct (JsDate.civil_from_days (JsDate.utcDay t2)) as [[y2 m2] d2] eqn:C2.
  pose proof (lex_lt y1 m1 d1 y2 m2 d2) as X.
  destruct (match y1 ?= y2 with
            | Eq => match m1 ?= m2 with Eq => d1 ?= d2 | c => c end
            | c => c
            end) eqn:K.
  - split; [discriminate|]. intros L. specialize (L12 L).
    apply X in L12. discriminate.
  - split; [intros _|reflexivity].
    destruct X as [X _]. specialize (X eq_refl).
    destruct (Z.lt_trichotomy (JsDate.utcDay t1) (JsDate.utcDay t2)) as [L|[E|G]];
      [assumption| |].
    + rewrite E, C2 in C1. inversion C1. subst. lia.
    + specialize (L21 G). lia.
  - split; [discriminate|]. intros L. specialize (L12 L).
    apply X in L12. discriminate.
Qed.

Lemma utcDay_start (d : Z) : JsDate.utcDay (d * JsDate.msPerDay) = d.
Proof. unfold JsDate.utcDay, JsDate.msPerDay. now rewrite Z.div_mul. Qed.

Lemma dateToString_day (t : Z) :
  JsDate.iso_day (JsDate.utcDay t * JsDate.msPerDay) = JsDate.iso_day t.
Proof. unfold JsDate.iso_day. now rewrite utcDay_start. Qed.

Lemma utcFullYear_day (t : Z) :
  JsDate.utcFullYear (JsDate.utcDay t * JsDate.msPerDay) = JsDate.utcFullYear t.
Proof. unfold JsDate.utcFullYear. now rewrite utcDay_start. Qed.

(** ISO days in ascending order name ascending days. *)
Lemma sorted_days (l : list string) :
  (forall s, In s l ->
     exists t, 0 <= JsDate.utcFullYear t <= 9999 /\ JsDate.iso_day t = s) ->
  StronglySorted (fun a b => String.ltb a b = true) l ->
  exists days,
    l = map (fun d => JsDate.iso_day (d * JsDate.msPerDay)) days
    /\ StronglySorted Z.lt days
    /\ Forall (fun d => 0 <= JsDate.utcFullYear (d * JsDate.msPerDay) <= 9999) days.
Proof.
  induction l as [|s l IH]; intros Hs Hl.
  - exists []. repeat constructor.
  - inversion Hl as [|? ? Hl' Hlt]; subst.
    destruct IH as (days & E & Sd & Yd); [intros; apply Hs; now right|assumption|].
    destruct (Hs s (or_introl eq_refl)) as (t & Yt & Et).
    exists (JsDate.utcDay t :: days). split; [|split].
    + cbn [map]. now rewrite dateToString_day, Et, E.
    + constructor; [assumption|].
      rewrite Forall_forall in *. intros d Hd.
      rewrite <- (utcDay_start d).
      apply dateToString_order; [assumption|now apply Yd|].
      rewrite Et. apply Hlt. rewrite E.
      now apply (in_map (fun d => JsDate.iso_day (d * JsDate.msPerDay))).
    + constructor; [now rewrite utcFullYear_day|assumption].
Qed.

(** ** Trends *)

Lemma size_pos {A} (l : list A) : l <> [] -> 1 <= Store.size l.
Proof. destruct l; [congruence|]. intros _. rewrite size_cons. unfold Store.size. lia. Qed.

Lemma ltb_irrefl (s : string) : String.ltb s s = false.
Proof.
  unfold String.ltb. pose proof (String.compare_antisym s s) as H.
  destruct (String.compare s s); try reflexivity. discriminate.
Qed.

Lemma string_length_app (s t : string) :
  String.length (s ++ t)%string = (String.length s + String.length t)%nat.
Proof. induction s as [|c s IH]; cbn; [reflexivity|]. now rewrite IH. Qed.

(** Between the years 0000 and 9999 two dates have the same ISO day
    exactly when they are of the same day. *)
Lemma iso_day_inj (t1 t2 : Z) :
  0 <= JsDate.utcFullYear t1 <= 9999 -> 0 <= JsDate.utcFullYear t2 <= 9999 ->
  (JsDate.iso_day t1 = JsDate.iso_day t2 <-> JsDate.utcDay t1 = JsDate.utcDay t2).
Proof.
  intros H1 H2. split.
  - intros E.
    destruct (Z.lt_trichotomy (JsDate.utcDay t1) (JsDate.utcDay t2)) as [L|[L|L]];
      [|exact L|].
    + apply (dateToString_order t1 t2 H1 H2) in L.
      rewrite E, ltb_irrefl in L. discriminate.
    + apply (dateToString_order t2 t1 H2 H1) in L.
      rewrite E, ltb_irrefl in L. discriminate.
  - intros E. unfold JsDate.iso_day. now rewrite E.
Qed.

Lemma dateToString_some (t : Z) :
  0 <= JsDate.utcFullYear t <= 9999 ->
  JsDate.dateToString t = Some (JsDate.iso_day t).
Proof.
  intros [H1 H2]. unfold JsDate.dateToString.
  apply Z.leb_le in H1, H2. now rewrite H1, H2.
Qed.

Lemma dateToString_none (t : Z) :
  ~ 0 <= JsDate.utcFullYear t <= 9999 -> JsDate.dateToString t = None.
Proof.
  intros H. unfold JsDate.dateToString.
  destruct (Z.leb_spec 0 (JsDate.utcFullYear t));
    destruct (Z.leb_spec (JsDate.utcFullYear t) 9999); try reflexivity.
  exfalso. apply H. lia.
Qed.

Lemma iso_day_length (t : Z) : String.length (JsDate.iso_day t) = 10%nat.
Proof.
  unfold JsDate.iso_day.
  destruct (JsDate.civil_from_days (JsDate.utcDay t)) as [[y m] d].
  rewrite !string_length_app, !pad_length. reflexivity.
Qed.

Lemma Forall2_and_In {A B} (P Q : A -> B -> Prop) (l : list A) (l' : list B) :
  Forall2 P l l' ->
  (forall a b, In a l -> In b l' -> P a b -> Q a b) ->
  Forall2 Q l l'.
Proof.
  induction 1 as [|a b l l' Hab _ IH]; intros H; constructor.
  - apply H; [now left|now left|exact Hab].
  - apply IH. intros x y Hx Hy. apply H; now right.
Qed.

Lemma Forall2_right {A B} (P : A -> B -> Prop) (l : list A) (l' : list B) (b : B) :
  Forall2 P l l' -> In b l' -> exists a, In a l /\ P a b.
Proof.
  induction 1 as [|x y l l' Hxy _ IH]; intros Hb; [destruct Hb|].
  destruct Hb as [<-|Hb].
  - exists x. split; [now left|exact Hxy].
  - destruct (IH Hb) as (a & Ha & Pa). exists a. split; [now right|exact Pa].
Qed.

Lemma Forall2_left {A B} (P : A -> B -> Prop) (l : list A) (l' : list B) (a : A) :
  Forall2 P l l' -> In a l -> exists b, In b l' /\ P a b.
Proof.
  induction 1 as [|x y l l' Hxy _ IH]; intros Ha; [destruct Ha|].
  destruct Ha as [<-|Ha].
  - exists y. split; [now left|exact Hxy].
  - destruct (IH Ha) as (b & Hb & Pb). exists b. split; [now right|exact Pb].
Qed.

(** Entries in the ascending order of their ISO days are the entries of
    ascending days. *)
Lemma trend_days (recent : list Expense.t) (l : list (Group.t string)) :
  (forall e, In e recent -> 0 <= JsDate.utcFullYear (Expense.date e) <= 9999) ->
  (forall g, In g l ->
     exists e, In e recent /\ JsDate.iso_day (Expense.date e) = Group._id g) ->
  StronglySorted (fun a b => String.ltb a b = true) (map Group._id l) ->
  exists days,
    StronglySorted Z.lt days
    /\ Forall2 (fun g d =>
                  Group._id g = JsDate.iso_day (d * JsDate.msPerDay)
                  /\ 0 <= JsDate.utcFullYear (d * JsDate.msPerDay) <= 9999
                  /\ exists e, In e recent /\ JsDate.utcDay (Expense.date e) = d)
         l days.
Proof.
  intros Hy. induction l as [|g l IH]; intros Hl Hs.
  - exists []. split; constructor.
  - cbn [map] in Hs. inversion Hs as [|? ? Hs' Hlt]; subst.
    destruct IH as (days & Sd & F); [intros; apply Hl; now right|assumption|].
    destruct (Hl g (or_introl eq_refl)) as (e & He & Ee).
    exists (JsDate.utcDay (Expense.date e) :: days). split.
    + constructor; [assumption|]. apply Forall_forall. intros d Hd.
      destruct (Forall2_right _ _ _ d F Hd) as (g' & Hg' & Eg' & Yd & _).
      rewrite <- (utcDay_start d).
      apply dateToString_order; [now apply Hy|exact Yd|].
      rewrite Ee, <- Eg'. rewrite Forall_forall in Hlt. apply Hlt.
      now apply in_map.
    + constructor; [|exact F]. split; [|split].
      * now rewrite dateToString_day.
      * rewrite utcFullYear_day. now apply Hy.
      * exists e. now split.
Qed.

(** C9, as amended: when the caller's expenses dated on or after
    [now - n days] (30 when [period] is absent) all fall in the years
    0000 to 9999, GET /api/reports/trends has one entry for each day, in
    UTC, on which the caller has such an expense, and no other: the
    entries are those of strictly ascending days, each named by the ISO
    date of its day (year, month and day of the calendar in four, two
    and two digits), ten characters long, with the sum and the number of
    that day's expenses, so distinct days have distinct entries and no
    entry has a count of zero; the ISO dates ascend as well.  With
    [period = 7] and two expenses, dated 10 days and 2 days ago, the
    output is the single entry of the second.  (The server's zone is a
    fixed offset.) *)
Theorem trends_days (tz : Z) (user : User.t) (now : Z) (period : option Z) (db : Db) :
  let n := Expenses.default period 30 in
  let recent :=
    filter (fun e => (Expense.userId e =? User._id user)%nat
                     && (now - n * JsDate.msPerDay <=? Expense.date e))
      (expenses db) in
  let on_day d := filter (fun e => JsDate.utcDay (Expense.date e) =? d) recent in
  (forall e, In e recent -> 0 <= JsDate.utcFullYear (Expense.date e) <= 9999) ->
  exists data days,
    Reports.trends tz user now period db = ok (Trends data)
    /\ StronglySorted Z.lt days
    /\ (forall d, In d days <->
                  exists e, In e recent /\ JsDate.utcDay (Expense.date e) = d)
    /\ Forall2 (fun g d =>
                  JsDate.dateToString (d * JsDate.msPerDay) = Some (Group._id g)
                  /\ (forall y m dd, JsDate.civil_from_days d = (y, m, dd) ->
                        Group._id g
                        = (JsDate.pad 4 y ++ "-" ++ JsDate.pad 2 m ++ "-"
                           ++ JsDate.pad 2 dd)%string)
                  /\ String.length (Group._id g) = 10%nat
                  /\ Group.total g = Store.sum Expense.amount (on_day d)
                  /\ Group.count g = Store.size (on_day d)
                  /\ 1 <= Group.count g)
         data days
    /\ StronglySorted (fun a b => String.ltb a b = true) (map Group._id data)
    /\ (period = Some 7 ->
        forall e1 e2,
          Permutation (filter (fun e => (Expense.userId e =? User._id user)%nat)
                         (expenses db)) [e1; e2] ->
          Expense.date e1 = now - 10 * JsDate.msPerDay ->
          Expense.date e2 = now - 2 * JsDate.msPerDay ->
          data = [Group.mk (JsDate.iso_day (Expense.date e2)) (Expense.amount e2) 1]).
Proof.
  intros n recent on_day Hy.
  set (key := fun e : Expense.t =>
                Expenses.default (JsDate.dateToString (Expense.date e)) "").
  set (groups := Store.group String.eqb key Expense.amount recent).
  set (le := fun x y : Group.t string => String.leb (Group._id x) (Group._id y)).
  assert (K : forall e, In e recent -> key e = JsDate.iso_day (Expense.date e)).
  { intros e He. unfold key. now rewrite (dateToString_some _ (Hy e He)). }
  assert (E : Reports.trends tz user now period db = ok (Trends (Store.sort le groups))).
  { unfold Reports.trends. fold n. rewrite setDate_days.
    change (Reports.since user (now - n * JsDate.msPerDay) db) with recent.
    replace (forallb _ recent) with true; [reflexivity|].
    symmetry. apply forallb_forall. intros e He.
    now rewrite (dateToString_some _ (Hy e He)). }
  exists (Store.sort le groups).
  assert (P : Permutation groups (Store.sort le groups)) by apply sort_perm.
  assert (Hin : forall g, In g (Store.sort le groups) <-> In g groups)
    by (intros g; apply sort_In).
  assert (Hsorted : StronglySorted (fun a b => String.ltb a b = true)
                      (map Group._id (Store.sort le groups))).
  { apply sorted_keys_strict.
    + apply sort_sorted.
      * intros x y. apply String.leb_total.
      * intros x y z. apply leb_trans.
    + apply (Permutation_NoDup (Permutation_map Group._id P)).
      apply group_NoDup. exact String.eqb_eq. }
  destruct (trend_days recent (Store.sort le groups) Hy) as (days & Sd & F);
    [|exact Hsorted|].
  { intros g Hg. apply Hin in Hg.
    destruct (group_key _ _ String.eqb key Expense.amount String.eqb_eq recent g Hg)
      as (e & He & Ee).
    exists e. split; [exact He|]. now rewrite <- (K e He). }
  exists days. split; [exact E|]. split; [exact Sd|].
  assert (Same : forall g d e,
             Group._id g = JsDate.iso_day (d * JsDate.msPerDay) ->
             0 <= JsDate.utcFullYear (d * JsDate.msPerDay) <= 9999 ->
             In e recent ->
             (Group._id g =? key e)%string = (JsDate.utcDay (Expense.date e) =? d)).
  { intros g d e Eg Yd He. rewrite (K e He), Eg.
    pose proof (iso_day_inj (d * JsDate.msPerDay) (Expense.date e) Yd (Hy e He)) as I.
    rewrite utcDay_start in I.
    destruct (String.eqb_spec (JsDate.iso_day (d * JsDate.msPerDay))
                (JsDate.iso_day (Expense.date e))) as [Q|Q];
      destruct (Z.eqb_spec (JsDate.utcDay (Expense.date e)) d) as [R|R];
      try reflexivity; exfalso.
    - apply R. symmetry. now apply I.
    - apply Q. apply I. now symmetry. }
  split; [|split; [|split]].
  - intros d. split.
    + intros Hd. destruct (Forall2_right _ _ _ d F Hd) as (g & _ & _ & _ & X).
      exact X.
    + intros (e & He & Ed).
      destruct (group_has _ _ String.eqb key Expense.amount String.eqb_eq recent e He)
        as (g & Hg & Hid).
      apply Hin in Hg. destruct (Forall2_left _ _ _ g F Hg) as (d' & Hd' & Eg & Yd & _).
      replace d with d'; [exact Hd'|].
      rewrite <- Ed. symmetry.
      pose proof (Same g d' e Eg Yd He) as X. rewrite Hid, String.eqb_refl in X.
      symmetry in X. now apply Z.eqb_eq in X.
  - apply (Forall2_and_In _ _ _ _ F). intros g d Hg _ (Eg & Yd & _).
    apply Hin in Hg.
    destruct (group_In _ _ String.eqb key Expense.amount String.eqb_eq recent g Hg)
      as [Hne Hval].
    assert (M : filter (fun x => (Group._id g =? key x)%string) recent = on_day d).
    { unfold on_day. apply filter_ext_in. intros e He. now apply Same. }
    rewrite M in Hne, Hval.
    assert (Ht : Group.total g = Store.sum Expense.amount (on_day d))
      by (rewrite Hval at 1; reflexivity).
    assert (Hc : Group.count g = Store.size (on_day d))
      by (rewrite Hval at 1; reflexivity).
    split; [rewrite (dateToString_some _ Yd); now rewrite Eg|].
    split.
    { intros y m dd Hc'. rewrite Eg. unfold JsDate.iso_day.
      rewrite utcDay_start, Hc'. reflexivity. }
    split; [rewrite Eg; apply iso_day_length|].
    split; [exact Ht|]. split; [exact Hc|]. rewrite Hc. now apply size_pos.
  - exact Hsorted.
  - intros Hp e1 e2 Hperm H1 H2.
    assert (Hr : recent = [e2]).
    { unfold recent.
      rewrite <- (filter_filter
                    (fun e => now - n * JsDate.msPerDay <=? Expense.date e)
                    (fun e => (Expense.userId e =? User._id user)%nat)).
      apply Permutation_length_1_inv.
      assert (F1 : filter (fun e => now - n * JsDate.msPerDay <=? Expense.date e)
                     [e1; e2] = [e2]).
      { unfold n. rewrite Hp. cbn [filter Expenses.default]. rewrite H1, H2.
        assert (A1 : (now - 7 * JsDate.msPerDay <=? now - 10 * JsDate.msPerDay)
                     = false) by (apply Z.leb_gt; unfold JsDate.msPerDay; lia).
        assert (A2 : (now - 7 * JsDate.msPerDay <=? now - 2 * JsDate.msPerDay)
                     = true) by (apply Z.leb_le; unfold JsDate.msPerDay; lia).
        rewrite A1, A2. reflexivity. }
      rewrite <- F1. symmetry. now apply filter_perm. }
    assert (He2 : In e2 recent) by (rewrite Hr; now left).
    unfold groups. rewrite Hr. cbn. unfold key.
    now rewrite (dateToString_some _ (Hy e2 He2)).
Qed.

Lemma trends_days_witness :
  Reports.trends Sample.tz Sample.alice Sample.now (Some 7) Sample.week
  = ok (Trends [Group.mk "2024-06-08" 90 1]).
Proof.
  set (es := filter (fun e => (Expense.userId e =? User._id Sample.alice)%nat)
               (expenses Sample.week)).
  set (d := Expense.mk 0 "" 0 None 0 0 0 "" [] None 0 0).
  destruct (trends_days Sample.tz Sample.alice Sample.now (Some 7) Sample.week)
    as (data & days & E & _ & _ & _ & _ & S).
  - intros e He. apply filter_In in He. destruct He as [He _].
    assert (W : expenses Sample.week = [nth 0 es d; nth 1 es d])
      by (vm_compute; reflexivity).
    rewrite W in He. destruct He as [<-|[<-|[]]]; vm_compute; split; discriminate.
  - assert (Hd : data = [Group.mk (JsDate.iso_day (Expense.date (nth 1 es d)))
                           (Expense.amount (nth 1 es d)) 1]).
    { apply (S eq_refl (nth 0 es d) (nth 1 es d)).
      - vm_compute. apply Permutation_refl.
      - vm_compute. reflexivity.
      - vm_compute. reflexivity. }
    rewrite E, Hd. vm_compute. reflexivity.
Defined.

(** The claim C9 as first stated fails for a user with an expense dated
    in a year that [YYYY] cannot show: with Alice's expense dated
    12024-06-08 the aggregation fails and the handler answers 500; there
    is no output, although Alice has expenses on three days since the
    start of the period. *)
Lemma trends_year_out_of_range :
  Reports.trends Sample.tz Sample.alice Sample.now (Some 30) Sample.distant
  = fail 500 "Server error"
  /\ map (fun e => JsDate.utcDay (Expense.date e))
       (filter (fun e => (Expense.userId e =? User._id Sample.alice)%nat
                         && (Sample.now - 30 * JsDate.msPerDay <=? Expense.date e))
          (expenses Sample.distant))
     = [19874; 19882; 3672307].
Proof. split; vm_compute; reflexivity. Qed.

(** ** The monthly chart *)

Lemma NoDup_map_unique {A B} (f : A -> B) (l : list A) (x y : A) :
  NoDup (map f l) -> In x l -> In y l -> f x = f y -> x = y.
Proof.
  induction l as [|a l IH]; simpl; [intros _ []|].
  intros H Hx Hy E. inversion H as [|? ? Hnot Hnd]; subst.
  destruct Hx as [<-|Hx], Hy as [<-|Hy]; auto.
  - exfalso. apply Hnot. rewrite E. now apply in_map.
  - exfalso. apply Hnot. rewrite <- E. now apply in_map.
Qed.









Lemma year_start (tz y t : Z) :
  ~ 0 <= y <= 99 ->
  (JsDate.Date_of tz y 0 1 <=? t) = (y <=? JsDate.getFullYear tz t).
Proof.
  intros Hy. unfold JsDate.Date_of, JsDate.getFullYear.
  replace ((0 <=? y) && (y <=? 99)) with false
    by (symmetry; apply andb_false_iff; rewrite !Z.leb_gt; lia).
  change (0 + 1) with 1. rewrite !days_from_civil_jan1.
  pose proof (civil_year_bounds (JsDate.localTime tz t / JsDate.msPerDay)) as C.
  destruct (JsDate.civil_from_days (JsDate.localTime tz t / JsDate.msPerDay))
    as [[y' m] d].
  cbv zeta in C.
  pose proof (Z.div_mod (JsDate.localTime tz t) JsDate.msPerDay) as D.
  pose proof (Z.mod_pos_bound (JsDate.localTime tz t) JsDate.msPerDay) as B.
  set (q := JsDate.localTime tz t / JsDate.msPerDay) in *.
  set (r := JsDate.localTime tz t mod JsDate.msPerDay) in *.
  unfold JsDate.localTime, JsDate.msPerDay, JsDate.msPerMinute in *.
  destruct (Z.leb_spec y y') as [L|L].
  - apply Z.leb_le. pose proof (jan1_mono y y' L). lia.
  - apply Z.leb_gt. pose proof (jan1_mono (y' + 1) y ltac:(lia)). lia.
Qed.




(** ** Documents of other users *)




Lemma In_firstn {A} (n : nat) (l : list A) (x : A) : In x (firstn n l) -> In x l.
Proof.
  revert l. induction n as [|n IH]; intros [|a l]; simpl; try tauto.
  intros [<-|H]; [now left|right; auto].
Qed.


Section OtherUsersExpense.
Variable db : Db.
Variable caller : User.t.
Variable R : Expense.t.
Hypothesis Hwf : Invariant.wf db = true.
Hypothesis HR : In R (expenses db).
Hypothesis Hother : Expense.userId R <> User._id caller.



End OtherUsersExpense.

Section OtherUsersExpenseRequests.
Variable tz : Z.
Variable regex_i : string -> string -> bool.
Variable db : Db.
Variable caller : User.t.
Variable R : Expense.t.
Hypothesis Hwf : Invariant.wf db = true.
Hypothesis HR : In R (expenses db).
Hypothesis Hother : Expense.userId R <> User._id caller.





End OtherUsersExpenseRequests.

Section OtherUsersCategory.
Variable tz : Z.
Variable regex_i : string -> string -> bool.
Variable db : Db.
Variable caller : User.t.
Variable R : Category.t.
Hypothesis Hwf : Invariant.wf db = true.
Hypothesis HR : In R (categories db).
Hypothesis Hother : Category.userId R <> User._id caller.









End OtherUsersCategory.








(** ** The invariants hold in every store the handlers reach *)

Lemma below_spec (n : ObjectId) (l : list ObjectId) :
  Invariant.below n l = true <-> forall x, In x l -> (x < n)%nat.
Proof.
  unfold Invariant.below. rewrite forallb_forall. split; intros H x Hx.
  - apply Nat.ltb_lt. auto.
  - apply Nat.ltb_lt. auto.
Qed.

Lemma same_owner_spec (cs : list Category.t) (es : list Expense.t) :
  forallb (Invariant.same_owner cs) es = true <->
  forall e c, In e es -> In c cs -> Category._id c = Expense.category e ->
              Category.userId c = Expense.userId e.
Proof.
  rewrite forallb_forall. unfold Invariant.same_owner. split.
  - intros H e c He Hc E. specialize (H e He). rewrite forallb_forall in H.
    specialize (H c Hc). rewrite E, Nat.eqb_refl in H. now apply Nat.eqb_eq.
  - intros H e He. apply forallb_forall. intros c Hc.
    destruct (Nat.eqb_spec (Category._id c) (Expense.category e)) as [E|E];
      [|reflexivity].
    simpl. apply Nat.eqb_eq. auto.
Qed.

Lemma wf_spec (db : Db) :
  Invariant.wf db = true <->
  NoDup (map User._id (users db))
  /\ NoDup (map Category._id (categories db))
  /\ NoDup (map Expense._id (expenses db))
  /\ (forall x, In x (map User._id (users db)) -> (x < nextId db)%nat)
  /\ (forall x, In x (map Category._id (categories db)) -> (x < nextId db)%nat)
  /\ (forall x, In x (map Category.userId (categories db)) -> (x < nextId db)%nat)
  /\ (forall x, In x (map Expense._id (expenses db)) -> (x < nextId db)%nat)
  /\ (forall x, In x (map Expense.category (expenses db)) -> (x < nextId db)%nat)
  /\ (forall e c, In e (expenses db) -> In c (categories db) ->
                  Category._id c = Expense.category e ->
                  Category.userId c = Expense.userId e).
Proof.
  unfold Invariant.wf.
  rewrite !andb_true_iff, !distinct_NoDup, !below_spec, same_owner_spec. tauto.
Qed.

Lemma NoDup_fresh (l : list ObjectId) (n : ObjectId) :
  NoDup l -> (forall x, In x l -> (x < n)%nat) -> NoDup (l ++ [n]).
Proof.
  intros H B. apply NoDup_app; [assumption|repeat constructor; intros []|].
  intros x Hx [<-|[]]. specialize (B _ Hx). lia.
Qed.

Section Replace.
Variable A : Type.
Variable f : A -> bool.
Variable upd : A -> A.

Lemma findOneAndUpdate_In (l : list A) (y : A) :
  In y (snd (Store.findOneAndUpdate f upd l)) ->
  In y l \/ exists x, In x l /\ f x = true /\ y = upd x.
Proof.
  induction l as [|a l IH]; simpl; [tauto|].
  destruct (f a) eqn:Fa; simpl.
  - intros [<-|H]; [right; exists a; auto|left; now right].
  - destruct (Store.findOneAndUpdate f upd l) as [o r]. simpl in IH |- *.
    intros [<-|H]; [left; now left|].
    destruct (IH H) as [H'|(x & Hx & Fx & E)]; [left; now right|].
    right. exists x. auto.
Qed.

Lemma findOneAndDelete_sub (l : list A) :
  exists l1 l2 rest, l = l1 ++ rest ++ l2
                     /\ snd (Store.findOneAndDelete f l) = l1 ++ l2.
Proof.
  induction l as [|a l IH]; simpl.
  - exists [], [], []. split; reflexivity.
  - destruct (f a); simpl.
    + exists [], l, [a]. split; reflexivity.
    + destruct (Store.findOneAndDelete f l) as [o r]. simpl in IH |- *.
      destruct IH as (l1 & l2 & rest & -> & ->).
      exists (a :: l1), l2, rest. split; reflexivity.
Qed.

Lemma findOneAndDelete_incl (l : list A) (x : A) :
  In x (snd (Store.findOneAndDelete f l)) -> In x l.
Proof.
  destruct (findOneAndDelete_sub l) as (l1 & l2 & rest & E & ->).
  rewrite E, !in_app_iff. tauto.
Qed.

Variable B : Type.
Variable g : A -> B.

Lemma findOneAndUpdate_map (l : list A) :
  (forall x, g (upd x) = g x) ->
  map g (snd (Store.findOneAndUpdate f upd l)) = map g l.
Proof.
  intros H. induction l as [|a l IH]; simpl; [reflexivity|].
  destruct (f a); simpl; [now rewrite H|].
  destruct (Store.findOneAndUpdate f upd l) as [o r]. simpl in IH |- *.
  now rewrite IH.
Qed.

Lemma findOneAndDelete_NoDup (l : list A) :
  NoDup (map g l) -> NoDup (map g (snd (Store.findOneAndDelete f l))).
Proof.
  destruct (findOneAndDelete_sub l) as (l1 & l2 & rest & E & ->).
  rewrite E, !map_app. intros H.
  induction (map g l1) as [|b m IH]; simpl in H |- *.
  - induction (map g rest) as [|c n IHn]; simpl in H |- *; [assumption|].
    inversion H. auto.
  - inversion H as [|? ? Hnot Hnd]; subst. constructor; [|auto].
    rewrite !in_app_iff in *. tauto.
Qed.
End Replace.

Lemma create_fields (user : User.t) (now : Z) (id category : ObjectId) (date : Z)
      (b : ExpenseBody.t) (e : Expense.t) :
  Expenses.create user now id category date b = Some e ->
  Expense._id e = id /\ Expense.category e = category
  /\ Expense.userId e = User._id user /\ 0 <= Expense.amount e.
Proof.
  unfold Expenses.create.
  destruct (Schema.required_string _); [|discriminate].
  destruct (Schema.amount_valid (ExpenseBody.amount b)) as [a|] eqn:V; [|discriminate].
  destruct (Schema.paymentMethod_valid _); [|discriminate].
  intros H. inversion H; subst; cbn. repeat split; try reflexivity.
  unfold Schema.amount_valid in V. destruct (ExpenseBody.amount b); try discriminate.
  destruct (Z.leb_spec 0 z); inversion V; subst; assumption.
Qed.

Lemma new_expense_fields (user : User.t) (now : Z) (id category : ObjectId)
      (b : ExpenseBody.t) (e : Expense.t) :
  Expenses.new_expense user now id category b = Some e ->
  Expense._id e = id /\ Expense.category e = category
  /\ Expense.userId e = User._id user /\ 0 <= Expense.amount e.
Proof. apply create_fields. Qed.

Lemma categoryExists_some (user : User.t) (cid : ObjectId) (db : Db) (c : Category.t) :
  Expenses.categoryExists user cid db = Some c ->
  In c (categories db) /\ Category._id c = cid
  /\ Category.userId c = User._id user.
Proof.
  unfold Expenses.categoryExists. intros H. apply findOne_some in H.
  destruct H as [Hc H]. apply andb_true_iff in H. destruct H as [H1 H2].
  apply Nat.eqb_eq in H1. unfold Categories.owned_by in H2. apply Nat.eqb_eq in H2.
  auto.
Qed.

Lemma post_category_wf (caller : User.t) (now : Z) (b : CategoryBody.t) (db : Db) :
  Invariant.wf db = true -> (User._id caller < nextId db)%nat ->
  Invariant.wf (snd (Categories.post caller now b db)) = true.
Proof.
  intros Hwf Hc. unfold Categories.post.
  destruct (negb _); [exact Hwf|].
  destruct (Store.findOne _ _); [exact Hwf|].
  destruct (Schema.required_string _); [|exact Hwf].
  cbn [snd]. apply wf_spec in Hwf. apply wf_spec.
  destruct Hwf as (U & C & E & BU & BC & BO & BE & BX & SO).
  unfold insert_category. cbn [users categories expenses nextId].
  rewrite !map_app. cbn [map Category._id Category.userId].
  repeat split; auto.
  - now apply NoDup_fresh.
  - intros x Hx. specialize (BU x Hx). lia.
  - intros x Hx. apply in_app_iff in Hx. destruct Hx as [Hx|[<-|[]]]; [|lia].
    specialize (BC x Hx). lia.
  - intros x Hx. apply in_app_iff in Hx. destruct Hx as [Hx|[<-|[]]]; [|lia].
    specialize (BO x Hx). lia.
  - intros x Hx. specialize (BE x Hx). lia.
  - intros x Hx. specialize (BX x Hx). lia.
  - intros e c He Hin Eq. apply in_app_iff in Hin. destruct Hin as [Hin|[<-|[]]].
    + now apply SO.
    + cbn in Eq. exfalso.
      assert (Expense.category e < nextId db)%nat by (apply BX; now apply in_map).
      lia.
Qed.

Lemma put_category_wf (caller : User.t) (id : ObjectId) (b : CategoryBody.t) (db : Db) :
  Invariant.wf db = true ->
  Invariant.wf (snd (Categories.put caller id b db)) = true.
Proof.
  intros Hwf. unfold Categories.put.
  destruct (Categories.update_valid b); [|exact Hwf].
  destruct (Store.findOneAndUpdate _ _ _) as [[c|] cs] eqn:F; [|exact Hwf].
  cbn [snd]. apply wf_spec in Hwf. apply wf_spec.
  destruct Hwf as (U & C & E & BU & BC & BO & BE & BX & SO).
  assert (Hcs : cs = snd (Store.findOneAndUpdate
                            (fun c => (Category._id c =? id)%nat
                                      && Categories.owned_by (User._id caller) c)
                            (Categories.apply_update b) (categories db)))
    by (now rewrite F).
  unfold set_categories. cbn [users categories expenses nextId].
  assert (Mi : map Category._id cs = map Category._id (categories db))
    by (rewrite Hcs; now apply findOneAndUpdate_map).
  assert (Mo : map Category.userId cs = map Category.userId (categories db))
    by (rewrite Hcs; now apply findOneAndUpdate_map).
  rewrite Mi, Mo. repeat split; auto.
  intros e c' He Hin Eq. rewrite Hcs in Hin.
  apply findOneAndUpdate_In in Hin. destruct Hin as [Hin|(x & Hx & _ & ->)].
  - now apply SO.
  - apply (SO e x He Hx Eq).
Qed.

Lemma delete_category_wf (caller : User.t) (id : ObjectId) (db : Db) :
  Invariant.wf db = true ->
  Invariant.wf (snd (Categories.delete caller id db)) = true.
Proof.
  intros Hwf. unfold Categories.delete.
  destruct (Store.findOneAndDelete _ _) as [[c|] cs] eqn:F; [|exact Hwf].
  cbn [snd]. apply wf_spec in Hwf. apply wf_spec.
  destruct Hwf as (U & C & E & BU & BC & BO & BE & BX & SO).
  assert (Hcs : cs = snd (Store.findOneAndDelete
                            (fun c => (Category._id c =? id)%nat
                                      && Categories.owned_by (User._id caller) c
                                      && negb (Category.isDefault c))
                            (categories db)))
    by (now rewrite F).
  unfold set_categories. cbn [users categories expenses nextId].
  assert (I : forall c, In c cs -> In c (categories db))
    by (intros c' H; rewrite Hcs in H; now apply findOneAndDelete_incl in H).
  repeat split; auto.
  - rewrite Hcs. now apply findOneAndDelete_NoDup.
  - intros x Hx. apply in_map_iff in Hx. destruct Hx as (c' & <- & Hc').
    apply BC. apply in_map. auto.
  - intros x Hx. apply in_map_iff in Hx. destruct Hx as (c' & <- & Hc').
    apply BO. apply in_map. auto.
Qed.

Lemma post_expense_wf (caller : User.t) (now : Z) (b : ExpenseBody.t) (db : Db) :
  Invariant.wf db = true ->
  Invariant.wf (snd (Expenses.post caller now b db)) = true.
Proof.
  intros Hwf. unfold Expenses.post.
  destruct (negb _); [exact Hwf|].
  destruct (ExpenseBody.category b) as [cid|]; [|exact Hwf].
  destruct (Expenses.categoryExists caller cid db) as [c0|] eqn:C0; [|exact Hwf].
  destruct (Expenses.new_expense caller now (nextId db) cid b) as [e|] eqn:N;
    [|exact Hwf].
  cbn [snd]. apply new_expense_fields in N. destruct N as (Ni & Nc & Nu & _).
  apply categoryExists_some in C0. destruct C0 as (Hc0 & Hid0 & Ho0).
  apply wf_spec in Hwf. apply wf_spec.
  destruct Hwf as (U & C & E & BU & BC & BO & BE & BX & SO).
  unfold insert_expense. cbn [users categories expenses nextId].
  rewrite !map_app. cbn [map]. rewrite Ni, Nc.
  repeat split; auto.
  - now apply NoDup_fresh.
  - intros x Hx. specialize (BU x Hx). lia.
  - intros x Hx. specialize (BC x Hx). lia.
  - intros x Hx. specialize (BO x Hx). lia.
  - intros x Hx. apply in_app_iff in Hx. destruct Hx as [Hx|[<-|[]]]; [|lia].
    specialize (BE x Hx). lia.
  - intros x Hx. apply in_app_iff in Hx. destruct Hx as [Hx|[<-|[]]].
    + specialize (BX x Hx). lia.
    + assert (cid < nextId db)%nat; [|lia].
      apply BC. rewrite <- Hid0. now apply in_map.
  - intros e' c He' Hc Eq. apply in_app_iff in He'. destruct He' as [He'|[<-|[]]].
    + now apply SO.
    + rewrite Nu, <- Ho0. f_equal.
      apply (NoDup_map_unique Category._id (categories db)); auto. congruence.
Qed.

Lemma apply_update_fields (now : Z) (b : ExpenseBody.t) (e : Expense.t) :
  Expense._id (Expenses.apply_update now b e) = Expense._id e
  /\ Expense.userId (Expenses.apply_update now b e) = Expense.userId e
  /\ Expense.category (Expenses.apply_update now b e)
     = Expenses.default (ExpenseBody.category b) (Expense.category e).
Proof. repeat split. Qed.

Lemma put_expense_wf (now : Z) (caller : User.t) (id : ObjectId) (b : ExpenseBody.t)
      (db : Db) :
  Invariant.wf db = true ->
  Invariant.wf (snd (Expenses.put caller now id b db)) = true.
Proof.
  intros Hwf. unfold Expenses.put.
  destruct (match ExpenseBody.category b with Some _ => _ | None => _ end) eqn:IC;
    [exact Hwf|].
  destruct (Expenses.update_valid b); [|exact Hwf].
  destruct (Store.findOneAndUpdate _ _ _) as [[e0|] es] eqn:F; [|exact Hwf].
  cbn [snd].
  set (f := fun e => (Expense._id e =? id)%nat
                     && Expenses.owned_by (User._id caller) e) in F.
  assert (Hes : es = snd (Store.findOneAndUpdate f (Expenses.apply_update now b)
                            (expenses db))) by (now rewrite F).
  assert (New : forall y, In y es ->
                  In y (expenses db)
                  \/ exists x, In x (expenses db) /\ Expense.userId x = User._id caller
                               /\ y = Expenses.apply_update now b x).
  { intros y Hy. rewrite Hes in Hy. apply findOneAndUpdate_In in Hy.
    destruct Hy as [Hy|(x & Hx & Fx & ->)]; [now left|].
    right. exists x. split; [assumption|]. split; [|reflexivity].
    unfold f in Fx. apply andb_true_iff in Fx. destruct Fx as [_ Fx].
    now apply Nat.eqb_eq in Fx. }
  assert (Cat : forall cid, ExpenseBody.category b = Some cid ->
                  exists c0, In c0 (categories db) /\ Category._id c0 = cid
                             /\ Category.userId c0 = User._id caller).
  { intros cid Ec. rewrite Ec in IC.
    destruct (Expenses.categoryExists caller cid db) as [c0|] eqn:C0; [|discriminate].
    exists c0. now apply categoryExists_some. }
  apply wf_spec in Hwf. apply wf_spec.
  destruct Hwf as (U & C & E & BU & BC & BO & BE & BX & SO).
  unfold set_expenses. cbn [users categories expenses nextId].
  assert (Mi : map Expense._id es = map Expense._id (expenses db))
    by (rewrite Hes; now apply findOneAndUpdate_map).
  rewrite Mi. repeat split; auto.
  - intros x Hx. apply in_map_iff in Hx. destruct Hx as (y & <- & Hy).
    destruct (New y Hy) as [Hy'|(x & Hx & _ & ->)].
    + apply BX. now apply in_map.
    + destruct (apply_update_fields now b x) as (_ & _ & ->).
      destruct (ExpenseBody.category b) as [cid|] eqn:Ec; cbn.
      * destruct (Cat cid eq_refl) as (c0 & Hc0 & <- & _).
        apply BC. now apply in_map.
      * apply BX. now apply in_map.
  - intros y c Hy Hc Eq.
    destruct (New y Hy) as [Hy'|(x & Hx & Ox & ->)]; [now apply SO|].
    destruct (apply_update_fields now b x) as (_ & Eu & Ecat).
    rewrite Eu. rewrite Ecat in Eq.
    destruct (ExpenseBody.category b) as [cid|] eqn:Ec; cbn in Eq.
    + destruct (Cat cid eq_refl) as (c0 & Hc0 & Hid0 & Ho0).
      rewrite Ox, <- Ho0. f_equal.
      apply (NoDup_map_unique Category._id (categories db)); auto. congruence.
    + now apply SO.
Qed.

Lemma delete_expense_wf (caller : User.t) (id : ObjectId) (db : Db) :
  Invariant.wf db = true ->
  Invariant.wf (snd (Expenses.delete caller id db)) = true.
Proof.
  intros Hwf. unfold Expenses.delete.
  destruct (Store.findOneAndDelete _ _) as [[e0|] es] eqn:F; [|exact Hwf].
  cbn [snd]. apply wf_spec in Hwf. apply wf_spec.
  destruct Hwf as (U & C & E & BU & BC & BO & BE & BX & SO).
  assert (Hes : es = snd (Store.findOneAndDelete
                            (fun e => (Expense._id e =? id)%nat
                                      && Expenses.owned_by (User._id caller) e)
                            (expenses db)))
    by (now rewrite F).
  unfold set_expenses. cbn [users categories expenses nextId].
  assert (I : forall e, In e es -> In e (expenses db))
    by (intros e' H; rewrite Hes in H; now apply findOneAndDelete_incl in H).
  repeat split; auto.
  - rewrite Hes. now apply findOneAndDelete_NoDup.
  - intros x Hx. apply in_map_iff in Hx. destruct Hx as (e' & <- & He').
    apply BE. apply in_map. auto.
  - intros x Hx. apply in_map_iff in Hx. destruct Hx as (e' & <- & He').
    apply BX. apply in_map. auto.
Qed.

(** Every request of a registered caller leaves the store well formed,
    and never hands out an identifier twice. *)
Lemma handle_wf (tz : Z) (regex_i : string -> string -> bool)
      (caller : User.t) (now : Z) (r : Request) (db : Db) :
  Invariant.wf db = true -> (User._id caller < nextId db)%nat ->
  Invariant.wf (snd (handle tz regex_i caller now r db)) = true.
Proof.
  intros Hwf Hc. destruct r; cbn [handle snd]; try exact Hwf.
  - now apply post_category_wf.
  - now apply put_category_wf.
  - now apply delete_category_wf.
  - now apply post_expense_wf.
  - now apply put_expense_wf.
  - now apply delete_expense_wf.
Qed.

Lemma insert_category_wf (db : Db) (c : Category.t) :
  Invariant.wf db = true -> Category._id c = nextId db ->
  (Category.userId c < nextId db)%nat ->
  Invariant.wf (insert_category db c) = true.
Proof.
  intros Hwf Hid Ho. apply wf_spec in Hwf. apply wf_spec.
  destruct Hwf as (U & C & E & BU & BC & BO & BE & BX & SO).
  unfold insert_category. cbn [users categories expenses nextId].
  rewrite !map_app. cbn [map]. rewrite Hid.
  repeat split; auto.
  - now apply NoDup_fresh.
  - intros x Hx. specialize (BU x Hx). lia.
  - intros x Hx. apply in_app_iff in Hx. destruct Hx as [Hx|[<-|[]]]; [|lia].
    specialize (BC x Hx). lia.
  - intros x Hx. apply in_app_iff in Hx. destruct Hx as [Hx|[<-|[]]]; [|lia].
    specialize (BO x Hx). lia.
  - intros x Hx. specialize (BE x Hx). lia.
  - intros x Hx. specialize (BX x Hx). lia.
  - intros e c' He Hin Eq. apply in_app_iff in Hin. destruct Hin as [Hin|[<-|[]]].
    + now apply SO.
    + exfalso. rewrite Hid in Eq.
      assert (Expense.category e < nextId db)%nat by (apply BX; now apply in_map).
      lia.
Qed.

Lemma insert_user_wf (db : Db) (u : User.t) :
  Invariant.wf db = true -> User._id u = nextId db ->
  Invariant.wf (insert_user db u) = true.
Proof.
  intros Hwf Hid. apply wf_spec in Hwf. apply wf_spec.
  destruct Hwf as (U & C & E & BU & BC & BO & BE & BX & SO).
  unfold insert_user. cbn [users categories expenses nextId].
  rewrite !map_app. cbn [map]. rewrite Hid.
  repeat split; auto.
  - now apply NoDup_fresh.
  - intros x Hx. apply in_app_iff in Hx. destruct Hx as [Hx|[<-|[]]]; [|lia].
    specialize (BU x Hx). lia.
  - intros x Hx. specialize (BC x Hx). lia.
  - intros x Hx. specialize (BO x Hx). lia.
  - intros x Hx. specialize (BE x Hx). lia.
  - intros x Hx. specialize (BX x Hx). lia.
Qed.

Lemma insertMany_wf (u : ObjectId) (docs : list (ObjectId -> Category.t)) (db : Db) :
  (forall doc id, In doc docs ->
                  Category._id (doc id) = id /\ Category.userId (doc id) = u) ->
  Invariant.wf db = true -> (u < nextId db)%nat ->
  Invariant.wf (Auth.insertMany docs db) = true
  /\ users (Auth.insertMany docs db) = users db.
Proof.
  unfold Auth.insertMany. revert db.
  induction docs as [|doc docs IH]; intros db H Hwf Hu; [now split|].
  cbn [fold_left]. destruct (H doc (nextId db) (or_introl eq_refl)) as [Hi Ho].
  destruct (IH (insert_category db (doc (nextId db)))) as [W Us].
  - intros d i Hd. apply H. now right.
  - apply insert_category_wf; auto. now rewrite Ho.
  - cbn. lia.
  - split; [exact W|]. rewrite Us. reflexivity.
Qed.

Lemma register_wf (isEmail : string -> bool) (hash : string -> string)
      (sign : ObjectId -> string) (now : Z) (b : RegisterBody.t) (db : Db) :
  Invariant.wf db = true ->
  Invariant.wf (snd (Auth.register isEmail hash sign now b db)) = true.
Proof.
  intros Hwf. unfold Auth.register.
  destruct (negb _); [exact Hwf|].
  destruct (Store.findOne _ _); [exact Hwf|].
  destruct (Auth.new_user hash (nextId db) b) as [user|] eqn:N; [|exact Hwf].
  cbn [snd]. apply new_user_id in N.
  apply (insertMany_wf (User._id user)).
  - intros doc id Hd. apply in_map_iff in Hd. destruct Hd as (s & <- & _).
    split; reflexivity.
  - now apply insert_user_wf.
  - cbn. lia.
Qed.

Lemma user_id_below (db : Db) (u : User.t) :
  Invariant.wf db = true -> In u (users db) -> (User._id u < nextId db)%nat.
Proof.
  intros Hwf Hu. apply wf_spec in Hwf.
  destruct Hwf as (_ & _ & _ & BU & _). apply BU. now apply in_map.
Qed.

(** Every store the server reaches is well formed. *)
Lemma reachable_wf (tz : Z) (regex_i : string -> string -> bool)
      (isEmail : string -> bool) (hash : string -> string)
      (sign : ObjectId -> string) (db : Db) :
  reachable tz regex_i isEmail hash sign db -> Invariant.wf db = true.
Proof.
  induction 1 as [|now b db _ IH|caller now r db _ IH Hc].
  - reflexivity.
  - now apply register_wf.
  - apply handle_wf; [assumption|]. now apply user_id_below.
Qed.

Section Forall.
Variable A : Type.
Variable P : A -> bool.
Variable f : A -> bool.

Lemma forallb_snoc (l : list A) (x : A) :
  forallb P l = true -> P x = true -> forallb P (l ++ [x]) = true.
Proof. intros Hl Hx. rewrite forallb_app, Hl. simpl. now rewrite Hx. Qed.

Lemma forallb_deleted (l : list A) :
  forallb P l = true -> forallb P (snd (Store.findOneAndDelete f l)) = true.
Proof.
  rewrite !forallb_forall. intros H x Hx. apply H.
  now apply findOneAndDelete_incl in Hx.
Qed.

Lemma forallb_updated (upd : A -> A) (l : list A) :
  (forall x, P x = true -> P (upd x) = true) ->
  forallb P l = true -> forallb P (snd (Store.findOneAndUpdate f upd l)) = true.
Proof.
  rewrite !forallb_forall. intros Hu H y Hy.
  apply findOneAndUpdate_In in Hy. destruct Hy as [Hy|(x & Hx & _ & ->)]; auto.
Qed.
End Forall.

Lemma trimmed_name_ok (s : string) :
  Schema.required_string s = true ->
  (JsString.trim (JsString.trim s) =? JsString.trim s)%string
  && negb (JsString.trim s =? "")%string = true.
Proof.
  unfold Schema.required_string. intros H.
  now rewrite trim_idem, String.eqb_refl, H.
Qed.

Lemma handle_names_ok (tz : Z) (regex_i : string -> string -> bool)
      (caller : User.t) (now : Z) (r : Request) (db : Db) :
  Invariant.names_ok db = true ->
  Invariant.names_ok (snd (handle tz regex_i caller now r db)) = true.
Proof.
  intros H. destruct r; cbn [handle snd]; try exact H.
  - unfold Categories.post.
    destruct (negb _); [exact H|].
    destruct (Store.findOne _ _); [exact H|].
    destruct (Schema.required_string _) eqn:V; [|exact H].
    cbn [snd]. unfold Invariant.names_ok, insert_category. cbn [categories].
    apply forallb_snoc; [exact H|]. cbn [Category.name].
    unfold Schema.required_string in V. rewrite trim_idem in V.
    rewrite trim_idem, String.eqb_refl. exact V.
  - unfold Categories.put.
    destruct (Categories.update_valid b) eqn:V; [|exact H].
    destruct (Store.findOneAndUpdate _ _ _) as [[c|] cs] eqn:F; [|exact H].
    cbn [snd]. unfold Invariant.names_ok, set_categories. cbn [categories].
    replace cs with (snd (Store.findOneAndUpdate
                            (fun c => (Category._id c =? id)%nat
                                      && Categories.owned_by (User._id caller) c)
                            (Categories.apply_update b) (categories db)))
      by (now rewrite F).
    apply forallb_updated; [|exact H].
    intros x Hx. unfold Categories.apply_update. cbn [Category.name].
    unfold Categories.update_valid in V.
    destruct (CategoryBody.name b) as [s|]; [|exact Hx].
    now apply trimmed_name_ok.
  - unfold Categories.delete.
    destruct (Store.findOneAndDelete _ _) as [[c|] cs] eqn:F; [|exact H].
    cbn [snd]. unfold Invariant.names_ok, set_categories. cbn [categories].
    replace cs with (snd (Store.findOneAndDelete
                            (fun c => (Category._id c =? id)%nat
                                      && Categories.owned_by (User._id caller) c
                                      && negb (Category.isDefault c))
                            (categories db)))
      by (now rewrite F).
    now apply forallb_deleted.
  - unfold Expenses.post.
    destruct (negb _); [exact H|].
    destruct (ExpenseBody.category b); [|exact H].
    destruct (Expenses.categoryExists _ _ _); [|exact H].
    destruct (Expenses.new_expense _ _ _ _ _); exact H.
  - unfold Expenses.put.
    destruct (match ExpenseBody.category b with Some _ => _ | None => _ end);
      [exact H|].
    destruct (Expenses.update_valid b); [|exact H].
    destruct (Store.findOneAndUpdate _ _ _) as [[e|] es]; exact H.
  - unfold Expenses.delete.
    destruct (Store.findOneAndDelete _ _) as [[e|] es]; exact H.
Qed.

Lemma register_names_ok (isEmail : string -> bool) (hash : string -> string)
      (sign : ObjectId -> string) (now : Z) (b : RegisterBody.t) (db : Db) :
  Invariant.names_ok db = true ->
  Invariant.names_ok (snd (Auth.register isEmail hash sign now b db)) = true.
Proof.
  intros H. unfold Auth.register.
  destruct (negb _); [exact H|].
  destruct (Store.findOne _ _); [exact H|].
  destruct (Auth.new_user hash (nextId db) b) as [user|]; [|exact H].
  cbn [snd]. unfold Invariant.names_ok.
  cbn -[forallb JsString.trim String.eqb app].
  rewrite <- !app_assoc, forallb_app. unfold Invariant.names_ok in H. rewrite H.
  vm_compute. reflexivity.
Qed.

(** No stored expense has a negative amount. *)
Lemma handle_amounts_ok (tz : Z) (regex_i : string -> string -> bool)
      (caller : User.t) (now : Z) (r : Request) (db : Db) :
  Invariant.amounts_ok db = true ->
  Invariant.amounts_ok (snd (handle tz regex_i caller now r db)) = true.
Proof.
  intros H. destruct r; cbn [handle snd]; try exact H.
  - unfold Categories.post.
    destruct (negb _); [exact H|].
    destruct (Store.findOne _ _); [exact H|].
    destruct (Schema.required_string _); exact H.
  - unfold Categories.put.
    destruct (Categories.update_valid b); [|exact H].
    destruct (Store.findOneAndUpdate _ _ _) as [[c|] cs]; exact H.
  - unfold Categories.delete.
    destruct (Store.findOneAndDelete _ _) as [[c|] cs]; exact H.
  - unfold Expenses.post.
    destruct (negb _); [exact H|].
    destruct (ExpenseBody.category b) as [cid|]; [|exact H].
    destruct (Expenses.categoryExists _ _ _); [|exact H].
    destruct (Expenses.new_expense _ _ _ _ _) as [e|] eqn:N; [|exact H].
    cbn [snd]. unfold Invariant.amounts_ok, insert_expense. cbn [expenses].
    apply forallb_snoc; [exact H|].
    apply new_expense_fields in N. apply Z.leb_le. tauto.
  - unfold Expenses.put.
    destruct (match ExpenseBody.category b with Some _ => _ | None => _ end);
      [exact H|].
    destruct (Expenses.update_valid b) eqn:V; [|exact H].
    destruct (Store.findOneAndUpdate _ _ _) as [[e|] es] eqn:F; [|exact H].
    cbn [snd]. unfold Invariant.amounts_ok, set_expenses. cbn [expenses].
    replace es with (snd (Store.findOneAndUpdate
                            (fun e => (Expense._id e =? id)%nat
                                      && Expenses.owned_by (User._id caller) e)
                            (Expenses.apply_update now b) (expenses db)))
      by (now rewrite F).
    apply forallb_updated; [|exact H].
    intros x Hx. unfold Expenses.apply_update. cbn [Expense.amount].
    unfold Expenses.update_valid in V. rewrite !andb_true_iff in V.
    destruct V as [[_ V] _].
    destruct (ExpenseBody.amount b) as [|z|]; try exact Hx.
    cbn in V. destruct (0 <=? z); [reflexivity|discriminate].
  - unfold Expenses.delete.
    destruct (Store.findOneAndDelete _ _) as [[e|] es] eqn:F; [|exact H].
    cbn [snd]. unfold Invariant.amounts_ok, set_expenses. cbn [expenses].
    replace es with (snd (Store.findOneAndDelete
                            (fun e => (Expense._id e =? id)%nat
                                      && Expenses.owned_by (User._id caller) e)
                            (expenses db)))
      by (now rewrite F).
    now apply forallb_deleted.
Qed.

Lemma register_amounts_ok (isEmail : string -> bool) (hash : string -> string)
      (sign : ObjectId -> string) (now : Z) (b : RegisterBody.t) (db : Db) :
  Invariant.amounts_ok db = true ->
  Invariant.amounts_ok (snd (Auth.register isEmail hash sign now b db)) = true.
Proof.
  intros H. unfold Auth.register.
  destruct (negb _); [exact H|].
  destruct (Store.findOne _ _); [exact H|].
  destruct (Auth.new_user hash (nextId db) b) as [user|]; exact H.
Qed.

(** Every store the server reaches holds trimmed, non-empty category
    names and no negative amount. *)
Lemma reachable_schema (tz : Z) (regex_i : string -> string -> bool)
      (isEmail : string -> bool) (hash : string -> string)
      (sign : ObjectId -> string) (db : Db) :
  reachable tz regex_i isEmail hash sign db ->
  Invariant.names_ok db = true /\ Invariant.amounts_ok db = true.
Proof.
  induction 1 as [|now b db _ [IH1 IH2]|caller now r db _ [IH1 IH2] Hc].
  - split; reflexivity.
  - split; [now apply register_names_ok|now apply register_amounts_ok].
  - split; [now apply handle_names_ok|now apply handle_amounts_ok].
Qed.

(** ** Default categories stay *)

Lemma findOneAndUpdate_keeps {A} (f : A -> bool) (upd : A -> A) (l : list A) (x : A) :
  In x l ->
  In x (snd (Store.findOneAndUpdate f upd l))
  \/ In (upd x) (snd (Store.findOneAndUpdate f upd l)).
Proof.
  induction l as [|a l IH]; simpl; [tauto|].
  destruct (f a); simpl.
  - intros [<-|H]; [right; now left|left; now right].
  - destruct (Store.findOneAndUpdate f upd l) as [o r]. simpl in IH |- *.
    intros [<-|H]; [left; now left|]. destruct (IH H); [left|right]; now right.
Qed.

(** Whatever a caller asks, a default category is still in the
    collection afterwards, and still a default category. *)
Lemma default_category_survives (tz : Z) (regex_i : string -> string -> bool)
      (caller : User.t) (now : Z) (r : Request) (db : Db) (c : Category.t) :
  In c (categories db) -> Category.isDefault c = true ->
  exists c', In c' (categories (snd (handle tz regex_i caller now r db)))
             /\ Category._id c' = Category._id c
             /\ Category.userId c' = Category.userId c
             /\ Category.isDefault c' = true.
Proof.
  intros Hc Hd.
  assert (Same : forall db', categories db' = categories db ->
                   exists c', In c' (categories db')
                              /\ Category._id c' = Category._id c
                              /\ Category.userId c' = Category.userId c
                              /\ Category.isDefault c' = true).
  { intros db' E. exists c. rewrite E. auto. }
  destruct r; cbn [handle snd]; try (apply Same; reflexivity).
  - unfold Categories.post.
    destruct (negb _); [now apply Same|].
    destruct (Store.findOne _ _); [now apply Same|].
    destruct (Schema.required_string _); [|now apply Same].
    exists c. cbn. rewrite in_app_iff. auto.
  - unfold Categories.put.
    destruct (Categories.update_valid b); [|now apply Same].
    pose proof (findOneAndUpdate_keeps
                  (fun c => (Category._id c =? id)%nat
                            && Categories.owned_by (User._id caller) c)
                  (Categories.apply_update b) (categories db) c Hc) as K.
    destruct (Store.findOneAndUpdate _ _ _) as [[c0|] cs]; [|now apply Same].
    cbn [snd set_categories categories] in K |- *.
    destruct K as [K|K]; [exists c; auto|].
    exists (Categories.apply_update b c). auto.
  - pose proof (delete_keeps_default caller id db c Hc Hd) as K.
    exists c. auto.
  - unfold Expenses.post.
    destruct (negb _); [now apply Same|].
    destruct (ExpenseBody.category b); [|now apply Same].
    destruct (Expenses.categoryExists _ _ _); [|now apply Same].
    destruct (Expenses.new_expense _ _ _ _ _); now apply Same.
  - unfold Expenses.put.
    destruct (match ExpenseBody.category b with Some _ => _ | None => _ end);
      [now apply Same|].
    destruct (Expenses.update_valid b); [|now apply Same].
    destruct (Store.findOneAndUpdate _ _ _) as [[e|] es]; now apply Same.
  - unfold Expenses.delete.
    destruct (Store.findOneAndDelete _ _) as [[e|] es]; now apply Same.
Qed.

(** ** The first of the month *)

(** [new Date(now.getFullYear(), now.getMonth(), 1)] is the local
    midnight that opens the month of [now]: [now] less the days of the
    month already over and the time of day.  (Years 0 to 99, which
    [new Date] reads as 1900 to 1999, are left out.) *)
Lemma startOfMonth_first (tz now : Z) :
  ~ 0 <= JsDate.getFullYear tz now <= 99 ->
  Reports.startOfMonth tz now
  = now - ((JsDate.getDate tz now - 1) * JsDate.msPerDay
           + JsDate.localTime tz now mod JsDate.msPerDay)
  /\ 1 <= JsDate.getDate tz now <= 31
  /\ Reports.startOfMonth tz now <= now.
Proof.
  unfold Reports.startOfMonth, JsDate.Date_of, JsDate.getFullYear, JsDate.getMonth,
    JsDate.getDate.
  pose proof (civil_roundtrip (JsDate.localTime tz now / JsDate.msPerDay) 1) as R.
  destruct (JsDate.civil_from_days (JsDate.localTime tz now / JsDate.msPerDay))
    as [[y m] d].
  destruct R as (R & _ & Hd). intros Hy.
  replace ((0 <=? y) && (y <=? 99)) with false
    by (symmetry; apply andb_false_iff; rewrite Z.leb_gt, Z.leb_gt; lia).
  replace (m - 1 + 1) with m by lia. rewrite R.
  pose proof (Z.div_mod (JsDate.localTime tz now) JsDate.msPerDay) as D.
  pose proof (Z.mod_pos_bound (JsDate.localTime tz now) JsDate.msPerDay) as B.
  unfold JsDate.localTime, JsDate.msPerDay in *. lia.
Qed.

(** The first day of the month of a day is a day of the same year and
    month. *)
Lemma first_of_month (z : Z) :
  let '(y, m, d) := JsDate.civil_from_days z in
  JsDate.civil_from_days (z - d + 1) = (y, m, 1).
Proof.
  pose proof (civil_year_bounds z) as Y.
  pose proof (fun d' => civil_roundtrip z d') as R.
  pose proof (month_next z) as Nx.
  destruct (JsDate.civil_from_days z) as [[y m] d] eqn:C.
  cbv zeta in Y. destruct (R 1) as (R1 & Hm & Hd).
  pose proof (civil_roundtrip (z - d + 1) 1) as R'.
  pose proof (civil_year_bounds (z - d + 1)) as Y'.
  pose proof (month_next (z - d + 1)) as Nx'.
  destruct (JsDate.civil_from_days (z - d + 1)) as [[y' m'] d'] eqn:C'.
  cbv zeta in Y'. destruct R' as (R' & Hm' & Hd').
  assert (Ey : y' = y).
  { destruct (Z.lt_trichotomy y' y) as [Lt|[Eq|Gt]]; [|exact Eq|].
    - pose proof (jan1_mono (y' + 1) y ltac:(lia)).
      pose proof (month_start_mono y 1 m ltac:(lia) ltac:(lia) ltac:(lia)) as Mm.
      rewrite days_from_civil_jan1, R1 in Mm. lia.
    - pose proof (jan1_mono (y + 1) y' ltac:(lia)). lia. }
  subst y'.
  assert (Em : m' = m).
  { destruct (Z.lt_trichotomy m' m) as [Lt|[Eq|Gt]]; [|exact Eq|].
    - specialize (Nx' ltac:(lia)).
      pose proof (month_start_mono y (m' + 1) m ltac:(lia) ltac:(lia) ltac:(lia)) as Mm.
      rewrite R1 in Mm. lia.
    - pose proof (month_start_mono y (m + 1) m' ltac:(lia) ltac:(lia) ltac:(lia)) as Mm.
      rewrite R' in Mm. specialize (Nx ltac:(lia)). lia. }
  subst m'. rewrite R1 in R'. f_equal. lia.
Qed.

(** [now] less the days of its month already over and its time of day
    is the local midnight that opens the month of [now]. *)
Lemma month_opening (tz now : Z) :
  let first := now - ((JsDate.getDate tz now - 1) * JsDate.msPerDay
                      + JsDate.localTime tz now mod JsDate.msPerDay) in
  first <= now
  /\ JsDate.getFullYear tz first = JsDate.getFullYear tz now
  /\ JsDate.getMonth tz first = JsDate.getMonth tz now
  /\ JsDate.getDate tz first = 1
  /\ JsDate.localTime tz first mod JsDate.msPerDay = 0.
Proof.
  intros first.
  pose proof (first_of_month (JsDate.localTime tz now / JsDate.msPerDay)) as F.
  pose proof (civil_roundtrip (JsDate.localTime tz now / JsDate.msPerDay) 1) as R.
  assert (L : JsDate.localTime tz first
              = (JsDate.localTime tz now / JsDate.msPerDay
                 - JsDate.getDate tz now + 1) * JsDate.msPerDay).
  { unfold first, JsDate.localTime.
    pose proof (Z.div_mod (now + tz * JsDate.msPerMinute) JsDate.msPerDay
                  ltac:(unfold JsDate.msPerDay; lia)) as D.
    lia. }
  assert (B : 0 <= JsDate.localTime tz now mod JsDate.msPerDay)
    by (apply Z.mod_pos_bound; unfold JsDate.msPerDay; lia).
  unfold JsDate.getFullYear, JsDate.getMonth, JsDate.getDate in *.
  rewrite L, Z.div_mul by (unfold JsDate.msPerDay; lia).
  destruct (JsDate.civil_from_days (JsDate.localTime tz now / JsDate.msPerDay))
    as [[y m] d].
  rewrite F. destruct R as (_ & _ & Hd).
  repeat split; try reflexivity.
  - unfold first. unfold JsDate.msPerDay in *. lia.
  - apply Z.mod_mul. unfold JsDate.msPerDay. lia.
Qed.



(** ** Worked dates and strings *)

Example civil_epoch : JsDate.civil_from_days 0 = (1970, 1, 1).
Proof. reflexivity. Qed.

Example civil_leap_day : JsDate.civil_from_days 11016 = (2000, 2, 29).
Proof. vm_compute. reflexivity. Qed.

Example civil_before_epoch : JsDate.civil_from_days (-1) = (1969, 12, 31).
Proof. vm_compute. reflexivity. Qed.

Example days_of_2024 : JsDate.days_from_civil 2024 1 1 = 19723.
Proof. vm_compute. reflexivity. Qed.

Example dateToString_now : JsDate.dateToString Sample.now = Some "2024-06-10".
Proof. vm_compute. reflexivity. Qed.

Example Date_of_utc : JsDate.Date_of 0 2024 0 1 = 1704067200000.
Proof. vm_compute. reflexivity. Qed.

Example Date_of_east : JsDate.Date_of 330 2024 0 1 = 1704067200000 - 19800000.
Proof. vm_compute. reflexivity. Qed.

Example Date_of_two_digit_year :
  JsDate.Date_of 0 99 0 1 = JsDate.Date_of 0 1999 0 1.
Proof. vm_compute. reflexivity. Qed.

Example startOfMonth_now :
  Reports.startOfMonth Sample.tz Sample.now = 1717180200000.
Proof. vm_compute. reflexivity. Qed.

Example trim_spaces : JsString.trim "  Food & Dining " = "Food & Dining".
Proof. reflexivity. Qed.

Example trim_blank : JsString.trim "   " = "".
Proof. reflexivity. Qed.

Example lower_case : JsString.toLowerCase "Alice@Example.COM" = "alice@example.com".
Proof. reflexivity. Qed.

(** A name of blanks passes [notEmpty] and fails the schema's
    [required]: the handler answers 500 and stores nothing. *)
Example category_create_blank_name :
  Categories.post Sample.alice Sample.now
    (CategoryBody.mk (Some "   ") None None None) Sample.two_users
  = (fail 500 "Server error", Sample.two_users).
Proof. reflexivity. Qed.

(** A text that is no number is refused by the rule of the create route
    and, on the update route, by the schema's cast. *)
Example expense_create_not_numeric :
  Expenses.post Sample.alice Sample.now
    (ExpenseBody.mk (Some "Lunch") AmountNaN None (Some 1%nat) None None None)
    Sample.two_users
  = (mkResponse 400 false (Errors ["Amount must be a number"]), Sample.two_users).
Proof. reflexivity. Qed.

Example expense_update_not_numeric :
  Expenses.put Sample.alice Sample.now 18
    (ExpenseBody.mk None AmountNaN None None None None None) Sample.june
  = (fail 500 "Server error", Sample.june).
Proof. reflexivity. Qed.

(* ================================================================== *)
(** * The other routes, the middleware and the helpers *)

(** ** The store under every route *)

Lemma insert_expense_wf (db : Db) (e : Expense.t) (c : Category.t) :
  Invariant.wf db = true -> Expense._id e = nextId db ->
  In c (categories db) -> Category._id c = Expense.category e ->
  Category.userId c = Expense.userId e ->
  Invariant.wf (insert_expense db e) = true.
Proof.
  intros Hwf Hid Hc Hcat Ho. apply wf_spec in Hwf. apply wf_spec.
  destruct Hwf as (U & C & E & BU & BC & BO & BE & BX & SO).
  unfold insert_expense. cbn [users categories expenses nextId].
  rewrite !map_app. cbn [map]. rewrite Hid.
  repeat split; auto.
  - now apply NoDup_fresh.
  - intros x Hx. specialize (BU x Hx). lia.
  - intros x Hx. specialize (BC x Hx). lia.
  - intros x Hx. specialize (BO x Hx). lia.
  - intros x Hx. apply in_app_iff in Hx. destruct Hx as [Hx|[<-|[]]]; [|lia].
    specialize (BE x Hx). lia.
  - intros x Hx. apply in_app_iff in Hx. destruct Hx as [Hx|[<-|[]]].
    + specialize (BX x Hx). lia.
    + assert (Expense.category e < nextId db)%nat; [|lia].
      apply BC. rewrite <- Hcat. now apply in_map.
  - intros e' c' He' Hc' Eq. apply in_app_iff in He'. destruct He' as [He'|[<-|[]]].
    + now apply SO.
    + rewrite <- Ho. f_equal.
      apply (NoDup_map_unique Category._id (categories db)); auto. congruence.
Qed.

Lemma updateProfile_store (caller : User.t) (b : ProfileBody.t) (db : Db) :
  let db' := snd (Session.updateProfile caller b db) in
  categories db' = categories db /\ expenses db' = expenses db
  /\ nextId db' = nextId db
  /\ (users db' = users db
      \/ (Session.update_valid b = true
          /\ users db' = snd (Store.findOneAndUpdate
                                (fun u => (User._id u =? User._id caller)%nat)
                                (Session.apply_update b) (users db)))).
Proof.
  unfold Session.updateProfile.
  destruct (negb _); [cbn; auto|].
  destruct (Session.update_valid b); [|cbn; auto].
  destruct (Store.findOneAndUpdate _ _ _) as [[u|] us] eqn:F; cbn; auto 6.
Qed.

Lemma updateProfile_wf (caller : User.t) (b : ProfileBody.t) (db : Db) :
  Invariant.wf db = true ->
  Invariant.wf (snd (Session.updateProfile caller b db)) = true.
Proof.
  intros Hwf. destruct (updateProfile_store caller b db) as (C & E & N & U).
  apply wf_spec in Hwf. apply wf_spec. rewrite C, E, N.
  assert (M : map User._id (users (snd (Session.updateProfile caller b db)))
              = map User._id (users db)).
  { destruct U as [-> | [_ ->]]; [reflexivity|]. now apply findOneAndUpdate_map. }
  rewrite M. exact Hwf.
Qed.

Lemma clearData_wf (caller : User.t) (db : Db) :
  Invariant.wf db = true ->
  Invariant.wf (snd (TestRoutes.clearData caller db)) = true.
Proof.
  intros Hwf. apply wf_spec in Hwf. apply wf_spec.
  destruct Hwf as (U & C & E & BU & BC & BO & BE & BX & SO).
  cbn [TestRoutes.clearData snd users categories expenses nextId].
  assert (Sub : forall {A B} (g : A -> B) (p : A -> bool) (l : list A) x,
             In x (map g (filter p l)) -> In x (map g l)).
  { intros A B g p l x Hx. apply in_map_iff in Hx. destruct Hx as (y & <- & Hy).
    apply filter_In in Hy. apply in_map. tauto. }
  assert (ND : forall {A} (g : A -> ObjectId) (p : A -> bool) (l : list A),
             NoDup (map g l) -> NoDup (map g (filter p l))).
  { intros A g p l. induction l as [|a l IH]; simpl; intros H; [constructor|].
    inversion H as [|? ? Hn Hl]; subst.
    destruct (p a); simpl; [constructor|]; auto.
    intros Hin. apply Hn. eapply Sub. exact Hin. }
  repeat split; auto.
  - intros x Hx. apply BC. eapply Sub. exact Hx.
  - intros x Hx. apply BO. eapply Sub. exact Hx.
  - intros x Hx. apply BE. eapply Sub. exact Hx.
  - intros x Hx. apply BX. eapply Sub. exact Hx.
  - intros e c He Hc. apply filter_In in He. apply filter_In in Hc.
    apply SO; tauto.
Qed.

Lemma category_for_owned (cs : list Category.t) (name : string) (k : nat)
      (cid : ObjectId) :
  TestRoutes.category_for cs name k = Some cid ->
  exists c, In c cs /\ Category._id c = cid.
Proof.
  unfold TestRoutes.category_for.
  destruct (find _ cs) as [c|] eqn:F.
  - intros H. inversion H; subst. exists c. split; [|reflexivity].
    now apply find_some in F.
  - destruct (nth_error cs k) as [c|] eqn:N; [|discriminate].
    intros H. inversion H; subst. exists c. split; [|reflexivity].
    eapply nth_error_In. exact N.
Qed.

Lemma all_some_In {A} (l : list (option A)) (r : list A) :
  TestRoutes.all_some l = Some r -> forall x, In x r -> In (Some x) l.
Proof.
  revert r. induction l as [|[a|] l IH]; simpl; intros r H x Hx.
  - inversion H; subst. destruct Hx.
  - destruct (TestRoutes.all_some l) as [r'|]; [|discriminate].
    inversion H; subst. destruct Hx as [<-|Hx]; [now left|right; eauto].
  - discriminate.
Qed.

Lemma insertMany_expenses (user : User.t) (now : Z) (docs : list ExpenseBody.t)
      (db db' : Db) :
  TestRoutes.insertMany user now docs db = Some db' ->
  exists new,
    db' = mkDb (users db) (categories db) (expenses db ++ new)
            (nextId db + List.length docs)%nat
    /\ Forall2 (fun b e =>
                  exists cid, ExpenseBody.category b = Some cid
                    /\ Expenses.create user now (Expense._id e) cid
                         (Expenses.default (ExpenseBody.date b) now) b = Some e)
         docs new
    /\ map Expense._id new = seq (nextId db) (List.length docs).
Proof.
  revert db. induction docs as [|b docs IH]; intros db; cbn [TestRoutes.insertMany].
  - intros H. inversion H; subst. exists []. rewrite app_nil_r, Nat.add_0_r.
    split; [now destruct db'|]. split; constructor.
  - destruct (ExpenseBody.category b) as [cid|] eqn:C; [|discriminate].
    destruct (Expenses.create user now (nextId db) cid _ b) as [e|] eqn:N;
      [|discriminate].
    intros H. destruct (IH _ H) as (new & -> & F & Ids).
    pose proof (create_fields _ _ _ _ _ _ _ N) as (Hid & _).
    exists (e :: new). cbn [insert_expense users categories expenses nextId] in *.
    split; [|split].
    + rewrite <- app_assoc. cbn [List.length]. f_equal. lia.
    + constructor; [|exact F]. exists cid. rewrite Hid. auto.
    + cbn [map List.length seq]. rewrite Hid, Ids. reflexivity.
Qed.

Lemma insertMany_expenses_wf (user : User.t) (now : Z) (docs : list ExpenseBody.t)
      (db db' : Db) :
  TestRoutes.insertMany user now docs db = Some db' ->
  (forall b cid, In b docs -> ExpenseBody.category b = Some cid ->
                 exists c, In c (categories db) /\ Category._id c = cid
                           /\ Category.userId c = User._id user) ->
  Invariant.wf db = true -> Invariant.wf db' = true.
Proof.
  revert db. induction docs as [|b docs IH]; intros db; cbn [TestRoutes.insertMany].
  - intros H _ Hwf. now inversion H; subst.
  - destruct (ExpenseBody.category b) as [cid|] eqn:C; [|discriminate].
    destruct (Expenses.create user now (nextId db) cid _ b) as [e|] eqn:N;
      [|discriminate].
    intros H Hc Hwf. apply (IH _ H).
    + intros b' cid' Hb' C'. apply (Hc b' cid'); [now right|assumption].
    + destruct (Hc b cid (or_introl eq_refl) C) as (c & Hin & Hid & Ho).
      pose proof (create_fields _ _ _ _ _ _ _ N) as (Ei & Ec & Eu & _).
      apply (insert_expense_wf db e c); congruence.
Qed.

Lemma Forall2_In_r {A B} (R : A -> B -> Prop) (l : list A) (l' : list B) :
  Forall2 R l l' -> forall y, In y l' -> exists x, In x l /\ R x y.
Proof.
  induction 1 as [|x y l l' Hxy _ IH]; intros z Hz; [destruct Hz|].
  destruct Hz as [<-|Hz]; [exists x; split; [now left|assumption]|].
  destruct (IH z Hz) as (x' & Hx' & Hr). exists x'. split; [now right|assumption].
Qed.
(** What a request of a caller does to the collections. *)
Lemma handle_users (tz : Z) (regex_i : string -> string -> bool)
      (caller : User.t) (now : Z) (r : Request) (db : Db) :
  users (snd (handle tz regex_i caller now r db)) = users db.
Proof.
  destruct r; cbn [handle snd]; try reflexivity.
  - unfold Categories.post.
    destruct (negb _); [reflexivity|].
    destruct (Store.findOne _ _); [reflexivity|].
    destruct (Schema.required_string _); reflexivity.
  - unfold Categories.put.
    destruct (Categories.update_valid b); [|reflexivity].
    destruct (Store.findOneAndUpdate _ _ _) as [[c|] cs]; reflexivity.
  - unfold Categories.delete.
    destruct (Store.findOneAndDelete _ _) as [[c|] cs]; reflexivity.
  - unfold Expenses.post.
    destruct (negb _); [reflexivity|].
    destruct (ExpenseBody.category b); [|reflexivity].
    destruct (Expenses.categoryExists _ _ _); [|reflexivity].
    destruct (Expenses.new_expense _ _ _ _ _); reflexivity.
  - unfold Expenses.put.
    destruct (match ExpenseBody.category b with Some _ => _ | None => _ end);
      [reflexivity|].
    destruct (Expenses.update_valid b); [|reflexivity].
    destruct (Store.findOneAndUpdate _ _ _) as [[e|] es]; reflexivity.
  - unfold Expenses.delete.
    destruct (Store.findOneAndDelete _ _) as [[e|] es]; reflexivity.
Qed.

(** The seeding route writes nothing, or appends five expenses of the
    caller, each in a category of the caller. *)
Lemma seedData_effect (caller : User.t) (now : Z) (db : Db) :
  (snd (TestRoutes.seedData caller now db) = db
   /\ Reply.status (fst (TestRoutes.seedData caller now db)) <> 200)
  \/ exists docs new,
       TestRoutes.all_some
         (map (TestRoutes.body_of
                 (filter (Categories.owned_by (User._id caller)) (categories db)) now)
            TestRoutes.sampleExpenses) = Some docs
       /\ TestRoutes.insertMany caller now docs db
          = Some (snd (TestRoutes.seedData caller now db))
       /\ fst (TestRoutes.seedData caller now db)
          = Reply.mk 200 true (TestRoutes.Seeded "Sample data created successfully" 5)
       /\ snd (TestRoutes.seedData caller now db)
          = mkDb (users db) (categories db) (expenses db ++ new) (nextId db + 5)%nat
       /\ Forall2 (fun b e =>
                     exists cid, ExpenseBody.category b = Some cid
                       /\ Expenses.create caller now (Expense._id e) cid
                            (Expenses.default (ExpenseBody.date b) now) b = Some e)
            docs new
       /\ map Expense._id new = seq (nextId db) 5.
Proof.
  unfold TestRoutes.seedData.
  destruct (List.length _ =? 0)%nat; [left; split; [reflexivity|discriminate]|].
  destruct (TestRoutes.all_some _) as [docs|] eqn:A;
    [|left; split; [reflexivity|discriminate]].
  destruct (TestRoutes.insertMany caller now docs db) as [db'|] eqn:I;
    [|left; split; [reflexivity|discriminate]].
  right. destruct (insertMany_expenses _ _ _ _ _ I) as (new & E & F & Ids).
  assert (L : List.length docs = 5%nat).
  { clear - A. cbn [map TestRoutes.sampleExpenses TestRoutes.all_some] in A.
    repeat match type of A with
           | context [TestRoutes.body_of ?c ?n ?s] =>
               destruct (TestRoutes.body_of c n s); [|discriminate]
           end.
    cbn in A. inversion A. reflexivity. }
  rewrite L in E, Ids.
  exists docs, new. cbn [fst snd]. repeat split; auto.
Qed.

Lemma seed_docs_owned (caller : User.t) (now : Z) (db : Db) (docs : list ExpenseBody.t) :
  TestRoutes.all_some
    (map (TestRoutes.body_of
            (filter (Categories.owned_by (User._id caller)) (categories db)) now)
       TestRoutes.sampleExpenses) = Some docs ->
  forall b cid, In b docs -> ExpenseBody.category b = Some cid ->
    exists c, In c (categories db) /\ Category._id c = cid
              /\ Category.userId c = User._id caller.
Proof.
  intros A b cid Hb C. apply (all_some_In _ _ A) in Hb.
  apply in_map_iff in Hb. destruct Hb as (s & Hs & _).
  unfold TestRoutes.body_of in Hs.
  destruct (TestRoutes.category_for _ _ _) as [k|] eqn:K; [|discriminate].
  cbn in Hs. inversion Hs; subst b. cbn in C. inversion C; subst k.
  destruct (category_for_owned _ _ _ _ K) as (c & Hc & Hid).
  apply filter_In in Hc. destruct Hc as [Hc Ho].
  exists c. repeat split; auto. now apply Nat.eqb_eq in Ho.
Qed.

Lemma seedData_wf (caller : User.t) (now : Z) (db : Db) :
  Invariant.wf db = true ->
  Invariant.wf (snd (TestRoutes.seedData caller now db)) = true.
Proof.
  intros Hwf.
  destruct (seedData_effect caller now db) as [[-> _]|(docs & new & A & I & _)];
    [exact Hwf|].
  apply (insertMany_expenses_wf _ _ _ _ _ I); [|exact Hwf].
  now apply seed_docs_owned with (now := now).
Qed.

Section Steps.
Variable tz : Z.
Variable regex_i : string -> string -> bool.
Variable isEmail : string -> bool.
Variable hash : string -> string.
Variable sign : ObjectId -> string.

Lemma step_wf (db db' : Db) :
  step tz regex_i isEmail hash sign db db' ->
  Invariant.wf db = true -> Invariant.wf db' = true.
Proof.
  intros S Hwf. destruct S.
  - now apply register_wf.
  - apply handle_wf; [assumption|]. now apply user_id_below.
  - now apply updateProfile_wf.
  - now apply seedData_wf.
  - now apply clearData_wf.
Qed.

Lemma later_wf (db db' : Db) :
  later tz regex_i isEmail hash sign db db' ->
  Invariant.wf db = true -> Invariant.wf db' = true.
Proof.
  induction 1 as [|db' db'' _ IH S]; intros Hwf; [assumption|].
  eapply step_wf; eauto.
Qed.

Lemma served_wf (db : Db) :
  served tz regex_i isEmail hash sign db -> Invariant.wf db = true.
Proof. intros H. now apply (later_wf _ _ H). Qed.
End Steps.
Lemma insertMany_categories (docs : list (ObjectId -> Category.t)) (db : Db) :
  exists new,
    Auth.insertMany docs db
    = mkDb (users db) (categories db ++ new) (expenses db)
        (nextId db + List.length docs)%nat
    /\ Forall2 (fun doc c => exists id, c = doc id) docs new.
Proof.
  unfold Auth.insertMany. revert db.
  induction docs as [|doc docs IH]; intros db; cbn [fold_left List.length].
  - exists []. rewrite app_nil_r, Nat.add_0_r. split; [now destruct db|constructor].
  - destruct (IH (insert_category db (doc (nextId db)))) as (new & -> & F).
    exists (doc (nextId db) :: new).
    cbn [insert_category users categories expenses nextId].
    rewrite <- app_assoc. split; [cbn [app]; f_equal; lia|].
    constructor; [eexists; reflexivity|exact F].
Qed.

(** A registration writes nothing, or appends the user and the eight
    default categories. *)
Lemma register_effect (isEmail : string -> bool) (hash : string -> string)
      (sign : ObjectId -> string) (now : Z) (b : RegisterBody.t) (db : Db) :
  (snd (Auth.register isEmail hash sign now b db) = db
   /\ status (fst (Auth.register isEmail hash sign now b db)) <> 201)
  \/ exists user seeded,
       Auth.new_user hash (nextId db) b = Some user
       /\ (forall u, In u (users db) ->
             User.email u <> User.email user /\ User.username u <> User.username user)
       /\ fst (Auth.register isEmail hash sign now b db)
          = created (Registered "User registered successfully"
                       (sign (User._id user)) (Auth.view user))
       /\ snd (Auth.register isEmail hash sign now b db)
          = mkDb (users db ++ [user]) (categories db ++ seeded) (expenses db)
              (nextId db + 9)%nat
       /\ List.length seeded = 8%nat
       /\ Forall (fun c => Category.userId c = User._id user
                           /\ Category.isDefault c = true
                           /\ Kept.valid_category c = true) seeded.
Proof.
  unfold Auth.register.
  destruct (negb _); [left; split; [reflexivity|discriminate]|].
  destruct (Store.findOne _ _) eqn:F; [left; split; [reflexivity|discriminate]|].
  destruct (Auth.new_user hash (nextId db) b) as [user|] eqn:N;
    [|left; split; [reflexivity|discriminate]].
  right. cbn [fst snd].
  match goal with
  | |- context [Auth.insertMany ?d ?x] =>
      destruct (insertMany_categories d x) as (seeded & E & F2); rewrite E
  end.
  exists user, seeded. split; [reflexivity|].
  split; [|split; [reflexivity|split; [|split]]].
  - intros u Hu. rewrite findOne_none in F. specialize (F u Hu).
    apply orb_false_iff in F. destruct F as [F1 F2'].
    apply String.eqb_neq in F1. apply String.eqb_neq in F2'.
    unfold Auth.new_user in N. destruct (_ && _)%bool; [|discriminate].
    inversion N; subst user. cbn [User.email User.username]. auto.
  - cbn [insert_user users categories expenses nextId].
    rewrite length_map. cbn [Auth.defaultCategories List.length]. f_equal. lia.
  - apply Forall2_length in F2. rewrite length_map in F2. rewrite <- F2. reflexivity.
  - apply Forall_forall. intros c Hc.
    destruct (Forall2_In_r _ _ _ F2 c Hc) as (doc & Hdoc & (id & ->)).
    apply in_map_iff in Hdoc. destruct Hdoc as (s & <- & Hs).
    cbn [Category.userId Category.isDefault]. split; [reflexivity|].
    split; [reflexivity|]. unfold Kept.valid_category. cbn [Category.name].
    assert (V : forallb (fun s => (JsString.trim (Auth.name s) =? Auth.name s)%string
                                  && negb (Auth.name s =? "")%string)
                  Auth.defaultCategories = true) by (vm_compute; reflexivity).
    rewrite forallb_forall in V. now apply V.
Qed.

Lemma forallb_app_In {A} (p : A -> bool) (l : list A) :
  forallb p l = true <-> forall x, In x l -> p x = true.
Proof. apply forallb_forall. Qed.

Lemma new_user_valid (hash : string -> string) (id : ObjectId) (b : RegisterBody.t)
      (u : User.t) :
  Auth.new_user hash id b = Some u -> Kept.valid_user u = true.
Proof.
  unfold Auth.new_user. destruct (_ && _)%bool eqn:V; [|discriminate].
  intros H. inversion H; subst u. clear H. unfold Kept.valid_user.
  cbn [User.username User.email User.password User.fullName].
  rewrite !andb_true_iff in V. destruct V as ((((V1 & V2) & V3) & V4) & V5).
  rewrite !trim_idem, !String.eqb_refl, V1, V2, V3, V4, V5. reflexivity.
Qed.

Lemma create_valid (user : User.t) (now : Z) (id category : ObjectId) (date : Z)
      (b : ExpenseBody.t) (e : Expense.t) :
  Expenses.create user now id category date b = Some e ->
  Kept.valid_expense e = true.
Proof.
  unfold Expenses.create, Schema.required_string.
  destruct (negb _) eqn:T; [|discriminate].
  destruct (Schema.amount_valid (ExpenseBody.amount b)) as [a|] eqn:V; [|discriminate].
  destruct (Schema.paymentMethod_valid _) as [p|] eqn:P; [|discriminate].
  intros H. inversion H; subst e. clear H. unfold Kept.valid_expense.
  cbn [Expense.title Expense.amount Expense.paymentMethod].
  rewrite trim_idem, String.eqb_refl, T. cbn [andb].
  assert (A0 : (0 <=? a) = true).
  { unfold Schema.amount_valid in V. destruct (ExpenseBody.amount b); try discriminate.
    destruct (0 <=? z) eqn:Z0; inversion V; subst; assumption. }
  rewrite A0. cbn [andb].
  unfold Schema.paymentMethod_valid in P.
  destruct (ExpenseBody.paymentMethod b) as [s|].
  - destruct (existsb _ _) eqn:X; inversion P; subst. exact X.
  - inversion P. reflexivity.
Qed.

Lemma new_expense_valid (user : User.t) (now : Z) (id category : ObjectId)
      (b : ExpenseBody.t) (e : Expense.t) :
  Expenses.new_expense user now id category b = Some e ->
  Kept.valid_expense e = true.
Proof. apply create_valid. Qed.

Lemma expense_update_valid (now : Z) (b : ExpenseBody.t) (e : Expense.t) :
  Expenses.update_valid b = true -> Kept.valid_expense e = true ->
  Kept.valid_expense (Expenses.apply_update now b e) = true.
Proof.
  unfold Expenses.update_valid, Kept.valid_expense, Expenses.apply_update.
  cbn [Expense.title Expense.amount Expense.paymentMethod Expenses.default].
  rewrite !andb_true_iff.
  intros ((V1 & V2) & V3) (((E1 & E2) & E3) & E4).
  repeat split.
  - destruct (ExpenseBody.title b) as [s|]; [|exact E1].
    rewrite trim_idem. apply String.eqb_refl.
  - destruct (ExpenseBody.title b) as [s|]; [exact V1|exact E2].
  - destruct (ExpenseBody.amount b) as [|z|]; try exact E3.
    cbn in V2. destruct (0 <=? z); [reflexivity|discriminate].
  - destruct (ExpenseBody.paymentMethod b) as [s|]; [exact V3|exact E4].
Qed.

Lemma profile_update_valid (b : ProfileBody.t) (u : User.t) :
  Session.update_valid b = true -> Kept.valid_user u = true ->
  Kept.valid_user (Session.apply_update b u) = true.
Proof.
  unfold Session.update_valid, Kept.valid_user, Session.apply_update.
  cbn [User.username User.email User.password User.fullName].
  rewrite !andb_true_iff.
  intros (V1 & _) ((((((U1 & U2) & U3) & U4) & U5) & U6) & U7).
  repeat split; auto.
  - destruct (Session.updated_fullName b) as [s|]; [|exact U6].
    rewrite trim_idem. apply String.eqb_refl.
  - destruct (Session.updated_fullName b) as [s|]; [exact V1|exact U7].
Qed.

Lemma category_update_valid (b : CategoryBody.t) (c : Category.t) :
  Categories.update_valid b = true -> Kept.valid_category c = true ->
  Kept.valid_category (Categories.apply_update b c) = true.
Proof.
  unfold Categories.update_valid, Kept.valid_category, Categories.apply_update.
  cbn [Category.name]. intros V H. destruct (CategoryBody.name b) as [s|]; [|exact H].
  now apply trimmed_name_ok.
Qed.

Lemma forallb_filter {A} (p f : A -> bool) (l : list A) :
  forallb p l = true -> forallb p (filter f l) = true.
Proof.
  rewrite !forallb_forall. intros H x Hx. apply filter_In in Hx. apply H. tauto.
Qed.

Lemma handle_schema (tz : Z) (regex_i : string -> string -> bool)
      (caller : User.t) (now : Z) (r : Request) (db : Db) :
  Kept.schema_ok db = true ->
  Kept.schema_ok (snd (handle tz regex_i caller now r db)) = true.
Proof.
  unfold Kept.schema_ok. rewrite !andb_true_iff. intros ((HU & HC) & HE).
  rewrite handle_users.
  destruct r; cbn [handle snd]; try (repeat split; assumption).
  - unfold Categories.post.
    destruct (negb _); [repeat split; assumption|].
    destruct (Store.findOne _ _); [repeat split; assumption|].
    destruct (Schema.required_string _) eqn:V; [|repeat split; assumption].
    cbn [snd insert_category categories expenses]. repeat split; try assumption.
    apply forallb_snoc; [assumption|].
    unfold Kept.valid_category. cbn [Category.name].
    unfold Schema.required_string in V. rewrite trim_idem in V.
    now rewrite trim_idem, String.eqb_refl.
  - unfold Categories.put.
    destruct (Categories.update_valid b) eqn:V; [|repeat split; assumption].
    destruct (Store.findOneAndUpdate _ _ _) as [[c|] cs] eqn:F;
      [|repeat split; assumption].
    cbn [snd set_categories categories expenses]. repeat split; try assumption.
    replace cs with (snd (Store.findOneAndUpdate
                            (fun c => (Category._id c =? id)%nat
                                      && Categories.owned_by (User._id caller) c)
                            (Categories.apply_update b) (categories db)))
      by (now rewrite F).
    apply forallb_updated; [|assumption].
    intros x. now apply category_update_valid.
  - unfold Categories.delete.
    destruct (Store.findOneAndDelete _ _) as [[c|] cs] eqn:F;
      [|repeat split; assumption].
    cbn [snd set_categories categories expenses]. repeat split; try assumption.
    replace cs with (snd (Store.findOneAndDelete
                            (fun c => (Category._id c =? id)%nat
                                      && Categories.owned_by (User._id caller) c
                                      && negb (Category.isDefault c))
                            (categories db)))
      by (now rewrite F).
    now apply forallb_deleted.
  - unfold Expenses.post.
    destruct (negb _); [repeat split; assumption|].
    destruct (ExpenseBody.category b) as [cid|]; [|repeat split; assumption].
    destruct (Expenses.categoryExists _ _ _); [|repeat split; assumption].
    destruct (Expenses.new_expense _ _ _ _ _) as [e|] eqn:N;
      [|repeat split; assumption].
    cbn [snd insert_expense categories expenses]. repeat split; try assumption.
    apply forallb_snoc; [assumption|]. now apply new_expense_valid in N.
  - unfold Expenses.put.
    destruct (match ExpenseBody.category b with Some _ => _ | None => _ end);
      [repeat split; assumption|].
    destruct (Expenses.update_valid b) eqn:V; [|repeat split; assumption].
    destruct (Store.findOneAndUpdate _ _ _) as [[e|] es] eqn:F;
      [|repeat split; assumption].
    cbn [snd set_expenses categories expenses]. repeat split; try assumption.
    replace es with (snd (Store.findOneAndUpdate
                            (fun e => (Expense._id e =? id)%nat
                                      && Expenses.owned_by (User._id caller) e)
                            (Expenses.apply_update now b) (expenses db)))
      by (now rewrite F).
    apply forallb_updated; [|assumption].
    intros x. now apply expense_update_valid.
  - unfold Expenses.delete.
    destruct (Store.findOneAndDelete _ _) as [[e|] es] eqn:F;
      [|repeat split; assumption].
    cbn [snd set_expenses categories expenses]. repeat split; try assumption.
    replace es with (snd (Store.findOneAndDelete
                            (fun e => (Expense._id e =? id)%nat
                                      && Expenses.owned_by (User._id caller) e)
                            (expenses db)))
      by (now rewrite F).
    now apply forallb_deleted.
Qed.

Section StepsSchema.
Variable tz : Z.
Variable regex_i : string -> string -> bool.
Variable isEmail : string -> bool.
Variable hash : string -> string.
Variable sign : ObjectId -> string.

Lemma step_schema (db db' : Db) :
  step tz regex_i isEmail hash sign db db' ->
  Kept.schema_ok db = true -> Kept.schema_ok db' = true.
Proof.
  intros S H. destruct S as [now b|caller now r Hc|caller b Hc|caller now Hc|caller Hc].
  - destruct (register_effect isEmail hash sign now b db)
      as [[-> _]|(user & seeded & N & _ & _ & -> & _ & Hs)]; [exact H|].
    unfold Kept.schema_ok in *. cbn [users categories expenses].
    rewrite !andb_true_iff in *. destruct H as ((HU & HC) & HE).
    rewrite !forallb_app, HU, HC. cbn [forallb].
    rewrite (new_user_valid _ _ _ _ N). repeat split; try assumption.
    apply forallb_forall. rewrite Forall_forall in Hs. intros c Hc'.
    now apply Hs.
  - now apply handle_schema.
  - destruct (updateProfile_store caller b db) as (C & E & _ & U).
    unfold Kept.schema_ok in *. rewrite C, E.
    rewrite !andb_true_iff in *. destruct H as ((HU & HC) & HE).
    repeat split; try assumption.
    destruct U as [-> | U]; [assumption|].
    destruct U as [V ->].
    apply forallb_updated; [|assumption]. intros x. now apply profile_update_valid.
  - destruct (seedData_effect caller now db)
      as [[-> _]|(docs & new & _ & _ & _ & -> & F & _)]; [exact H|].
    unfold Kept.schema_ok in *. cbn [users categories expenses].
    rewrite !andb_true_iff in *. destruct H as ((HU & HC) & HE).
    repeat split; try assumption. rewrite forallb_app, HE. cbn [andb].
    clear - F. induction F as [|b e docs new (cid & _ & N) _ IH]; [reflexivity|].
    cbn [forallb]. now rewrite (create_valid _ _ _ _ _ _ _ N).
  - unfold Kept.schema_ok in *.
    cbn [TestRoutes.clearData snd users categories expenses].
    rewrite !andb_true_iff in *. destruct H as ((HU & HC) & HE).
    repeat split; try assumption; now apply forallb_filter.
Qed.
End StepsSchema.
(** ** Owners, users and default categories *)

Lemma registered_spec (db : Db) (id : ObjectId) :
  Kept.registered db id = true <-> In id (map User._id (users db)).
Proof.
  unfold Kept.registered. rewrite existsb_exists, in_map_iff. split.
  - intros (u & Hu & E). apply Nat.eqb_eq in E. eauto.
  - intros (u & E & Hu). exists u. split; [assumption|]. now apply Nat.eqb_eq.
Qed.

Lemma owners_spec (db : Db) :
  Kept.owners_ok db = true <->
  (forall c, In c (categories db) -> In (Category.userId c) (map User._id (users db)))
  /\ (forall e, In e (expenses db) -> In (Expense.userId e) (map User._id (users db))).
Proof.
  unfold Kept.owners_ok. rewrite andb_true_iff, !forallb_forall.
  split; intros [H1 H2]; split; intros x Hx; apply registered_spec; auto.
Qed.

(** Where the categories and the expenses come from after a request. *)
Lemma handle_categories_from (tz : Z) (regex_i : string -> string -> bool)
      (caller : User.t) (now : Z) (r : Request) (db : Db) (c' : Category.t) :
  In c' (categories (snd (handle tz regex_i caller now r db))) ->
  Category.userId c' = User._id caller
  \/ exists c, In c (categories db) /\ Category.userId c' = Category.userId c.
Proof.
  assert (Same : In c' (categories db) ->
                 Category.userId c' = User._id caller
                 \/ exists c, In c (categories db)
                              /\ Category.userId c' = Category.userId c)
    by (intros H; right; exists c'; auto).
  destruct r; cbn [handle snd]; try exact Same.
  - unfold Categories.post.
    destruct (negb _); [exact Same|].
    destruct (Store.findOne _ _); [exact Same|].
    destruct (Schema.required_string _); [|exact Same].
    cbn [snd insert_category categories]. rewrite in_app_iff.
    intros [H|[<-|[]]]; [now apply Same|now left].
  - unfold Categories.put.
    destruct (Categories.update_valid b); [|exact Same].
    destruct (Store.findOneAndUpdate _ _ _) as [[c|] cs] eqn:F; [|exact Same].
    cbn [snd set_categories categories].
    replace cs with (snd (Store.findOneAndUpdate
                            (fun c => (Category._id c =? id)%nat
                                      && Categories.owned_by (User._id caller) c)
                            (Categories.apply_update b) (categories db)))
      by (now rewrite F).
    intros H. apply findOneAndUpdate_In in H.
    destruct H as [H|(x & Hx & _ & ->)]; [now apply Same|].
    right. exists x. auto.
  - unfold Categories.delete.
    destruct (Store.findOneAndDelete _ _) as [[c|] cs] eqn:F; [|exact Same].
    cbn [snd set_categories categories].
    replace cs with (snd (Store.findOneAndDelete
                            (fun c => (Category._id c =? id)%nat
                                      && Categories.owned_by (User._id caller) c
                                      && negb (Category.isDefault c))
                            (categories db)))
      by (now rewrite F).
    intros H. apply (findOneAndDelete_incl _ _ (fun x => x)) in H. now apply Same.
  - unfold Expenses.post.
    destruct (negb _); [exact Same|].
    destruct (ExpenseBody.category b); [|exact Same].
    destruct (Expenses.categoryExists _ _ _); [|exact Same].
    destruct (Expenses.new_expense _ _ _ _ _); exact Same.
  - unfold Expenses.put.
    destruct (match ExpenseBody.category b with Some _ => _ | None => _ end);
      [exact Same|].
    destruct (Expenses.update_valid b); [|exact Same].
    destruct (Store.findOneAndUpdate _ _ _) as [[e|] es]; exact Same.
  - unfold Expenses.delete.
    destruct (Store.findOneAndDelete _ _) as [[e|] es]; exact Same.
Qed.

Lemma handle_expenses_from (tz : Z) (regex_i : string -> string -> bool)
      (caller : User.t) (now : Z) (r : Request) (db : Db) (e' : Expense.t) :
  In e' (expenses (snd (handle tz regex_i caller now r db))) ->
  Expense.userId e' = User._id caller
  \/ exists e, In e (expenses db) /\ Expense.userId e' = Expense.userId e.
Proof.
  assert (Same : In e' (expenses db) ->
                 Expense.userId e' = User._id caller
                 \/ exists e, In e (expenses db)
                              /\ Expense.userId e' = Expense.userId e)
    by (intros H; right; exists e'; auto).
  destruct r; cbn [handle snd]; try exact Same.
  - unfold Categories.post.
    destruct (negb _); [exact Same|].
    destruct (Store.findOne _ _); [exact Same|].
    destruct (Schema.required_string _); exact Same.
  - unfold Categories.put.
    destruct (Categories.update_valid b); [|exact Same].
    destruct (Store.findOneAndUpdate _ _ _) as [[c|] cs]; exact Same.
  - unfold Categories.delete.
    destruct (Store.findOneAndDelete _ _) as [[c|] cs]; exact Same.
  - unfold Expenses.post.
    destruct (negb _); [exact Same|].
    destruct (ExpenseBody.category b) as [cid|]; [|exact Same].
    destruct (Expenses.categoryExists _ _ _); [|exact Same].
    destruct (Expenses.new_expense _ _ _ _ _) as [e|] eqn:N; [|exact Same].
    cbn [snd insert_expense expenses]. rewrite in_app_iff.
    intros [H|[<-|[]]]; [now apply Same|left].
    apply new_expense_fields in N. tauto.
  - unfold Expenses.put.
    destruct (match ExpenseBody.category b with Some _ => _ | None => _ end);
      [exact Same|].
    destruct (Expenses.update_valid b); [|exact Same].
    destruct (Store.findOneAndUpdate _ _ _) as [[e|] es] eqn:F; [|exact Same].
    cbn [snd set_expenses expenses].
    replace es with (snd (Store.findOneAndUpdate
                            (fun e => (Expense._id e =? id)%nat
                                      && Expenses.owned_by (User._id caller) e)
                            (Expenses.apply_update now b) (expenses db)))
      by (now rewrite F).
    intros H. apply findOneAndUpdate_In in H.
    destruct H as [H|(x & Hx & _ & ->)]; [now apply Same|].
    right. exists x. auto.
  - unfold Expenses.delete.
    destruct (Store.findOneAndDelete _ _) as [[e|] es] eqn:F; [|exact Same].
    cbn [snd set_expenses expenses].
    replace es with (snd (Store.findOneAndDelete
                            (fun e => (Expense._id e =? id)%nat
                                      && Expenses.owned_by (User._id caller) e)
                            (expenses db)))
      by (now rewrite F).
    intros H. apply (findOneAndDelete_incl _ _ (fun x => x)) in H. now apply Same.
Qed.

Lemma updateProfile_ids (caller : User.t) (b : ProfileBody.t) (db : Db) :
  map User._id (users (snd (Session.updateProfile caller b db)))
  = map User._id (users db)
  /\ map User.email (users (snd (Session.updateProfile caller b db)))
     = map User.email (users db)
  /\ map User.username (users (snd (Session.updateProfile caller b db)))
     = map User.username (users db).
Proof.
  destruct (updateProfile_store caller b db) as (_ & _ & _ & [-> | [_ ->]]);
    [repeat split|].
  repeat split; now apply findOneAndUpdate_map.
Qed.

Section StepsOwners.
Variable tz : Z.
Variable regex_i : string -> string -> bool.
Variable isEmail : string -> bool.
Variable hash : string -> string.
Variable sign : ObjectId -> string.

Lemma step_owners (db db' : Db) :
  step tz regex_i isEmail hash sign db db' ->
  Kept.owners_ok db = true -> Kept.owners_ok db' = true.
Proof.
  intros S H. apply owners_spec in H. destruct H as [HC HE]. apply owners_spec.
  destruct S as [now b|caller now r Hc|caller b Hc|caller now Hc|caller Hc].
  - destruct (register_effect isEmail hash sign now b db)
      as [[-> _]|(user & seeded & N & _ & _ & -> & _ & Hs)]; [now split|].
    cbn [users categories expenses]. rewrite map_app. split.
    + intros c Hin. apply in_app_iff. apply in_app_iff in Hin.
      destruct Hin as [Hin|Hin]; [left; now apply HC|right].
      rewrite Forall_forall in Hs. destruct (Hs c Hin) as (-> & _). now left.
    + intros e Hin. apply in_app_iff. left. now apply HE.
  - rewrite handle_users. split.
    + intros c Hin. apply handle_categories_from in Hin.
      destruct Hin as [->|(c0 & Hc0 & ->)]; [now apply in_map|now apply HC].
    + intros e Hin. apply handle_expenses_from in Hin.
      destruct Hin as [->|(e0 & He0 & ->)]; [now apply in_map|now apply HE].
  - destruct (updateProfile_store caller b db) as (C & E & _ & _).
    destruct (updateProfile_ids caller b db) as (I & _).
    rewrite C, E, I. now split.
  - destruct (seedData_effect caller now db)
      as [[-> _]|(docs & new & _ & _ & _ & -> & F & _)]; [now split|].
    cbn [users categories expenses]. split; [assumption|].
    intros e Hin. apply in_app_iff in Hin. destruct Hin as [Hin|Hin]; [now apply HE|].
    destruct (Forall2_In_r _ _ _ F e Hin) as (d & _ & (cid & _ & N)).
    apply create_fields in N. destruct N as (_ & _ & -> & _). now apply in_map.
  - cbn [TestRoutes.clearData snd users categories expenses]. split.
    + intros c Hin. apply filter_In in Hin. now apply HC.
    + intros e Hin. apply filter_In in Hin. now apply HE.
Qed.

Lemma step_users_unique (db db' : Db) :
  step tz regex_i isEmail hash sign db db' ->
  NoDup (map User.email (users db)) /\ NoDup (map User.username (users db)) ->
  NoDup (map User.email (users db')) /\ NoDup (map User.username (users db')).
Proof.
  intros S H.
  destruct S as [now b|caller now r Hc|caller b Hc|caller now Hc|caller Hc].
  - destruct (register_effect isEmail hash sign now b db)
      as [[-> _]|(user & seeded & _ & Hnew & _ & -> & _)]; [exact H|].
    cbn [users]. rewrite !map_app. cbn [map]. destruct H as [H1 H2].
    split.
    + apply NoDup_app; [assumption|repeat constructor; intros []|].
      intros x Hx [<-|[]]. apply in_map_iff in Hx. destruct Hx as (u & E & Hu).
      destruct (Hnew u Hu) as [N1 _]. now apply N1.
    + apply NoDup_app; [assumption|repeat constructor; intros []|].
      intros x Hx [<-|[]]. apply in_map_iff in Hx. destruct Hx as (u & E & Hu).
      destruct (Hnew u Hu) as [_ N2]. now apply N2.
  - now rewrite handle_users.
  - destruct (updateProfile_ids caller b db) as (_ & -> & ->). exact H.
  - destruct (seedData_effect caller now db)
      as [[-> _]|(docs & new & _ & _ & _ & -> & _)]; exact H.
  - exact H.
Qed.
End StepsOwners.
(** ** The eight default categories *)

Lemma filter_all {A} (p : A -> bool) (l : list A) :
  (forall x, In x l -> p x = true) -> filter p l = l.
Proof.
  induction l as [|a l IH]; simpl; intros H; [reflexivity|].
  rewrite (H a (or_introl eq_refl)), IH; [reflexivity|]. intros x Hx. apply H. now right.
Qed.

Lemma filter_none {A} (p : A -> bool) (l : list A) :
  (forall x, In x l -> p x = false) -> filter p l = [].
Proof.
  induction l as [|a l IH]; simpl; intros H; [reflexivity|].
  rewrite (H a (or_introl eq_refl)). apply IH. intros x Hx. apply H. now right.
Qed.

Lemma filter_updated {A B} (p f : A -> bool) (upd : A -> A) (g : A -> B) (l : list A) :
  (forall x, p (upd x) = p x) -> (forall x, g (upd x) = g x) ->
  map g (filter p (snd (Store.findOneAndUpdate f upd l))) = map g (filter p l).
Proof.
  intros Hp Hg. induction l as [|a l IH]; simpl; [reflexivity|].
  destruct (f a); simpl.
  - rewrite Hp. destruct (p a); simpl; [now rewrite Hg|reflexivity].
  - destruct (Store.findOneAndUpdate f upd l) as [o r]. simpl in IH |- *.
    destruct (p a); simpl; now rewrite IH.
Qed.

Lemma filter_deleted {A} (p f : A -> bool) (l : list A) :
  (forall x, f x = true -> p x = false) ->
  filter p (snd (Store.findOneAndDelete f l)) = filter p l.
Proof.
  intros H. induction l as [|a l IH]; simpl; [reflexivity|].
  destruct (f a) eqn:Fa; simpl.
  - now rewrite (H a Fa).
  - destruct (Store.findOneAndDelete f l) as [o r]. simpl in IH |- *.
    now rewrite IH.
Qed.

(** No request of a caller adds, removes or re-owns a default category. *)
Lemma handle_defaults (tz : Z) (regex_i : string -> string -> bool)
      (caller : User.t) (now : Z) (r : Request) (db : Db) (u : ObjectId) :
  map Category._id (Kept.defaults_of u (snd (handle tz regex_i caller now r db)))
  = map Category._id (Kept.defaults_of u db).
Proof.
  unfold Kept.defaults_of.
  destruct r; cbn [handle snd]; try reflexivity.
  - unfold Categories.post.
    destruct (negb _); [reflexivity|].
    destruct (Store.findOne _ _); [reflexivity|].
    destruct (Schema.required_string _); [|reflexivity].
    cbn [snd insert_category categories]. rewrite filter_app.
    cbn [filter Category.isDefault]. now rewrite andb_false_r, app_nil_r.
  - unfold Categories.put.
    destruct (Categories.update_valid b); [|reflexivity].
    destruct (Store.findOneAndUpdate _ _ _) as [[c|] cs] eqn:F; [|reflexivity].
    cbn [snd set_categories categories].
    replace cs with (snd (Store.findOneAndUpdate
                            (fun c => (Category._id c =? id)%nat
                                      && Categories.owned_by (User._id caller) c)
                            (Categories.apply_update b) (categories db)))
      by (now rewrite F).
    apply filter_updated; reflexivity.
  - unfold Categories.delete.
    destruct (Store.findOneAndDelete _ _) as [[c|] cs] eqn:F; [|reflexivity].
    cbn [snd set_categories categories].
    replace cs with (snd (Store.findOneAndDelete
                            (fun c => (Category._id c =? id)%nat
                                      && Categories.owned_by (User._id caller) c
                                      && negb (Category.isDefault c))
                            (categories db)))
      by (now rewrite F).
    f_equal. apply filter_deleted. intros x Hx.
    apply andb_true_iff in Hx. destruct Hx as [_ Hx]. apply negb_true_iff in Hx.
    rewrite Hx. apply andb_false_r.
  - unfold Expenses.post.
    destruct (negb _); [reflexivity|].
    destruct (ExpenseBody.category b); [|reflexivity].
    destruct (Expenses.categoryExists _ _ _); [|reflexivity].
    destruct (Expenses.new_expense _ _ _ _ _); reflexivity.
  - unfold Expenses.put.
    destruct (match ExpenseBody.category b with Some _ => _ | None => _ end);
      [reflexivity|].
    destruct (Expenses.update_valid b); [|reflexivity].
    destruct (Store.findOneAndUpdate _ _ _) as [[e|] es]; reflexivity.
  - unfold Expenses.delete.
    destruct (Store.findOneAndDelete _ _) as [[e|] es]; reflexivity.
Qed.

Lemma clearData_defaults (caller : User.t) (db : Db) (u : ObjectId) :
  Kept.defaults_of u (snd (TestRoutes.clearData caller db)) = Kept.defaults_of u db.
Proof.
  unfold Kept.defaults_of. cbn [TestRoutes.clearData snd categories].
  rewrite filter_filter. apply filter_ext. intros c.
  destruct (Category.isDefault c); [|now rewrite !andb_false_r].
  now rewrite !andb_false_r.
Qed.

Section StepsDefaults.
Variable tz : Z.
Variable regex_i : string -> string -> bool.
Variable isEmail : string -> bool.
Variable hash : string -> string.
Variable sign : ObjectId -> string.

Lemma step_defaults (db db' : Db) :
  step tz regex_i isEmail hash sign db db' ->
  Invariant.wf db = true ->
  (forall u, In u (users db) ->
             List.length (Kept.defaults_of (User._id u) db) = 8%nat) ->
  forall u, In u (users db') ->
            List.length (Kept.defaults_of (User._id u) db') = 8%nat.
Proof.
  intros S Hwf H.
  assert (Ids : map User._id (users db') = map User._id (users db) ->
                (forall id, map Category._id (Kept.defaults_of id db')
                            = map Category._id (Kept.defaults_of id db)) ->
                forall u, In u (users db') ->
                          List.length (Kept.defaults_of (User._id u) db') = 8%nat).
  { intros Hu Hd u Hin.
    rewrite <- (length_map Category._id), Hd, length_map.
    assert (Hi : In (User._id u) (map User._id (users db)))
      by (rewrite <- Hu; now apply in_map).
    apply in_map_iff in Hi. destruct Hi as (u0 & <- & Hu0). now apply H. }
  destruct S as [now b|caller now r Hc|caller b Hc|caller now Hc|caller Hc].
  - destruct (register_effect isEmail hash sign now b db)
      as [[-> _]|(user & seeded & N & _ & _ & -> & L & Hs)]; [exact H|].
    apply new_user_id in N. rewrite Forall_forall in Hs.
    unfold Kept.defaults_of. cbn [users categories]. intros u Hin.
    rewrite filter_app, length_app. apply in_app_iff in Hin.
    destruct Hin as [Hin|[<-|[]]].
    + rewrite (filter_none _ seeded), Nat.add_0_r; [now apply H|].
      intros c Hc. destruct (Hs c Hc) as (Ho & _).
      unfold Categories.owned_by. rewrite Ho, N.
      pose proof (user_id_below db u Hwf Hin).
      replace (nextId db =? User._id u)%nat with false; [reflexivity|].
      symmetry. apply Nat.eqb_neq. lia.
    + rewrite (filter_none _ (categories db)), (filter_all _ seeded); [exact L| |].
      * intros c Hc. destruct (Hs c Hc) as (Ho & Hd & _).
        unfold Categories.owned_by. now rewrite Ho, Hd, Nat.eqb_refl.
      * intros c Hc. unfold Categories.owned_by. rewrite N.
        pose proof (wf_category_owner_below db c Hwf Hc).
        replace (Category.userId c =? nextId db)%nat with false; [reflexivity|].
        symmetry. apply Nat.eqb_neq. lia.
  - apply Ids; [now rewrite handle_users|]. intros id. apply handle_defaults.
  - destruct (updateProfile_ids caller b db) as (I & _).
    apply Ids; [exact I|]. intros id. unfold Kept.defaults_of.
    destruct (updateProfile_store caller b db) as (-> & _). reflexivity.
  - destruct (seedData_effect caller now db)
      as [[E _]|(docs & new & _ & _ & _ & E & _)]; rewrite E in *; [exact H|].
    apply Ids; reflexivity.
  - apply Ids; [reflexivity|]. intros id. now rewrite clearData_defaults.
Qed.
End StepsDefaults.
(** ** Every store the server reaches *)

Section Served.
Variable tz : Z.
Variable regex_i : string -> string -> bool.
Variable isEmail : string -> bool.
Variable hash : string -> string.
Variable sign : ObjectId -> string.

Lemma served_kept (db : Db) :
  served tz regex_i isEmail hash sign db ->
  Invariant.wf db = true
  /\ Kept.schema_ok db = true
  /\ Kept.owners_ok db = true
  /\ (NoDup (map User.email (users db)) /\ NoDup (map User.username (users db)))
  /\ (forall u, In u (users db) ->
                List.length (Kept.defaults_of (User._id u) db) = 8%nat).
Proof.
  unfold served. induction 1 as [|db' db'' _ (W & Sc & O & U & D) S].
  - repeat split; try reflexivity; try constructor. intros u [].
  - split; [eapply step_wf; eauto|].
    split; [eapply step_schema; eauto|].
    split; [eapply step_owners; eauto|].
    split; [eapply step_users_unique; eauto|].
    eapply step_defaults; eauto.
Qed.
End Served.

(** X1: in every store the server reaches, through whatever routes, an
    expense never names a category of another user, and every category
    and every expense belongs to a registered user. *)
Theorem served_owners
        (tz : Z) (regex_i : string -> string -> bool) (isEmail : string -> bool)
        (hash : string -> string) (sign : ObjectId -> string) (db : Db) :
  served tz regex_i isEmail hash sign db ->
  (forall e c, In e (expenses db) -> In c (categories db) ->
               Category._id c = Expense.category e ->
               Category.userId c = Expense.userId e)
  /\ (forall c, In c (categories db) ->
                exists u, In u (users db) /\ User._id u = Category.userId c)
  /\ (forall e, In e (expenses db) ->
                exists u, In u (users db) /\ User._id u = Expense.userId e).
Proof.
  intros H. destruct (served_kept _ _ _ _ _ _ H) as (W & _ & O & _).
  apply wf_spec in W. destruct W as (_ & _ & _ & _ & _ & _ & _ & _ & SO).
  apply owners_spec in O. destruct O as [OC OE].
  split; [exact SO|]. split.
  - intros c Hc. specialize (OC c Hc). apply in_map_iff in OC.
    destruct OC as (u & E & Hu). eauto.
  - intros e He. specialize (OE e He). apply in_map_iff in OE.
    destruct OE as (u & E & Hu). eauto.
Qed.

(** X2: every stored document passes the validators of its schema: a
    user name of 3 to 30 characters, a full name, a category name and an
    expense title that are trimmed and not empty, an amount that is not
    negative and a payment method of the enumeration. *)
Theorem served_documents_valid
        (tz : Z) (regex_i : string -> string -> bool) (isEmail : string -> bool)
        (hash : string -> string) (sign : ObjectId -> string) (db : Db) :
  served tz regex_i isEmail hash sign db ->
  (forall u, In u (users db) ->
     (3 <= String.length (User.username u) <= 30)%nat
     /\ JsString.trim (User.username u) = User.username u
     /\ User.email u <> ""
     /\ (6 <= String.length (User.password u))%nat
     /\ User.fullName u <> ""
     /\ JsString.trim (User.fullName u) = User.fullName u)
  /\ (forall c, In c (categories db) ->
        Category.name c <> "" /\ JsString.trim (Category.name c) = Category.name c)
  /\ (forall e, In e (expenses db) ->
        Expense.title e <> ""
        /\ JsString.trim (Expense.title e) = Expense.title e
        /\ 0 <= Expense.amount e
        /\ In (Expense.paymentMethod e) Expense.paymentMethods).
Proof.
  intros H. destruct (served_kept _ _ _ _ _ _ H) as (_ & Sc & _).
  unfold Kept.schema_ok in Sc. rewrite !andb_true_iff, !forallb_forall in Sc.
  destruct Sc as ((HU & HC) & HE). split; [|split].
  - intros u Hu. specialize (HU u Hu). unfold Kept.valid_user in HU.
    rewrite !andb_true_iff, !negb_true_iff in HU.
    destruct HU as ((((((U1 & U2) & U3) & U4) & U5) & U6) & U7).
    apply String.eqb_eq in U1. apply Nat.leb_le in U2. apply Nat.leb_le in U3.
    apply String.eqb_neq in U4. apply Nat.leb_le in U5.
    apply String.eqb_eq in U6. apply String.eqb_neq in U7. auto 10.
  - intros c Hc. specialize (HC c Hc). unfold Kept.valid_category in HC.
    rewrite andb_true_iff, negb_true_iff in HC. destruct HC as [C1 C2].
    apply String.eqb_eq in C1. apply String.eqb_neq in C2. auto.
  - intros e He. specialize (HE e He). unfold Kept.valid_expense in HE.
    rewrite !andb_true_iff, negb_true_iff in HE.
    destruct HE as (((E1 & E2) & E3) & E4).
    apply String.eqb_eq in E1. apply String.eqb_neq in E2. apply Z.leb_le in E3.
    apply existsb_exists in E4. destruct E4 as (p & Hp & E4).
    apply String.eqb_eq in E4. subst p. auto.
Qed.

(** X3: no two registered users share an e-mail address or a user name,
    whatever was registered and updated. *)
Theorem served_users_unique
        (tz : Z) (regex_i : string -> string -> bool) (isEmail : string -> bool)
        (hash : string -> string) (sign : ObjectId -> string) (db : Db)
        (u v : User.t) :
  served tz regex_i isEmail hash sign db ->
  In u (users db) -> In v (users db) ->
  User.email u = User.email v \/ User.username u = User.username v ->
  u = v.
Proof.
  intros H Hu Hv E. destruct (served_kept _ _ _ _ _ _ H) as (_ & _ & _ & [N1 N2] & _).
  destruct E as [E|E].
  - now apply (NoDup_map_unique User.email (users db)).
  - now apply (NoDup_map_unique User.username (users db)).
Qed.

(** X4: every registered user has exactly eight default categories at
    all times: no route adds one after the registration, deletes one or
    hands one to another user. *)
Theorem served_default_categories
        (tz : Z) (regex_i : string -> string -> bool) (isEmail : string -> bool)
        (hash : string -> string) (sign : ObjectId -> string) (db : Db) (u : User.t) :
  served tz regex_i isEmail hash sign db -> In u (users db) ->
  List.length (filter (fun c => Categories.owned_by (User._id u) c
                                && Category.isDefault c) (categories db)) = 8%nat
  /\ (8 <= List.length (filter (Categories.owned_by (User._id u)) (categories db)))%nat.
Proof.
  intros H Hu. destruct (served_kept _ _ _ _ _ _ H) as (_ & _ & _ & _ & D).
  specialize (D u Hu). unfold Kept.defaults_of in D. split; [exact D|].
  rewrite <- D. clear. induction (categories db) as [|c l IH]; simpl; [lia|].
  destruct (Categories.owned_by (User._id u) c); simpl;
    [destruct (Category.isDefault c); simpl; lia|exact IH].
Qed.
(** ** Registration, login and the token *)

Lemma rules_pass2 (a b : bool) (m1 m2 : string) :
  negb (Validator.isEmpty (Validator.rule a m1 ++ Validator.rule b m2)) = false ->
  a = true /\ b = true.
Proof. destruct a, b; cbn; intros H; try discriminate; auto. Qed.

Lemma rules_pass4 (a b c d : bool) (m1 m2 m3 m4 : string) :
  negb (Validator.isEmpty
          (Validator.rule a m1 ++ Validator.rule b m2
           ++ Validator.rule c m3 ++ Validator.rule d m4)) = false ->
  a = true /\ b = true /\ c = true /\ d = true.
Proof. destruct a, b, c, d; cbn; intros H; try discriminate; auto. Qed.

Lemma isLength_min_notEmpty (n : nat) (o : option string) :
  (1 <= n)%nat -> Validator.isLength_min n o = true -> Validator.notEmpty o = true.
Proof.
  unfold Validator.isLength_min, Validator.notEmpty. intros Hn H.
  apply Nat.leb_le in H. destruct (Validator.toString o); [cbn in H; lia|reflexivity].
Qed.

(** What a registration that answers 201 has checked and written. *)
Lemma register_created (isEmail : string -> bool) (hash : string -> string)
      (sign : ObjectId -> string) (now : Z) (b : RegisterBody.t) (db : Db) :
  status (fst (Auth.register isEmail hash sign now b db)) = 201 ->
  Validator.isLength_min 3 (RegisterBody.username b) = true
  /\ Validator.isLength_min 6 (RegisterBody.password b) = true
  /\ exists user seeded,
       Auth.new_user hash (nextId db) b = Some user
       /\ (forall u, In u (users db) ->
             User.email u <> User.email user /\ User.username u <> User.username user)
       /\ fst (Auth.register isEmail hash sign now b db)
          = created (Registered "User registered successfully"
                       (sign (User._id user)) (Auth.view user))
       /\ snd (Auth.register isEmail hash sign now b db)
          = mkDb (users db ++ [user]) (categories db ++ seeded) (expenses db)
              (nextId db + 9)%nat.
Proof.
  intros H.
  destruct (register_effect isEmail hash sign now b db)
    as [[_ N]|(user & seeded & N & Hn & Hf & Hs & _)]; [contradiction|].
  assert (V : Validator.isLength_min 3 (RegisterBody.username b) = true
              /\ Validator.isLength_min 6 (RegisterBody.password b) = true).
  { unfold Auth.register in H.
    destruct (negb _) eqn:E; [discriminate|].
    apply rules_pass4 in E. tauto. }
  destruct V as [V1 V2]. split; [exact V1|]. split; [exact V2|].
  exists user, seeded. auto.
Qed.

Lemma new_user_fields (hash : string -> string) (id : ObjectId) (b : RegisterBody.t)
      (u : User.t) :
  Auth.new_user hash id b = Some u ->
  User._id u = id
  /\ User.username u = JsString.trim (Validator.toString (RegisterBody.username b))
  /\ User.email u
     = JsString.toLowerCase (JsString.trim (Validator.toString (RegisterBody.email b)))
  /\ User.password u = hash (Validator.toString (RegisterBody.password b))
  /\ User.email u <> "".
Proof.
  unfold Auth.new_user. destruct (_ && _)%bool eqn:V; [|discriminate].
  intros H. inversion H; subst u. cbn [User._id User.username User.email User.password].
  repeat split. rewrite !andb_true_iff in V. destruct V as ((((_ & _) & V) & _) & _).
  apply negb_true_iff in V. now apply String.eqb_neq.
Qed.

Lemma findOne_last {A} (f : A -> bool) (l : list A) (x : A) :
  (forall y, In y l -> f y = false) -> f x = true ->
  Store.findOne f (l ++ [x]) = Some x.
Proof.
  unfold Store.findOne. induction l as [|a l IH]; simpl; intros H Hx.
  - now rewrite Hx.
  - rewrite (H a (or_introl eq_refl)). apply IH; auto.
Qed.

Lemma toLowerCase_empty (s : string) : JsString.toLowerCase s = "" -> s = "".
Proof. destruct s; [reflexivity|discriminate]. Qed.

Lemma trim_empty (s : string) : JsString.trim s <> "" -> s <> "".
Proof. intros H ->. now apply H. Qed.

(** X5: a user who has just registered can log in with the user name
    of the registration and, as well, with its e-mail address, and gets
    the same account; the first needs that no earlier user has that
    name for an e-mail address, the second that no earlier user has that
    address for a name, since the login looks an identifier up in both
    fields. *)
Theorem login_after_register
        (isEmail : string -> bool) (hash : string -> string)
        (sign : ObjectId -> string) (compare : string -> string -> bool)
        (now : Z) (b : RegisterBody.t) (db : Db) :
  status (fst (Auth.register isEmail hash sign now b db)) = 201 ->
  compare (Validator.toString (RegisterBody.password b))
          (hash (Validator.toString (RegisterBody.password b))) = true ->
  let db' := snd (Auth.register isEmail hash sign now b db) in
  exists user,
    users db' = users db ++ [user]
    /\ fst (Auth.register isEmail hash sign now b db)
       = created (Registered "User registered successfully"
                    (sign (User._id user)) (Auth.view user))
    /\ ((forall u, In u (users db) ->
           User.email u <> JsString.toLowerCase (User.username user)) ->
        Session.login compare sign
          (LoginBody.mk (RegisterBody.username b) (RegisterBody.password b)) db'
        = Reply.mk 200 true
            (Session.LoggedIn "Login successful" (sign (User._id user))
               (Auth.view user)))
    /\ ((forall u, In u (users db) ->
           User.username u
           <> JsString.trim (Validator.toString (RegisterBody.email b))) ->
        Session.login compare sign
          (LoginBody.mk (RegisterBody.email b) (RegisterBody.password b)) db'
        = Reply.mk 200 true
            (Session.LoggedIn "Login successful" (sign (User._id user))
               (Auth.view user))).
Proof.
  intros H Hcmp db'.
  destruct (register_created isEmail hash sign now b db H)
    as (V1 & V2 & user & seeded & N & Hnew & Hf & Hs).
  destruct (new_user_fields _ _ _ _ N) as (_ & Eu & Ee & Ep & Ene).
  exists user. unfold db'. rewrite Hs. cbn [users].
  split; [reflexivity|]. split; [exact Hf|].
  assert (P : Validator.notEmpty (RegisterBody.password b) = true)
    by (apply (isLength_min_notEmpty 6); [lia|assumption]).
  split.
  - intros Hold. unfold Session.login. cbn [LoginBody.identifier LoginBody.password].
    rewrite (isLength_min_notEmpty 3 _ ltac:(lia) V1), P. cbn [Validator.rule app Validator.isEmpty negb].
    rewrite (findOne_last _ (users db) user).
    + now rewrite Ep, Hcmp.
    + intros u Hu. apply orb_false_iff. split; apply String.eqb_neq.
      * rewrite <- Eu. now apply Hold.
      * rewrite <- Eu. now apply Hnew.
    + apply orb_true_iff. right. rewrite Eu. apply String.eqb_refl.
  - intros Hold. unfold Session.login. cbn [LoginBody.identifier LoginBody.password].
    assert (E : Validator.notEmpty (RegisterBody.email b) = true).
    { unfold Validator.notEmpty. apply negb_true_iff, String.eqb_neq.
      intros E0. apply Ene. rewrite Ee, E0. reflexivity. }
    rewrite E, P. cbn [Validator.rule app Validator.isEmpty negb].
    rewrite (findOne_last _ (users db) user).
    + now rewrite Ep, Hcmp.
    + intros u Hu. apply orb_false_iff. split; apply String.eqb_neq.
      * rewrite <- Ee. now apply Hnew.
      * now apply Hold.
    + apply orb_true_iff. left. rewrite Ee. apply String.eqb_refl.
Qed.

(** X6: a login whose identifier matches no user and a login with a
    wrong password are answered alike, by the same 400 "Invalid
    credentials": the answer does not tell whether the account exists. *)
Theorem login_invalid_credentials
        (sign : ObjectId -> string) (compare : string -> string -> bool)
        (b : LoginBody.t) (db : Db) :
  Validator.notEmpty (LoginBody.identifier b) = true ->
  Validator.notEmpty (LoginBody.password b) = true ->
  let identifier := Validator.toString (LoginBody.identifier b) in
  (forall u, In u (users db) ->
     (User.email u <> JsString.toLowerCase (JsString.trim identifier)
      /\ User.username u <> JsString.trim identifier)
     \/ compare (Validator.toString (LoginBody.password b)) (User.password u) = false) ->
  Session.login compare sign b db
  = Reply.mk 400 false (Session.Message "Invalid credentials").
Proof.
  intros V1 V2 identifier H. unfold Session.login. rewrite V1, V2.
  cbn [Validator.rule app Validator.isEmpty negb]. fold identifier.
  destruct (Store.findOne _ (users db)) as [u|] eqn:F; [|reflexivity].
  apply findOne_some in F. destruct F as [Hu F].
  destruct (H u Hu) as [[N1 N2]|C]; [|now rewrite C].
  apply orb_true_iff in F. destruct F as [F|F]; apply String.eqb_eq in F; contradiction.
Qed.

(** X7: once a registration has succeeded, a registration under the
    same user name (up to surrounding blanks) or the same e-mail address
    (up to case and surrounding blanks) is answered 400 and writes
    nothing. *)
Theorem register_again
        (isEmail : string -> bool) (hash : string -> string)
        (sign : ObjectId -> string) (now now' : Z) (b b' : RegisterBody.t) (db : Db) :
  status (fst (Auth.register isEmail hash sign now b db)) = 201 ->
  JsString.trim (Validator.toString (RegisterBody.username b'))
  = JsString.trim (Validator.toString (RegisterBody.username b))
  \/ JsString.toLowerCase (JsString.trim (Validator.toString (RegisterBody.email b')))
     = JsString.toLowerCase (JsString.trim (Validator.toString (RegisterBody.email b))) ->
  let db' := snd (Auth.register isEmail hash sign now b db) in
  status (fst (Auth.register isEmail hash sign now' b' db')) = 400
  /\ snd (Auth.register isEmail hash sign now' b' db') = db'
  /\ (Validator.isLength_min 3 (RegisterBody.username b') = true ->
      isEmail (Validator.toString (RegisterBody.email b')) = true ->
      Validator.isLength_min 6 (RegisterBody.password b') = true ->
      Validator.notEmpty (RegisterBody.fullName b') = true ->
      fst (Auth.register isEmail hash sign now' b' db')
      = fail 400 "User already exists with this email or username").
Proof.
  intros H Same db'.
  destruct (register_created isEmail hash sign now b db H)
    as (_ & _ & user & seeded & N & _ & _ & Hs).
  destruct (new_user_fields _ _ _ _ N) as (_ & Eu & Ee & _).
  assert (F : exists x,
             Store.findOne
               (fun u => (User.email u =? JsString.toLowerCase
                            (JsString.trim (Validator.toString (RegisterBody.email b'))))%string
                         || (User.username u =? JsString.trim
                               (Validator.toString (RegisterBody.username b')))%string)
               (users db') = Some x).
  { destruct (Store.findOne _ (users db')) as [x|] eqn:F; [eauto|exfalso].
    rewrite findOne_none in F. specialize (F user).
    unfold db' in F. rewrite Hs in F. cbn [users] in F.
    rewrite in_app_iff in F. specialize (F (or_intror (or_introl eq_refl))).
    apply orb_false_iff in F. destruct F as [F1 F2].
    apply String.eqb_neq in F1. apply String.eqb_neq in F2.
    destruct Same as [S|S]; congruence. }
  destruct F as (x & F). unfold Auth.register.
  destruct (negb _) eqn:E.
  - repeat split. intros R1 R2 R3 R4. rewrite R1, R2, R3, R4 in E. discriminate.
  - rewrite F. repeat split.
Qed.
(** ** The token and the middleware *)

Lemma replace_bearer (t : string) : JsText.replace "Bearer " "" ("Bearer " ++ t) = t.
Proof. destruct t; reflexivity. Qed.

Lemma findOne_unique {A} (g : A -> ObjectId) (l : list A) (x : A) :
  NoDup (map g l) -> In x l ->
  Store.findOne (fun y => (g y =? g x)%nat) l = Some x.
Proof.
  unfold Store.findOne. induction l as [|a l IH]; simpl; intros N Hx; [destruct Hx|].
  inversion N as [|? ? Hn Hl]; subst.
  destruct Hx as [->|Hx]; [now rewrite Nat.eqb_refl|].
  destruct (Nat.eqb_spec (g a) (g x)) as [E|E]; [|now apply IH].
  exfalso. apply Hn. rewrite E. now apply in_map.
Qed.

(** The users stay: a later store holds every user of an earlier one,
    under the same identifier, name, address and password. *)
Lemma step_users (tz : Z) (regex_i : string -> string -> bool)
      (isEmail : string -> bool) (hash : string -> string)
      (sign : ObjectId -> string) (db db' : Db) (u : User.t) :
  step tz regex_i isEmail hash sign db db' -> In u (users db) ->
  exists u', In u' (users db') /\ User._id u' = User._id u
             /\ User.username u' = User.username u
             /\ User.email u' = User.email u
             /\ User.password u' = User.password u.
Proof.
  intros S Hu.
  assert (Same : users db' = users db ->
                 exists u', In u' (users db') /\ User._id u' = User._id u
                            /\ User.username u' = User.username u
                            /\ User.email u' = User.email u
                            /\ User.password u' = User.password u)
    by (intros ->; exists u; auto).
  destruct S as [now b|caller now r Hc|caller b Hc|caller now Hc|caller Hc].
  - destruct (register_effect isEmail hash sign now b db)
      as [[E _]|(user & seeded & _ & _ & _ & E & _)]; rewrite E in *;
      [now apply Same|].
    exists u. cbn [users]. rewrite in_app_iff. auto.
  - apply Same, handle_users.
  - destruct (updateProfile_store caller b db) as (_ & _ & _ & [E|[_ E]]);
      [now apply Same|].
    rewrite E.
    destruct (findOneAndUpdate_keeps
                (fun x => (User._id x =? User._id caller)%nat)
                (Session.apply_update b) (users db) u Hu) as [K|K].
    + exists u. auto.
    + exists (Session.apply_update b u). auto.
  - destruct (seedData_effect caller now db)
      as [[E _]|(docs & new & _ & _ & _ & E & _)]; rewrite E in *; now apply Same.
  - now apply Same.
Qed.

Lemma later_users (tz : Z) (regex_i : string -> string -> bool)
      (isEmail : string -> bool) (hash : string -> string)
      (sign : ObjectId -> string) (db db' : Db) (u : User.t) :
  later tz regex_i isEmail hash sign db db' -> In u (users db) ->
  exists u', In u' (users db') /\ User._id u' = User._id u
             /\ User.username u' = User.username u
             /\ User.email u' = User.email u
             /\ User.password u' = User.password u.
Proof.
  induction 1 as [|db' db'' _ IH S]; intros Hu; [exists u; auto|].
  destruct (IH Hu) as (u1 & H1 & I1 & N1 & E1 & P1).
  destruct (step_users _ _ _ _ _ _ _ _ S H1) as (u2 & H2 & I2 & N2 & E2 & P2).
  exists u2. repeat split; congruence.
Qed.

Lemma auth_passes_helper
      (verify : string -> option ObjectId) (h : Middleware.Headers) (db : Db) :
  Invariant.wf db = true ->
  forall user,
    (exists token u,
        Middleware.token_of h = Some token /\ token <> ""
        /\ verify token = Some (User._id u) /\ In u (users db)
        /\ user = Middleware.without_password u) ->
    Middleware.auth verify h db = inr user.
Proof.
  intros Hwf user (token & u & Ht & E & V & Hu & ->).
  apply wf_spec in Hwf. destruct Hwf as (NU & _).
  unfold Middleware.auth. rewrite Ht.
  unfold JsString.truthy. apply String.eqb_neq in E. rewrite E. cbn [negb].
  rewrite V, (findOne_unique User._id (users db) u NU Hu). reflexivity.
Qed.

(** X8: the middleware lets a request through exactly when it carries
    a token that is not empty and verifies to the identifier of a stored
    user, and [req.user] is then that user without the password;
    otherwise it answers 401 and the route does not run. *)
Theorem auth_passes
        (verify : string -> option ObjectId) (h : Middleware.Headers) (db : Db) :
  Invariant.wf db = true ->
  (forall user,
      Middleware.auth verify h db = inr user <->
      exists token u,
        Middleware.token_of h = Some token /\ token <> ""
        /\ verify token = Some (User._id u) /\ In u (users db)
        /\ user = Middleware.without_password u)
  /\ (forall r, Middleware.auth verify h db = inl r ->
                Reply.status r = 401 /\ Reply.success r = false).
Proof.
  intros Hwf'. pose proof Hwf' as Hwf.
  apply wf_spec in Hwf. destruct Hwf as (NU & _).
  split.
  - intros user. split.
    + unfold Middleware.auth.
      destruct (Middleware.token_of h) as [token|]; [|discriminate].
      unfold JsString.truthy.
      destruct (String.eqb_spec token "") as [E|E]; [discriminate|]. cbn [negb].
      destruct (verify token) as [id|] eqn:V; [|discriminate].
      destruct (Store.findOne _ _) as [u|] eqn:F; [|discriminate].
      apply findOne_some in F. destruct F as [Hu F]. apply Nat.eqb_eq in F.
      intros H. injection H as <-. exists token, u. rewrite F. auto 6.
    + intros Hx. pose proof (auth_passes_helper verify h db Hwf' user Hx) as R.
      exact R.
  - intros r. unfold Middleware.auth.
    destruct (Middleware.token_of h) as [token|];
      [|intros H; inversion H; split; reflexivity].
    destruct (negb _); [intros H; inversion H; split; reflexivity|].
    destruct (verify token); [|intros H; inversion H; split; reflexivity].
    destruct (Store.findOne _ _); [discriminate|].
    intros H; inversion H; split; reflexivity.
Qed.

(** X9: the token a registration hands out opens every later store to
    its user for seven days: sent as [Bearer <token>] while it is fresh,
    it passes the middleware, and [req.user] has the identifier, the
    name and the address of the registration; once it has expired the
    middleware answers 401, Invalid token.  (jsonwebtoken is taken to
    verify the token it signed for the identifier exactly while the
    token is fresh.) *)
Theorem register_token_authenticates
        (tz : Z) (regex_i : string -> string -> bool) (isEmail : string -> bool)
        (hash : string -> string) (tokens : ObjectId -> string)
        (sign : Z -> ObjectId -> string)
        (verify : Z -> string -> option ObjectId)
        (now : Z) (b : RegisterBody.t) (db db'' : Db) (t : Z) :
  served tz regex_i isEmail hash tokens db ->
  status (fst (Auth.register isEmail hash (sign now) now b db)) = 201 ->
  later tz regex_i isEmail hash tokens
    (snd (Auth.register isEmail hash (sign now) now b db)) db'' ->
  verify t (sign now (nextId db))
  = (if Jwt.fresh now t then Some (nextId db) else None) ->
  sign now (nextId db) <> "" ->
  exists token view,
    fst (Auth.register isEmail hash (sign now) now b db)
    = created (Registered "User registered successfully" token view)
    /\ (Jwt.fresh now t = true ->
        exists user,
          Middleware.auth (verify t)
            (Middleware.mkHeaders (Some ("Bearer " ++ token)%string) None) db''
          = inr user
          /\ User._id user = view_id view
          /\ User.username user = view_username view
          /\ User.email user = view_email view
          /\ User.password user = "")
    /\ (Jwt.fresh now t = false ->
        Middleware.auth (verify t)
          (Middleware.mkHeaders (Some ("Bearer " ++ token)%string) None) db''
        = inl (Reply.mk 401 false "Invalid token.")).
Proof.
  intros Hs H L V Ne.
  destruct (register_created isEmail hash (sign now) now b db H)
    as (_ & _ & u & seeded & N & _ & Hf & Hdb).
  pose proof (new_user_id _ _ _ _ N) as Hid.
  assert (Hu : In u (users (snd (Auth.register isEmail hash (sign now) now b db))))
    by (rewrite Hdb; cbn [users]; rewrite in_app_iff; right; now left).
  destruct (later_users _ _ _ _ _ _ _ _ L Hu) as (u' & Hu' & I & Nm & Em & _).
  assert (W : Invariant.wf db'' = true).
  { apply (later_wf _ _ _ _ _ _ _ L). apply register_wf.
    now apply (served_wf tz regex_i isEmail hash tokens). }
  assert (T : Middleware.token_of
                (Middleware.mkHeaders
                   (Some ("Bearer " ++ sign now (User._id u))%string) None)
              = Some (sign now (User._id u))).
  { unfold Middleware.token_of.
    cbn [Middleware.authorization Middleware.cookie_token option_map].
    rewrite replace_bearer. unfold JsString.truthy. rewrite Hid.
    apply String.eqb_neq in Ne. now rewrite Ne. }
  exists (sign now (User._id u)), (Auth.view u).
  split; [exact Hf|]. split.
  - intros F. rewrite F in V. exists (Middleware.without_password u'). split.
    + apply (auth_passes_helper (verify t) _ db'' W).
      exists (sign now (User._id u)), u'. rewrite I.
      repeat split; auto; rewrite Hid; auto.
    + cbn. auto.
  - intros F. rewrite F in V. unfold Middleware.auth. rewrite T.
    unfold JsString.truthy. rewrite Hid.
    apply String.eqb_neq in Ne. rewrite Ne. cbn [negb]. now rewrite V.
Qed.

(** ** The profile *)

Lemma findOneAndUpdate_unique {A} (g : A -> ObjectId) (upd : A -> A)
      (l : list A) (x : A) :
  NoDup (map g l) -> In x l ->
  Store.findOneAndUpdate (fun y => (g y =? g x)%nat) upd l
  = (Some (upd x), map (fun y => if (g y =? g x)%nat then upd y else y) l).
Proof.
  induction l as [|a l IH]; simpl; intros N Hx; [destruct Hx|].
  inversion N as [|? ? Hn Hl]; subst.
  destruct Hx as [->|Hx].
  - rewrite Nat.eqb_refl. f_equal. f_equal.
    transitivity (map (fun y => y) l); [now rewrite map_id|].
    apply map_ext_in. intros y Hy.
    destruct (Nat.eqb_spec (g y) (g x)) as [E|E]; [|reflexivity].
    exfalso. apply Hn. rewrite <- E. now apply in_map.
  - destruct (Nat.eqb_spec (g a) (g x)) as [E|E].
    + exfalso. apply Hn. rewrite E. now apply in_map.
    + now rewrite (IH Hl Hx).
Qed.

(** X10: PUT /api/auth/profile changes the full name, the budget and
    the currency that the body gives, and nothing else of the user or of
    the store; the identifier, the user name, the address and the
    password stay.  An empty full name and a budget that is no number
    are refused with 400, a full name of blanks with 500; a negative
    budget is accepted. *)
Theorem profile_update (caller : User.t) (b : ProfileBody.t) (db : Db) :
  Invariant.wf db = true -> In caller (users db) ->
  let r := Session.updateProfile caller b db in
  (ProfileBody.fullName b = Some "" \/ ProfileBody.monthlyBudget b = AmountNaN ->
   Reply.status (fst r) = 400 /\ snd r = db)
  /\ (forall s, ProfileBody.fullName b = Some s -> s <> "" -> JsString.trim s = "" ->
                ProfileBody.monthlyBudget b <> AmountNaN ->
                fst r = Reply.mk 500 false (Session.Message "Server error")
                /\ snd r = db)
  /\ (match ProfileBody.fullName b with
      | Some s => JsString.trim s <> ""
      | None => True
      end ->
      ProfileBody.monthlyBudget b <> AmountNaN ->
      let updated :=
        User.mk (User._id caller) (User.username caller) (User.email caller)
          (User.password caller)
          (match ProfileBody.fullName b with
           | Some s => JsString.trim s
           | None => User.fullName caller
           end)
          (match ProfileBody.monthlyBudget b with
           | AmountNumber z => z
           | _ => User.monthlyBudget caller
           end)
          (match ProfileBody.currency b with
           | Some s => if (s =? "")%string then User.currency caller else s
           | None => User.currency caller
           end) in
      fst r = Reply.mk 200 true
                (Session.ProfileSaved "Profile updated successfully"
                   (Some (Middleware.without_password updated)))
      /\ users (snd r)
         = map (fun u => if (User._id u =? User._id caller)%nat then updated else u)
             (users db)
      /\ categories (snd r) = categories db
      /\ expenses (snd r) = expenses db
      /\ Session.getProfile updated
         = Reply.mk 200 true (Session.Profile (Auth.view updated))).
Proof.
  intros Hwf Hc r. apply wf_spec in Hwf. destruct Hwf as (NU & _).
  split; [|split].
  - unfold r, Session.updateProfile. intros [E|E]; rewrite E.
    + destruct (ProfileBody.monthlyBudget b); cbn; auto.
    + destruct (ProfileBody.fullName b) as [s|];
        [destruct (Validator.notEmpty (Some s))|]; cbn; auto.
  - unfold r, Session.updateProfile. intros s E Hs Ht Hb. rewrite E.
    assert (V : Validator.notEmpty (Some s) = true).
    { unfold Validator.notEmpty. cbn [Validator.toString].
      apply negb_true_iff. now apply String.eqb_neq. }
    rewrite V.
    assert (B : match ProfileBody.monthlyBudget b with
                | AmountUndefined => true
                | a => Validator.isNumeric a
                end = true)
      by (destruct (ProfileBody.monthlyBudget b); [reflexivity|reflexivity|congruence]).
    rewrite B. cbn [Validator.rule app Validator.isEmpty negb].
    unfold Session.update_valid, Session.updated_fullName. rewrite E.
    unfold JsString.truthy. apply String.eqb_neq in Hs. rewrite Hs. cbn [negb].
    unfold Schema.required_string. rewrite Ht. cbn. auto.
  - intros Hn Hb updated. unfold r, Session.updateProfile.
    assert (V : match ProfileBody.fullName b with
                | Some _ => Validator.notEmpty (ProfileBody.fullName b)
                | None => true
                end = true).
    { destruct (ProfileBody.fullName b) as [s|]; [|reflexivity].
      unfold Validator.notEmpty. cbn [Validator.toString].
      apply negb_true_iff, String.eqb_neq. intros ->. now apply Hn. }
    rewrite V.
    assert (B : match ProfileBody.monthlyBudget b with
                | AmountUndefined => true
                | a => Validator.isNumeric a
                end = true)
      by (destruct (ProfileBody.monthlyBudget b); [reflexivity|reflexivity|congruence]).
    rewrite B. cbn [Validator.rule app Validator.isEmpty negb].
    assert (F : Session.updated_fullName b = ProfileBody.fullName b).
    { unfold Session.updated_fullName.
      destruct (ProfileBody.fullName b) as [s|]; [|reflexivity].
      unfold JsString.truthy.
      destruct (String.eqb_spec s "") as [->|_]; [now exfalso; apply Hn|reflexivity]. }
    assert (U : Session.update_valid b = true).
    { unfold Session.update_valid. rewrite F.
      apply andb_true_iff. split.
      - destruct (ProfileBody.fullName b) as [s|]; [|reflexivity].
        unfold Schema.required_string. apply negb_true_iff. now apply String.eqb_neq.
      - destruct (ProfileBody.monthlyBudget b); [reflexivity|reflexivity|congruence]. }
    rewrite U.
    assert (A : Session.apply_update b caller = updated).
    { unfold Session.apply_update, updated. rewrite F. f_equal.
      unfold Session.updated_currency, JsString.truthy.
      destruct (ProfileBody.currency b) as [s|]; [|reflexivity].
      destruct (s =? "")%string; reflexivity. }
    rewrite (findOneAndUpdate_unique User._id (Session.apply_update b)
               (users db) caller NU Hc).
    cbn [fst snd set_users users categories expenses]. rewrite A.
    repeat split.
    apply map_ext_in. intros u Hu.
    destruct (Nat.eqb_spec (User._id u) (User._id caller)) as [E|E]; [|reflexivity].
    assert (u = caller) by (apply (NoDup_map_unique User._id (users db)); auto).
    subst u. exact A.
Qed.

Lemma insertMany_caller (u v : User.t) (now : Z) (docs : list ExpenseBody.t) (db : Db) :
  User._id u = User._id v ->
  TestRoutes.insertMany u now docs db = TestRoutes.insertMany v now docs db.
Proof.
  intros E. revert db. induction docs as [|b docs IH]; intros db; [reflexivity|].
  cbn [TestRoutes.insertMany]. destruct (ExpenseBody.category b) as [cid|]; [|reflexivity].
  try unfold Expenses.new_expense; unfold Expenses.create. rewrite E.
  destruct (Schema.required_string _); [|reflexivity].
  destruct (Schema.amount_valid _); [|reflexivity].
  destruct (Schema.paymentMethod_valid _); [|reflexivity]. apply IH.
Qed.

(** X11: no route reads the password of [req.user]: every request is
    answered, and changes the store, in the same way for the user the
    middleware hands over, whose password is left out, as for the stored
    user. *)
Theorem handle_without_password
        (tz : Z) (regex_i : string -> string -> bool)
        (caller : User.t) (now : Z) (r : Request) (b : ProfileBody.t) (db : Db) :
  handle tz regex_i (Middleware.without_password caller) now r db
  = handle tz regex_i caller now r db
  /\ Session.updateProfile (Middleware.without_password caller) b db
     = Session.updateProfile caller b db
  /\ TestRoutes.seedData (Middleware.without_password caller) now db
     = TestRoutes.seedData caller now db
  /\ TestRoutes.clearData (Middleware.without_password caller) db
     = TestRoutes.clearData caller db
  /\ TestRoutes.stats (Middleware.without_password caller) db
     = TestRoutes.stats caller db
  /\ Session.getProfile (Middleware.without_password caller)
     = Session.getProfile caller.
Proof.
  split; [destruct caller, r; reflexivity|].
  split; [destruct caller; reflexivity|].
  split; [|destruct caller; repeat split].
  unfold TestRoutes.seedData.
  change (User._id (Middleware.without_password caller)) with (User._id caller).
  destruct (List.length _ =? 0)%nat; [reflexivity|].
  destruct (TestRoutes.all_some _) as [docs|]; [|reflexivity].
  rewrite (insertMany_caller (Middleware.without_password caller) caller)
    by reflexivity.
  reflexivity.
Qed.
(** ** utils/helpers.js *)

Lemma month_start_prev (y m : Z) :
  1 <= m <= 12 ->
  JsDate.days_from_civil y (m - 1) 1 < JsDate.days_from_civil y m 1.
Proof.
  intros H.
  assert (C : m = 1 \/ m = 2 \/ m = 3 \/ m = 4 \/ m = 5 \/ m = 6 \/ m = 7 \/ m = 8
              \/ m = 9 \/ m = 10 \/ m = 11 \/ m = 12) by lia.
  unfold JsDate.days_from_civil.
  repeat (destruct C as [->|C]; [cbn; Z.to_euclidean_division_equations; lia|]).
  subst m. cbn. Z.to_euclidean_division_equations; lia.
Qed.

Lemma month_after_december (y d : Z) :
  JsDate.days_from_civil y 13 d = JsDate.days_from_civil (y + 1) 1 d.
Proof.
  unfold JsDate.days_from_civil. cbn. replace (y + 1 - 1) with y by lia. reflexivity.
Qed.

(** X13: every range of [getDateRanges] that is named after the
    present holds the present: now is in today, in this week (seven
    days from a Sunday), in this month and in this year; last month ends
    where this month begins and is not empty; the last thirty days end
    now.  (The server's zone is a fixed offset, and the years -1 to 99,
    which [new Date] reads as 1900 to 1999, are left out.) *)
Theorem date_ranges (tz now : Z) :
  ~ -1 <= JsDate.getFullYear tz now <= 99 ->
  let r := Helpers.getDateRanges tz now in
  let day := JsDate.msPerDay in
  (Helpers.range_start (Helpers.today r) <= now < Helpers.range_end (Helpers.today r)
   /\ Helpers.range_end (Helpers.today r) = Helpers.range_start (Helpers.today r) + day)
  /\ (Helpers.range_start (Helpers.thisWeek r) <= now
      < Helpers.range_end (Helpers.thisWeek r)
      /\ Helpers.range_end (Helpers.thisWeek r)
         = Helpers.range_start (Helpers.thisWeek r) + 7 * day
      /\ Helpers.getDay tz (Helpers.range_start (Helpers.thisWeek r)) = 0)
  /\ (Helpers.range_start (Helpers.thisMonth r) <= now
      < Helpers.range_end (Helpers.thisMonth r)
      /\ JsDate.getDate tz (Helpers.range_start (Helpers.thisMonth r)) = 1)
  /\ Helpers.range_start (Helpers.thisYear r) <= now
     < Helpers.range_end (Helpers.thisYear r)
  /\ (Helpers.range_end (Helpers.lastMonth r)
      = Helpers.range_start (Helpers.thisMonth r)
      /\ Helpers.range_start (Helpers.lastMonth r)
         < Helpers.range_end (Helpers.lastMonth r))
  /\ Helpers.range_start (Helpers.thisYear r)
     <= Helpers.range_start (Helpers.thisMonth r)
     <= Helpers.range_start (Helpers.today r)
  /\ (Helpers.range_end (Helpers.last30Days r) = now
      /\ Helpers.range_start (Helpers.last30Days r) = now - 30 * day).
Proof.
  intros Hy r day.
  unfold r, Helpers.getDateRanges, Helpers.getDay.
  cbn [Helpers.today Helpers.thisWeek Helpers.thisMonth Helpers.thisYear
       Helpers.lastMonth Helpers.last30Days Helpers.range_start Helpers.range_end].
  unfold JsDate.getFullYear, JsDate.getMonth, JsDate.getDate in *.
  set (L := JsDate.localTime tz now) in *.
  set (z := L / JsDate.msPerDay) in *.
  pose proof (civil_year_bounds z) as Y.
  pose proof (month_next z) as Nx.
  pose proof (fun d' => civil_roundtrip z d') as R.
  destruct (JsDate.civil_from_days z) as [[y m] d] eqn:C.
  cbv zeta in Y.
  destruct (R 1) as (_ & Hm & Hd).
  assert (Q : forall mi dd, ~ -1 <= y <= 99 ->
                JsDate.Date_of tz y mi dd
                = JsDate.days_from_civil y (mi + 1) dd * JsDate.msPerDay
                  - tz * JsDate.msPerMinute).
  { intros mi dd Hq. unfold JsDate.Date_of.
    replace ((0 <=? y) && (y <=? 99)) with false; [reflexivity|].
    symmetry. apply andb_false_iff. rewrite !Z.leb_gt. lia. }
  assert (Q1 : JsDate.Date_of tz (y + 1) 0 1
               = JsDate.jan1 (y + 1) * JsDate.msPerDay - tz * JsDate.msPerMinute).
  { unfold JsDate.Date_of.
    replace ((0 <=? y + 1) && (y + 1 <=? 99)) with false.
    - now rewrite days_from_civil_jan1.
    - symmetry. apply andb_false_iff. rewrite !Z.leb_gt. lia. }
  rewrite !Q, Q1 by exact Hy.
  replace (m - 1 + 1) with m by lia. replace (m - 1 + 1 + 1) with (m + 1) by lia.
  replace (m - 1 - 1 + 1) with (m - 1) by lia. replace (0 + 1) with 1 by lia.
  rewrite days_from_civil_jan1.
  pose proof (R d) as (Rd & _). pose proof (R (d + 1)) as (Rd1 & _).
  pose proof (R 1) as (R1 & _).
  pose proof (R (d - (z + 4) mod 7)) as (Rw & _).
  pose proof (R (d - (z + 4) mod 7 + 7)) as (Rw7 & _).
  rewrite Rd, Rd1, R1, Rw, Rw7.
  pose proof (month_start_prev y m Hm) as Pv. rewrite R1 in Pv.
  assert (Hnext : z < JsDate.days_from_civil y (m + 1) 1).
  { destruct (Z.eq_dec m 12) as [->|Hne]; [|apply Nx; lia].
    change (12 + 1) with 13. rewrite month_after_december, days_from_civil_jan1. lia. }
  pose proof (Z.div_mod L JsDate.msPerDay ltac:(unfold JsDate.msPerDay; lia)) as DM.
  pose proof (Z.mod_pos_bound L JsDate.msPerDay ltac:(unfold JsDate.msPerDay; lia)) as MB.
  fold z in DM.
  pose proof (Z.mod_pos_bound (z + 4) 7 ltac:(lia)) as W.
  assert (HL : L = now + tz * JsDate.msPerMinute) by reflexivity.
  unfold day.
  assert (G1 : JsDate.civil_from_days
                 (JsDate.localTime tz
                    ((z - d + 1) * JsDate.msPerDay - tz * JsDate.msPerMinute)
                  / JsDate.msPerDay)
               = JsDate.civil_from_days (z - d + 1)).
  { f_equal. unfold JsDate.localTime.
    replace ((z - d + 1) * JsDate.msPerDay - tz * JsDate.msPerMinute
             + tz * JsDate.msPerMinute)
      with ((z - d + 1) * JsDate.msPerDay) by lia.
    apply Z.div_mul. unfold JsDate.msPerDay. lia. }
  assert (G2 : let '(_, _, d1) := JsDate.civil_from_days (z - d + 1) in d1 = 1).
  { pose proof (civil_roundtrip (z - d + 1) 1) as R'.
    pose proof (civil_year_bounds (z - d + 1)) as Y'.
    pose proof (month_next (z - d + 1)) as Nx'.
    destruct (JsDate.civil_from_days (z - d + 1)) as [[y' m'] d'] eqn:C'.
    cbv zeta in Y'. destruct R' as (R' & Hm' & Hd').
    (* the first of the month of [z] is a day of the same year and month *)
    assert (Ey : y' = y).
    { destruct (Z.lt_trichotomy y' y) as [Lt|[Eq|Gt]]; [|exact Eq|].
      - pose proof (jan1_mono (y' + 1) y ltac:(lia)).
        pose proof (month_start_mono y 1 m ltac:(lia) ltac:(lia) ltac:(lia)) as Mm.
        rewrite days_from_civil_jan1, R1 in Mm. lia.
      - pose proof (jan1_mono (y + 1) y' ltac:(lia)). lia. }
    subst y'.
    assert (Em : m' = m).
    { destruct (Z.lt_trichotomy m' m) as [Lt|[Eq|Gt]]; [|exact Eq|].
      - specialize (Nx' ltac:(lia)).
        pose proof (month_start_mono y (m' + 1) m ltac:(lia) ltac:(lia) ltac:(lia)) as Mm.
        rewrite R1 in Mm. lia.
      - pose proof (month_start_mono y (m + 1) m' ltac:(lia) ltac:(lia) ltac:(lia)) as Mm.
        rewrite R' in Mm. lia. }
    subst m'. rewrite R1 in R'. lia. }
  rewrite G1. destruct (JsDate.civil_from_days (z - d + 1)) as [[y1 m1] d1].
  assert (G3 : (JsDate.localTime tz
                  ((z - d + (d - (z + 4) mod 7)) * JsDate.msPerDay
                   - tz * JsDate.msPerMinute) / JsDate.msPerDay + 4) mod 7 = 0).
  { unfold JsDate.localTime.
    replace ((z - d + (d - (z + 4) mod 7)) * JsDate.msPerDay - tz * JsDate.msPerMinute
             + tz * JsDate.msPerMinute)
      with ((z - (z + 4) mod 7) * JsDate.msPerDay) by lia.
    rewrite Z.div_mul by (unfold JsDate.msPerDay; lia).
    replace (z - (z + 4) mod 7 + 4) with (z + 4 - (z + 4) mod 7) by lia.
    pose proof (Z.div_mod (z + 4) 7 ltac:(lia)) as D7.
    replace (z + 4 - (z + 4) mod 7) with (((z + 4) / 7) * 7) by lia.
    apply Z.mod_mul. lia. }
  rewrite G3.
  pose proof (month_start_mono y 1 m ltac:(lia) ltac:(lia) ltac:(lia)) as M1.
  rewrite days_from_civil_jan1, R1 in M1.
  unfold JsDate.msPerDay in *. repeat split; try lia.
Qed.
(** ** middleware/error-handler.js *)

(** X14: the error handler never answers with an empty message nor with
    success.  A validation error is answered 400 with the messages of
    its fields joined by a comma, a cast error or a duplicate key 400, a
    token error 401, whatever status the error carries; the later test
    wins when two apply, so a cast error with the duplicate-key code is
    reported as a duplicate.  Any other error is answered with its own
    status and message, 500 and "Server Error" when it has none. *)
Theorem error_handler_answer (development : bool) (err : ErrorHandler.Err) :
  let a := ErrorHandler.errorHandler development err in
  let name := ErrorHandler.name err in
  let duplicate := ErrorHandler.code_is 11000 (ErrorHandler.code err) in
  ErrorHandler.answer_success a = false
  /\ ErrorHandler.answer_message a <> ""
  /\ ErrorHandler.answer_stack a
     = (if development then Some (ErrorHandler.stack err) else None)
  /\ (name = "JsonWebTokenError" ->
      ErrorHandler.answer_status a = 401
      /\ ErrorHandler.answer_message a = "Invalid token")
  /\ (name = "TokenExpiredError" ->
      ErrorHandler.answer_status a = 401
      /\ ErrorHandler.answer_message a = "Token expired")
  /\ (name = "ValidationError" ->
      ErrorHandler.answer_status a = 400
      /\ (ErrorHandler.join ", " (ErrorHandler.errors err) <> "" ->
          ErrorHandler.answer_message a
          = ErrorHandler.join ", " (ErrorHandler.errors err)))
  /\ (name = "CastError" ->
      ErrorHandler.answer_status a = 400
      /\ ErrorHandler.answer_message a
         = (if duplicate then "Duplicate field value entered"
            else "Invalid ID format"))
  /\ (name <> "JsonWebTokenError" -> name <> "TokenExpiredError" ->
      name <> "ValidationError" -> duplicate = true ->
      ErrorHandler.answer_status a = 400
      /\ ErrorHandler.answer_message a = "Duplicate field value entered")
  /\ (name <> "JsonWebTokenError" -> name <> "TokenExpiredError" ->
      name <> "ValidationError" -> name <> "CastError" -> duplicate = false ->
      ErrorHandler.answer_status a
      = match ErrorHandler.statusCode err with
        | Some s => if s =? 0 then 500 else s
        | None => 500
        end
      /\ ErrorHandler.answer_message a
         = (if (ErrorHandler.message err =? "")%string then "Server Error"
            else ErrorHandler.message err)).
Proof.
  intros a name duplicate. unfold a, ErrorHandler.errorHandler.
  fold name duplicate.
  cbn [ErrorHandler.answer_success ErrorHandler.answer_message
       ErrorHandler.answer_stack ErrorHandler.answer_status].
  split; [reflexivity|]. split.
  - unfold JsString.truthy.
    match goal with |- context [negb (?s =? "")%string] =>
      destruct (String.eqb_spec s "") as [E|E]; cbn [negb]; [discriminate|exact E]
    end.
  - split; [reflexivity|].
    split; [|split; [|split; [|split; [|split]]]].
    + intros ->. cbn. split; reflexivity.
    + intros ->. cbn. split; reflexivity.
    + intros ->. cbn. split; [reflexivity|]. intros H. unfold JsString.truthy.
      apply String.eqb_neq in H. now rewrite H.
    + intros ->. cbn. destruct duplicate; split; reflexivity.
    + intros N1 N2 N3 D. apply String.eqb_neq in N1, N2, N3.
      rewrite N1, N2, N3, D. destruct (name =? "CastError")%string; split; reflexivity.
    + intros N1 N2 N3 N4 D. apply String.eqb_neq in N1, N2, N3, N4.
      rewrite N1, N2, N3, N4, D. cbn [fst snd]. split; [reflexivity|].
      unfold JsString.truthy.
      destruct (ErrorHandler.message err =? "")%string; reflexivity.
Qed.
(** ** routes/test.js *)

Lemma category_for_some (cs : list Category.t) (name : string) (k : nat) :
  (k < List.length cs)%nat ->
  exists cid, TestRoutes.category_for cs name k = Some cid.
Proof.
  intros H. unfold TestRoutes.category_for.
  destruct (find _ cs) as [c|]; [eauto|].
  destruct (nth_error cs k) as [c|] eqn:N; [cbn; eauto|].
  apply nth_error_None in N. lia.
Qed.

(** The schema accepts every sample expense. *)
Lemma sample_expense_created (caller : User.t) (now : Z) (id cid : ObjectId)
      (s : TestRoutes.SampleExpense) :
  In s TestRoutes.sampleExpenses ->
  Expenses.create caller now id cid
    (now - TestRoutes.daysAgo s * 24 * 60 * 60 * 1000)
    (ExpenseBody.mk (Some (TestRoutes.sample_title s))
       (AmountNumber (TestRoutes.sample_amount s))
       (Some (TestRoutes.sample_description s)) (Some cid)
       (Some (now - TestRoutes.daysAgo s * 24 * 60 * 60 * 1000))
       (Some (TestRoutes.sample_paymentMethod s)) None)
  = Some (Expense.mk id (TestRoutes.sample_title s) (TestRoutes.sample_amount s)
            (Some (TestRoutes.sample_description s)) cid (User._id caller)
            (now - TestRoutes.daysAgo s * 24 * 60 * 60 * 1000)
            (TestRoutes.sample_paymentMethod s) [] None now now).
Proof.
  intros H. cbn [TestRoutes.sampleExpenses In] in H.
  repeat (destruct H as [<-|H]; [reflexivity|]). destruct H.
Qed.

Lemma seed_docs (own : list Category.t) (now : Z) :
  (5 <= List.length own)%nat ->
  exists docs,
    TestRoutes.all_some (map (TestRoutes.body_of own now) TestRoutes.sampleExpenses)
    = Some docs
    /\ Forall2 (fun s b => TestRoutes.body_of own now s = Some b)
         TestRoutes.sampleExpenses docs.
Proof.
  intros H.
  assert (K : forall s, In s TestRoutes.sampleExpenses ->
                exists b, TestRoutes.body_of own now s = Some b).
  { intros s Hs. unfold TestRoutes.body_of.
    destruct (category_for_some own (TestRoutes.wanted s) (TestRoutes.fallback s))
      as (cid & ->); [|cbn; eauto].
    cbn [TestRoutes.sampleExpenses In] in Hs.
    repeat (destruct Hs as [<-|Hs]; [cbn; lia|]). destruct Hs. }
  revert K. generalize TestRoutes.sampleExpenses as l.
  induction l as [|s l IH]; intros K; cbn [map TestRoutes.all_some].
  - exists []. split; [reflexivity|constructor].
  - destruct (K s (or_introl eq_refl)) as (b & Hb). rewrite Hb.
    destruct IH as (docs & -> & F); [intros x Hx; apply K; now right|].
    exists (b :: docs). split; [reflexivity|]. now constructor.
Qed.

Lemma insertMany_sample (caller : User.t) (now : Z) (own : list Category.t)
      (l : list TestRoutes.SampleExpense) (docs : list ExpenseBody.t) (db : Db) :
  (forall s, In s l -> In s TestRoutes.sampleExpenses) ->
  Forall2 (fun s b => TestRoutes.body_of own now s = Some b) l docs ->
  exists new,
    TestRoutes.insertMany caller now docs db
    = Some (mkDb (users db) (categories db) (expenses db ++ new)
              (nextId db + List.length l)%nat)
    /\ Forall2 (fun s e =>
                  Expense.title e = TestRoutes.sample_title s
                  /\ Expense.amount e = TestRoutes.sample_amount s
                  /\ Expense.description e = Some (TestRoutes.sample_description s)
                  /\ Some (Expense.category e)
                     = TestRoutes.category_for own (TestRoutes.wanted s)
                         (TestRoutes.fallback s)
                  /\ Expense.userId e = User._id caller
                  /\ Expense.date e = now - TestRoutes.daysAgo s * 24 * 60 * 60 * 1000
                  /\ Expense.paymentMethod e = TestRoutes.sample_paymentMethod s)
         l new
    /\ map Expense._id new = seq (nextId db) (List.length l).
Proof.
  intros Hl F. revert db. induction F as [|s b l docs Hb _ IH]; intros db.
  - exists []. cbn. rewrite app_nil_r, Nat.add_0_r. repeat split; [|constructor].
    now destruct db.
  - unfold TestRoutes.body_of in Hb.
    destruct (TestRoutes.category_for own _ _) as [cid|] eqn:K; [|discriminate].
    cbn [option_map] in Hb. injection Hb as <-.
    cbn [TestRoutes.insertMany ExpenseBody.category ExpenseBody.date
         Expenses.default].
    rewrite (sample_expense_created caller now (nextId db) cid s)
      by (apply Hl; now left).
    destruct (IH (fun x Hx => Hl x (or_intror Hx))
                 (insert_expense db
                    (Expense.mk (nextId db) (TestRoutes.sample_title s)
                       (TestRoutes.sample_amount s)
                       (Some (TestRoutes.sample_description s)) cid (User._id caller)
                       (now - TestRoutes.daysAgo s * 24 * 60 * 60 * 1000)
                       (TestRoutes.sample_paymentMethod s) [] None now now)))
      as (new & -> & F' & Ids).
    eexists (_ :: new). cbn [insert_expense users categories expenses nextId] in *.
    split; [|split].
    + rewrite <- app_assoc. cbn [app List.length]. do 2 f_equal. lia.
    + constructor; [|exact F']. cbn. rewrite K. repeat split.
    + cbn [map List.length seq Expense._id]. now rewrite Ids.
Qed.

(** X15: POST /api/test/seed-data writes all of its five sample
    expenses or nothing.  For a caller with no category it answers 400;
    for a caller with five categories or more, as every registered user
    has, it answers 200 with count 5 and appends the five expenses, owned
    by the caller, each in the caller's category of the wanted name or,
    failing that, in the caller's category at the sample's position. *)
Theorem seed_data
        (tz : Z) (regex_i : string -> string -> bool) (isEmail : string -> bool)
        (hash : string -> string) (sign : ObjectId -> string)
        (caller : User.t) (now : Z) (db : Db) :
  let own := filter (Categories.owned_by (User._id caller)) (categories db) in
  let r := TestRoutes.seedData caller now db in
  (own = [] ->
   r = (Reply.mk 400 false
          (TestRoutes.Message "No categories found. Please create categories first."),
        db))
  /\ (snd r = db
      \/ List.length (expenses (snd r)) = (List.length (expenses db) + 5)%nat)
  /\ ((5 <= List.length own)%nat ->
      exists new,
        r = (Reply.mk 200 true
               (TestRoutes.Seeded "Sample data created successfully" 5),
             mkDb (users db) (categories db) (expenses db ++ new)
               (nextId db + 5)%nat)
        /\ map Expense.title new
           = ["Grocery Shopping"; "Uber Ride"; "Movie Tickets"; "Electricity Bill";
              "Online Shopping"]
        /\ map Expense.amount new = [2500; 450; 800; 1200; 3200]
        /\ map Expense.date new
           = map (fun n => now - n * 24 * 60 * 60 * 1000) [2; 1; 3; 5; 7]
        /\ map (fun e => Some (Expense.category e)) new
           = map (fun s => TestRoutes.category_for own (TestRoutes.wanted s)
                             (TestRoutes.fallback s))
               TestRoutes.sampleExpenses
        /\ Forall (fun e => Expense.userId e = User._id caller
                            /\ exists c, In c (categories db)
                                 /\ Category._id c = Expense.category e
                                 /\ Category.userId c = User._id caller) new)
  /\ (served tz regex_i isEmail hash sign db -> In caller (users db) ->
      Reply.status (fst r) = 200).
Proof.
  intros own r.
  assert (Ok : (5 <= List.length own)%nat ->
               exists new,
                 r = (Reply.mk 200 true
                        (TestRoutes.Seeded "Sample data created successfully" 5),
                      mkDb (users db) (categories db) (expenses db ++ new)
                        (nextId db + 5)%nat)
                 /\ Forall2 (fun s e =>
                      Expense.title e = TestRoutes.sample_title s
                      /\ Expense.amount e = TestRoutes.sample_amount s
                      /\ Expense.description e = Some (TestRoutes.sample_description s)
                      /\ Some (Expense.category e)
                         = TestRoutes.category_for own (TestRoutes.wanted s)
                             (TestRoutes.fallback s)
                      /\ Expense.userId e = User._id caller
                      /\ Expense.date e
                         = now - TestRoutes.daysAgo s * 24 * 60 * 60 * 1000
                      /\ Expense.paymentMethod e = TestRoutes.sample_paymentMethod s)
                      TestRoutes.sampleExpenses new).
  { intros H5. destruct (seed_docs own now H5) as (docs & A & F).
    destruct (insertMany_sample caller now own _ docs db (fun s Hs => Hs) F)
      as (new & I & F' & _).
    exists new. split; [|exact F'].
    unfold r, TestRoutes.seedData. fold own.
    replace (List.length own =? 0)%nat with false
      by (symmetry; apply Nat.eqb_neq; lia).
    rewrite A, I. reflexivity. }
  split; [|split; [|split]].
  - intros E. unfold r, TestRoutes.seedData. fold own. now rewrite E.
  - destruct (seedData_effect caller now db)
      as [[E _]|(docs & new & _ & _ & _ & E & _ & Ids)]; [now left|right].
    fold r in E. rewrite E. cbn [expenses]. rewrite length_app.
    rewrite <- (length_map Expense._id new), Ids, length_seq. reflexivity.
  - intros H5. destruct (Ok H5) as (new & Er & F). exists new.
    split; [exact Er|].
    assert (L : exists e1 e2 e3 e4 e5, new = [e1; e2; e3; e4; e5]).
    { apply Forall2_length in F. cbn in F.
      do 5 (destruct new as [|? new]; [discriminate|]).
      destruct new; [eauto 6|discriminate]. }
    destruct L as (e1 & e2 & e3 & e4 & e5 & ->).
    unfold TestRoutes.sampleExpenses in F.
    repeat match goal with
           | H : Forall2 _ (_ :: _) (_ :: _) |- _ =>
               inversion H as [|? ? ? ? ?P ?F']; subst; clear H
           end.
    repeat match goal with
           | H : _ /\ _ |- _ => destruct H
           end.
    cbn [TestRoutes.sample_title TestRoutes.sample_amount TestRoutes.daysAgo
         TestRoutes.wanted TestRoutes.fallback] in *.
    unfold TestRoutes.sampleExpenses.
    cbn [map TestRoutes.wanted TestRoutes.fallback].
    repeat split; try congruence.
    repeat constructor; try assumption;
      match goal with
      | H : Some (Expense.category ?e) = TestRoutes.category_for own ?n ?k
        |- exists c, _ /\ _ = Expense.category ?e /\ _ =>
          symmetry in H; apply category_for_owned in H;
          destruct H as (c & Hc & Hid); apply filter_In in Hc;
          destruct Hc as [Hc Ho]; apply Nat.eqb_eq in Ho; exists c; auto
      end.
  - intros Hs Hc.
    destruct (served_kept _ _ _ _ _ _ Hs) as (_ & _ & _ & _ & D).
    specialize (D caller Hc).
    assert (H5 : (5 <= List.length own)%nat).
    { unfold own. unfold Kept.defaults_of in D.
      assert (8 <= List.length (filter (Categories.owned_by (User._id caller))
                                  (categories db)))%nat; [|lia].
      rewrite <- D. clear. induction (categories db) as [|c l IH]; simpl; [lia|].
      destruct (Categories.owned_by (User._id caller) c); simpl;
        [destruct (Category.isDefault c); simpl; lia|exact IH]. }
    destruct (Ok H5) as (new & -> & _). reflexivity.
Qed.
(** X16: DELETE /api/test/clear-data leaves the caller without any
    expense and with the default categories only, and leaves the users
    and the documents of every other user as they are; no expense that
    remains names a category that was removed; clearing twice is
    clearing once. *)
Theorem clear_data (caller : User.t) (db : Db) :
  Invariant.wf db = true ->
  let db' := snd (TestRoutes.clearData caller db) in
  fst (TestRoutes.clearData caller db)
  = Reply.mk 200 true (TestRoutes.Message "All user data cleared successfully")
  /\ users db' = users db
  /\ filter (Expenses.owned_by (User._id caller)) (expenses db') = []
  /\ filter (Categories.owned_by (User._id caller)) (categories db')
     = filter (fun c => Categories.owned_by (User._id caller) c
                        && Category.isDefault c) (categories db)
  /\ (forall u, u <> User._id caller ->
        filter (Expenses.owned_by u) (expenses db')
        = filter (Expenses.owned_by u) (expenses db)
        /\ filter (Categories.owned_by u) (categories db')
           = filter (Categories.owned_by u) (categories db))
  /\ (forall e c, In e (expenses db') -> In c (categories db) ->
                  Category._id c = Expense.category e -> In c (categories db'))
  /\ snd (TestRoutes.clearData caller db') = db'.
Proof.
  intros Hwf db'. unfold db'.
  cbn [TestRoutes.clearData fst snd users categories expenses nextId].
  split; [reflexivity|]. split; [reflexivity|].
  split; [|split; [|split; [|split]]].
  - rewrite filter_filter. apply filter_none. intros e _.
    destruct (Expenses.owned_by (User._id caller) e); reflexivity.
  - rewrite filter_filter. apply filter_ext. intros c.
    destruct (Categories.owned_by (User._id caller) c), (Category.isDefault c);
      reflexivity.
  - intros u Hu. split; rewrite filter_filter; apply filter_ext; intros x.
    + unfold Expenses.owned_by.
      destruct (Nat.eqb_spec (Expense.userId x) (User._id caller)) as [E|E];
        [|reflexivity].
      rewrite E. replace (User._id caller =? u)%nat with false; [reflexivity|].
      symmetry. apply Nat.eqb_neq. congruence.
    + unfold Categories.owned_by.
      destruct (Nat.eqb_spec (Category.userId x) (User._id caller)) as [E|E];
        [|reflexivity].
      rewrite E. replace (User._id caller =? u)%nat with false;
        [now rewrite andb_false_r|].
      symmetry. apply Nat.eqb_neq. congruence.
  - intros e c He Hc E. apply filter_In in He. destruct He as [He Ho].
    apply filter_In. split; [exact Hc|].
    apply wf_spec in Hwf. destruct Hwf as (_ & _ & _ & _ & _ & _ & _ & _ & SO).
    pose proof (SO e c He Hc E) as Own.
    unfold Categories.owned_by, Expenses.owned_by in *. rewrite Own.
    apply negb_true_iff in Ho. now rewrite Ho.
  - f_equal; rewrite filter_filter; apply filter_ext; intros x;
      now rewrite andb_diag.
Qed.

(** X17: GET /api/test/stats counts what the list routes show: the
    caller's categories as GET /api/categories lists them, the caller's
    expenses as the [total] of GET /api/expenses without a filter, and
    all users.  After clear-data the caller's expenses count 0; a
    seed-data that answers 200 adds 5. *)
Theorem stats_counts
        (regex_i : string -> string -> bool) (caller : User.t) (now : Z) (db : Db) :
  exists listed page pages,
    TestRoutes.stats caller db
    = Reply.mk 200 true
        (TestRoutes.Stats (Store.size (users db)) (Store.size listed)
           (Store.size (filter (Expenses.owned_by (User._id caller)) (expenses db))))
    /\ Categories.get caller db = ok (Categories listed)
    /\ Expenses.getAll regex_i caller
         (ExpenseQuery.mk None None None None None None None None) db
       = ok (ExpensePage page pages 1
               (Store.size (filter (Expenses.owned_by (User._id caller))
                              (expenses db))))
    /\ TestRoutes.stats caller (snd (TestRoutes.clearData caller db))
       = Reply.mk 200 true
           (TestRoutes.Stats (Store.size (users db))
              (Store.size (filter (fun c => Categories.owned_by (User._id caller) c
                                            && Category.isDefault c) (categories db)))
              0)
    /\ (Reply.status (fst (TestRoutes.seedData caller now db)) = 200 ->
        TestRoutes.stats caller (snd (TestRoutes.seedData caller now db))
        = Reply.mk 200 true
            (TestRoutes.Stats (Store.size (users db)) (Store.size listed)
               (Store.size (filter (Expenses.owned_by (User._id caller))
                              (expenses db)) + 5))).
Proof.
  exists (Store.sort (fun x y => Category.createdAt y <=? Category.createdAt x)
            (filter (Categories.owned_by (User._id caller)) (categories db))).
  eexists. eexists. split; [|split; [reflexivity|split; [|split]]].
  - unfold TestRoutes.stats, Store.size. now rewrite sort_length.
  - unfold Expenses.getAll, Store.size.
    cbn [ExpenseQuery.page ExpenseQuery.limit ExpenseQuery.sortBy
         ExpenseQuery.sortOrder Expenses.default].
    cbn [Z.sub Z.mul Z.ltb Z.compare Z.pos_sub Z.opp Z.add].
    replace (filter (Expenses.matches regex_i caller
                       (ExpenseQuery.mk None None None None None None None None))
               (expenses db))
      with (filter (Expenses.owned_by (User._id caller)) (expenses db)).
    + reflexivity.
    + apply filter_ext. intros e. unfold Expenses.matches, Expenses.in_range,
        Expenses.found. cbn. now rewrite !andb_true_r.
  - unfold TestRoutes.stats.
    cbn [TestRoutes.clearData snd users categories expenses].
    rewrite !filter_filter.
    rewrite (filter_none (fun x => negb (Expenses.owned_by (User._id caller) x)
                                   && Expenses.owned_by (User._id caller) x))
      by (intros e _; destruct (Expenses.owned_by (User._id caller) e); reflexivity).
    rewrite (filter_ext _ (fun c => Categories.owned_by (User._id caller) c
                                    && Category.isDefault c)); [reflexivity|].
    intros c.
    destruct (Categories.owned_by (User._id caller) c), (Category.isDefault c);
      reflexivity.
  - intros H.
    destruct (seedData_effect caller now db)
      as [[_ N]|(docs & new & _ & _ & _ & E & F & Ids)]; [contradiction|].
    rewrite E. unfold TestRoutes.stats. cbn [users categories expenses].
    rewrite filter_app, (filter_all _ new).
    + unfold Store.size. rewrite sort_length, length_app.
      rewrite <- (length_map Expense._id new), Ids, length_seq.
      do 3 f_equal. lia.
    + intros e He. destruct (Forall2_In_r _ _ _ F e He) as (d & _ & cid & _ & N).
      apply create_fields in N. unfold Expenses.owned_by.
      destruct N as (_ & _ & -> & _). apply Nat.eqb_refl.
Qed.
(** ** Lists of categories and single expenses *)

Lemma StronglySorted_impl {A} (R R' : A -> A -> Prop) (l : list A) :
  (forall a b, R a b -> R' a b) -> StronglySorted R l -> StronglySorted R' l.
Proof.
  intros H. induction 1 as [|a l _ IH Ha]; constructor; [assumption|].
  rewrite Forall_forall in *. auto.
Qed.

(** X18: GET /api/categories lists the caller's categories, all of
    them and no other, the newest first. *)
Theorem categories_listed (user : User.t) (db : Db) :
  exists listed,
    Categories.get user db = ok (Categories listed)
    /\ Permutation listed
         (filter (Categories.owned_by (User._id user)) (categories db))
    /\ (forall c, In c listed <->
                  In c (categories db) /\ Category.userId c = User._id user)
    /\ StronglySorted (fun x y => Category.createdAt y <= Category.createdAt x) listed.
Proof.
  eexists. split; [reflexivity|]. split; [|split].
  - symmetry. apply sort_perm.
  - intros c. rewrite sort_In, filter_In. unfold Categories.owned_by.
    now rewrite Nat.eqb_eq.
  - apply (StronglySorted_impl
             (fun x y => (Category.createdAt y <=? Category.createdAt x) = true)).
    + intros a b. apply Z.leb_le.
    + apply sort_sorted.
      * intros x y. rewrite !Z.leb_le. lia.
      * intros x y z. rewrite !Z.leb_le. lia.
Qed.

Lemma findOne_fresh {A} (g : A -> ObjectId) (p : A -> bool) (l : list A) (x : A) :
  (forall y, In y l -> g y <> g x) -> p x = true ->
  Store.findOne (fun y => (g y =? g x)%nat && p y) (l ++ [x]) = Some x.
Proof.
  intros H Hp. apply findOne_last.
  - intros y Hy. apply andb_false_iff. left. apply Nat.eqb_neq. now apply H.
  - now rewrite Nat.eqb_refl.
Qed.

(** X19: an expense that POST /api/expenses has created is returned by
    GET /api/expenses/:id, to its owner, just as the creation returned
    it: with a fresh identifier, the caller for an owner and the
    category populated. *)
Theorem expense_create_then_get
        (user : User.t) (now : Z) (b : ExpenseBody.t) (db : Db)
        (e : Expense.populated) :
  Invariant.wf db = true ->
  fst (Expenses.post user now b db)
  = created (ExpenseSaved "Expense created successfully" e) ->
  let db' := snd (Expenses.post user now b db) in
  Expenses.get user (Expense._id (Expense.doc e)) db' = ok (ExpenseOne e)
  /\ expenses db' = expenses db ++ [Expense.doc e]
  /\ Expense._id (Expense.doc e) = nextId db
  /\ Expense.userId (Expense.doc e) = User._id user
  /\ ExpenseBody.category b = Some (Expense.category (Expense.doc e))
  /\ exists c, In c (categories db)
               /\ Category.userId c = User._id user
               /\ Expense.categoryDoc e = Some (Category.to_ref c).
Proof.
  intros Hwf. unfold Expenses.post.
  destruct (negb _); [discriminate|].
  destruct (ExpenseBody.category b) as [cid|]; [|discriminate].
  destruct (Expenses.categoryExists user cid db) as [c|] eqn:C; [|discriminate].
  destruct (Expenses.new_expense user now (nextId db) cid b) as [x|] eqn:N;
    [|discriminate].
  cbn [fst snd]. intros H. injection H as <-.
  destruct (new_expense_fields _ _ _ _ _ _ N) as (Hid & Hcat & Hown & _).
  cbn [Expense.doc populate]. split; [|split; [reflexivity|split; [exact Hid|]]].
  - unfold Expenses.get. cbn [insert_expense expenses].
    rewrite (findOne_fresh Expense._id
               (Expenses.owned_by (User._id user)) (expenses db) x).
    + reflexivity.
    + intros y Hy. pose proof (wf_expense_ids db Hwf) as B.
      rewrite Hid. intros E.
      apply wf_spec in Hwf. destruct Hwf as (_ & _ & _ & _ & _ & _ & BE & _).
      specialize (BE (Expense._id y) (in_map _ _ _ Hy)). lia.
    + unfold Expenses.owned_by. rewrite Hown. apply Nat.eqb_refl.
  - split; [exact Hown|]. split; [now rewrite Hcat|].
    apply categoryExists_some in C. destruct C as (Hc & Hcid & Ho).
    exists c. split; [exact Hc|]. split; [exact Ho|].
    cbn [populate Expense.categoryDoc insert_expense categories]. rewrite Hcat.
    apply wf_spec in Hwf. destruct Hwf as (_ & NC & _).
    rewrite <- Hcid.
    rewrite (findOne_unique Category._id (categories db) c NC Hc). reflexivity.
Qed.
Lemma findOneAndDelete_unique {A} (g : A -> ObjectId) (p : A -> bool)
      (l : list A) (x : A) :
  NoDup (map g l) -> In x l -> p x = true ->
  Store.findOneAndDelete (fun y => (g y =? g x)%nat && p y) l
  = (Some x, filter (fun y => negb (g y =? g x)%nat) l).
Proof.
  induction l as [|a l IH]; simpl; intros N Hx Hp; [destruct Hx|].
  inversion N as [|? ? Hn Hl]; subst.
  destruct Hx as [->|Hx].
  - rewrite Nat.eqb_refl, Hp. cbn [andb negb]. f_equal.
    symmetry. apply filter_all. intros y Hy. apply negb_true_iff, Nat.eqb_neq.
    intros E. apply Hn. rewrite <- E. now apply in_map.
  - destruct (Nat.eqb_spec (g a) (g x)) as [E|E].
    + exfalso. apply Hn. rewrite E. now apply in_map.
    + cbn [andb negb]. now rewrite (IH Hl Hx Hp).
Qed.

(** X20: DELETE /api/expenses/:id of an expense of the caller removes
    that expense and nothing else: the store afterwards is the store
    without it, reading it or deleting it again answers NotFound, and the
    caller's other expenses are read as before. *)
Theorem expense_delete_then_get (user : User.t) (db : Db) (e : Expense.t) :
  Invariant.wf db = true -> In e (expenses db) ->
  Expense.userId e = User._id user ->
  let id := Expense._id e in
  Expenses.delete user id db
  = (ok (Message "Expense deleted successfully"), without_expense id db)
  /\ NotFound (Expenses.get user id (without_expense id db))
  /\ NotFound (fst (Expenses.delete user id (without_expense id db)))
  /\ (forall id', id' <> id ->
        Expenses.get user id' (without_expense id db) = Expenses.get user id' db).
Proof.
  intros Hwf He Ho id. subst id.
  pose proof Hwf as W. apply wf_spec in W. destruct W as (_ & _ & NE & _).
  assert (Gone : forall x, In x (expenses (without_expense (Expense._id e) db)) ->
                   ((Expense._id x =? Expense._id e)%nat
                    && Expenses.owned_by (User._id user) x) = false).
  { intros x Hx. cbn [without_expense set_expenses expenses] in Hx.
    apply filter_In in Hx. destruct Hx as [_ Hx]. apply negb_true_iff in Hx.
    now rewrite Hx. }
  split; [|split; [|split]].
  - unfold Expenses.delete.
    rewrite (findOneAndDelete_unique Expense._id
               (Expenses.owned_by (User._id user)) (expenses db) e NE He).
    + reflexivity.
    + unfold Expenses.owned_by. rewrite Ho. apply Nat.eqb_refl.
  - unfold Expenses.get.
    rewrite (proj2 (findOne_none _ _ _) Gone). eexists. reflexivity.
  - unfold Expenses.delete.
    rewrite (findOneAndDelete_none _ _ _ Gone). eexists. reflexivity.
  - intros id' Hne. unfold Expenses.get.
    cbn [without_expense set_expenses expenses populate categories].
    replace (Store.findOne
               (fun x => (Expense._id x =? id')%nat
                         && Expenses.owned_by (User._id user) x)
               (filter (fun x => negb (Expense._id x =? Expense._id e)%nat) (expenses db)))
      with (Store.findOne
              (fun x => (Expense._id x =? id')%nat
                        && Expenses.owned_by (User._id user) x)
              (expenses db)); [reflexivity|].
    unfold Store.findOne. clear - Hne.
    induction (expenses db) as [|a l IH]; [reflexivity|]. cbn [find filter].
    destruct (Nat.eqb_spec (Expense._id a) (Expense._id e)) as [E|E]; cbn [negb find].
    + destruct (Nat.eqb_spec (Expense._id a) id') as [E'|E']; [congruence|].
      exact IH.
    + destruct ((Expense._id a =? id')%nat && _); [reflexivity|exact IH].
Qed.

Lemma map_unchanged {A} (f : A -> A) (l : list A) :
  (forall y, In y l -> f y = y) -> map f l = l.
Proof.
  induction l as [|a l IH]; simpl; intros H; [reflexivity|].
  rewrite (H a (or_introl eq_refl)), IH; [reflexivity|]. intros y Hy. apply H. now right.
Qed.

Lemma findOneAndUpdate_ext_in {A} (f g : A -> bool) (upd : A -> A) (l : list A) :
  (forall y, In y l -> f y = g y) ->
  Store.findOneAndUpdate f upd l = Store.findOneAndUpdate g upd l.
Proof.
  induction l as [|a l IH]; intros H; [reflexivity|]. cbn [Store.findOneAndUpdate].
  rewrite (H a (or_introl eq_refl)), IH; [reflexivity|].
  intros y Hy. apply H. now right.
Qed.

(** An update of an expense of the caller that passes the category
    check and the validators. *)
Lemma put_expense_found
      (user : User.t) (now : Z) (id : ObjectId) (b : ExpenseBody.t) (db : Db)
      (old : Expense.t) :
  Invariant.wf db = true -> In old (expenses db) ->
  Expense._id old = id -> Expense.userId old = User._id user ->
  match ExpenseBody.category b with
  | Some category =>
      match Expenses.categoryExists user category db with
      | Some _ => false
      | None => true
      end
  | None => false
  end = false ->
  Expenses.update_valid b = true ->
  let es := map (fun y => if (Expense._id y =? id)%nat
                          then Expenses.apply_update now b y else y)
              (expenses db) in
  Expenses.put user now id b db
  = (ok (ExpenseSaved "Expense updated successfully"
           (populate (set_expenses db es) (Expenses.apply_update now b old))),
     set_expenses db es).
Proof.
  intros Hwf Hold Hid Ho IC V es. unfold Expenses.put. rewrite IC, V.
  apply wf_spec in Hwf. destruct Hwf as (_ & _ & NE & _).
  rewrite (findOneAndUpdate_ext_in _ (fun y => (Expense._id y =? Expense._id old)%nat)).
  - rewrite (findOneAndUpdate_unique Expense._id _ _ old NE Hold).
    rewrite Hid. reflexivity.
  - intros y Hy. rewrite Hid.
    destruct (Nat.eqb_spec (Expense._id y) id) as [E|E]; [|reflexivity].
    assert (y = old)
      by (apply (NoDup_map_unique Expense._id (expenses db)); auto; congruence).
    subst y. unfold Expenses.owned_by. now rewrite Ho, Nat.eqb_refl.
Qed.

(** What an update that answers 200 has found. *)
Lemma put_expense_saved
      (user : User.t) (now : Z) (id : ObjectId) (b : ExpenseBody.t) (db : Db)
      (e : Expense.populated) :
  fst (Expenses.put user now id b db)
  = ok (ExpenseSaved "Expense updated successfully" e) ->
  exists old,
    In old (expenses db) /\ Expense._id old = id
    /\ Expense.userId old = User._id user
    /\ match ExpenseBody.category b with
       | Some category =>
           match Expenses.categoryExists user category db with
           | Some _ => false
           | None => true
           end
       | None => false
       end = false
    /\ Expenses.update_valid b = true.
Proof.
  unfold Expenses.put.
  destruct (match ExpenseBody.category b with Some _ => _ | None => _ end) eqn:IC;
    [discriminate|].
  destruct (Expenses.update_valid b) eqn:V; [|discriminate].
  destruct (Store.findOneAndUpdate _ _ (expenses db)) as [[x|] es] eqn:F;
    [|discriminate].
  intros _.
  destruct (findOneAndUpdate_some _ _ _ _ _ _ F)
    as (old & l1 & l2 & El & Ees & Ex & Fo & _).
  apply andb_true_iff in Fo. destruct Fo as [Fi Fo].
  apply Nat.eqb_eq in Fi. unfold Expenses.owned_by in Fo. apply Nat.eqb_eq in Fo.
  exists old. repeat split; auto.
  rewrite El, in_app_iff. right. now left.
Qed.

(** X21: PUT /api/expenses/:id that answers 200 has changed one expense
    of the caller, the one of that identifier, into the document it
    returns, with the time of the update for [updatedAt]; GET
    /api/expenses/:id then returns the same; the identifier, the owner,
    the time of creation and the order of the collection stay.  Sending
    the same update again, at a later time, is answered 200 as well and
    changes nothing of the document but [updatedAt]. *)
Theorem expense_update_then_get
        (user : User.t) (now : Z) (id : ObjectId) (b : ExpenseBody.t) (db : Db)
        (e : Expense.populated) :
  Invariant.wf db = true ->
  fst (Expenses.put user now id b db)
  = ok (ExpenseSaved "Expense updated successfully" e) ->
  let db' := snd (Expenses.put user now id b db) in
  Expenses.get user id db' = ok (ExpenseOne e)
  /\ (exists old, In old (expenses db) /\ Expense._id old = id
                  /\ Expense.userId old = User._id user
                  /\ Expense.doc e = Expenses.apply_update now b old
                  /\ Expense.createdAt (Expense.doc e) = Expense.createdAt old
                  /\ expenses db'
                     = map (fun x => if (Expense._id x =? id)%nat
                                     then Expenses.apply_update now b x else x)
                         (expenses db))
  /\ Expense._id (Expense.doc e) = id
  /\ Expense.userId (Expense.doc e) = User._id user
  /\ Expense.updatedAt (Expense.doc e) = now
  /\ categories db' = categories db
  /\ (forall later,
        let d := Expense.doc e in
        let d' :=
          Expense.mk (Expense._id d) (Expense.title d) (Expense.amount d)
            (Expense.description d) (Expense.category d) (Expense.userId d)
            (Expense.date d) (Expense.paymentMethod d) (Expense.tags d)
            (Expense.receipt d) (Expense.createdAt d) later in
        fst (Expenses.put user later id b db')
        = ok (ExpenseSaved "Expense updated successfully"
                (Expense.mkPopulated d' (Expense.categoryDoc e)))
        /\ expenses (snd (Expenses.put user later id b db'))
           = map (fun x => if (Expense._id x =? id)%nat then d' else x)
               (expenses db')
        /\ categories (snd (Expenses.put user later id b db')) = categories db'
        /\ users (snd (Expenses.put user later id b db')) = users db').
Proof.
  intros Hwf H.
  destruct (put_expense_saved user now id b db e H)
    as (old & Hold & Fi & Fo & IC & V).
  pose proof (put_expense_found user now id b db old Hwf Hold Fi Fo IC V) as P.
  pose proof (put_expense_wf now user id b db Hwf) as Hwf'.
  cbv zeta in P. cbv zeta. rewrite P in H, Hwf' |- *. clear P.
  cbn [fst snd] in *. injection H as <-.
  set (es := map (fun y => if (Expense._id y =? id)%nat
                           then Expenses.apply_update now b y else y)
               (expenses db)) in *.
  set (x := Expenses.apply_update now b old) in *.
  assert (Hx : In x es).
  { apply in_map_iff. exists old. now rewrite Fi, Nat.eqb_refl. }
  assert (Ix : Expense._id x = id) by exact Fi.
  assert (Ox : Expense.userId x = User._id user) by exact Fo.
  assert (NE' : NoDup (map Expense._id es)).
  { pose proof Hwf' as W. apply wf_spec in W.
    cbn [set_expenses expenses] in W. tauto. }
  assert (G : Store.findOne
                (fun y => (Expense._id y =? id)%nat
                          && Expenses.owned_by (User._id user) y) es = Some x).
  { rewrite <- Ix.
    pose proof (findOne_unique Expense._id es x NE' Hx) as U.
    unfold Store.findOne in *. clear - U Ox.
    induction es as [|a l IH]; [discriminate|]. cbn [find] in *.
    destruct (Nat.eqb_spec (Expense._id a) (Expense._id x)) as [E|E].
    - injection U as ->. unfold Expenses.owned_by. now rewrite Ox, Nat.eqb_refl.
    - cbn [andb]. now apply IH. }
  split; [|split; [|split; [exact Ix|split; [exact Ox|split; [reflexivity|
    split; [reflexivity|]]]]]].
  - unfold Expenses.get. cbn [set_expenses expenses]. rewrite G. reflexivity.
  - exists old. repeat split; auto.
  - intros later.
    set (d' := Expense.mk _ _ _ _ _ _ _ _ _ _ _ later).
    assert (IC' : match ExpenseBody.category b with
                  | Some category =>
                      match Expenses.categoryExists user category
                              (set_expenses db es) with
                      | Some _ => false
                      | None => true
                      end
                  | None => false
                  end = false) by exact IC.
    pose proof (put_expense_found user later id b (set_expenses db es) x
                  Hwf' Hx Ix Ox IC' V) as P.
    cbv zeta in P. cbn [set_expenses users categories expenses nextId] in P.
    assert (Idem : Expenses.apply_update later b x = d').
    { unfold d', x. cbn [populate Expense.doc].
      unfold Expenses.apply_update. cbn.
      destruct (ExpenseBody.title b), (ExpenseBody.amount b),
        (ExpenseBody.description b), (ExpenseBody.category b),
        (ExpenseBody.date b), (ExpenseBody.paymentMethod b),
        (ExpenseBody.tags b); cbn; rewrite ?trim_idem, ?map_map;
        try reflexivity; f_equal; apply map_ext; intros; apply trim_idem. }
    assert (M : map (fun y => if (Expense._id y =? id)%nat
                              then Expenses.apply_update later b y else y) es
                = map (fun y => if (Expense._id y =? id)%nat then d' else y) es).
    { apply map_ext_in. intros y Hy.
      destruct (Nat.eqb_spec (Expense._id y) id) as [Q|Q]; [|reflexivity].
      assert (y = x)
        by (apply (NoDup_map_unique Expense._id es); auto; congruence).
      subst y. exact Idem. }
    rewrite P, M, Idem. cbn [fst snd users categories expenses set_expenses].
    repeat split; reflexivity.
Qed.

(** ** Categories and the expenses that name them *)

Lemma findOne_filter_other {A} (g : A -> ObjectId) (l : list A) (k k' : ObjectId) :
  k' <> k ->
  Store.findOne (fun y => (g y =? k')%nat)
    (filter (fun y => negb (g y =? k)%nat) l)
  = Store.findOne (fun y => (g y =? k')%nat) l.
Proof.
  intros Hne. unfold Store.findOne.
  induction l as [|a l IH]; [reflexivity|]. cbn [find filter].
  destruct (Nat.eqb_spec (g a) k) as [E|E]; cbn [negb find].
  - destruct (Nat.eqb_spec (g a) k') as [E'|E']; [congruence|exact IH].
  - destruct (g a =? k')%nat; [reflexivity|exact IH].
Qed.

(** X22: DELETE /api/categories/:id does not touch the expenses: after
    a category is deleted, the expenses that named it are still stored
    and still name it, and are shown with no category ([null]); every
    other expense is shown as before. *)
Theorem category_delete_keeps_expenses (user : User.t) (id : ObjectId) (db : Db) :
  Invariant.wf db = true ->
  fst (Categories.delete user id db) = ok (Message "Category deleted successfully") ->
  let db' := snd (Categories.delete user id db) in
  db' = without_category id db
  /\ expenses db' = expenses db
  /\ (forall e, Expense.category e = id ->
                populate db' e = Expense.mkPopulated e None)
  /\ (forall e, Expense.category e <> id -> populate db' e = populate db e)
  /\ (forall e, In e (expenses db) -> Expense.category e = id ->
                Expense.userId e = User._id user ->
                Expenses.get user (Expense._id e) db'
                = ok (ExpenseOne (Expense.mkPopulated e None))).
Proof.
  intros Hwf. pose proof Hwf as W. apply wf_spec in W.
  destruct W as (_ & NC & NE & _).
  unfold Categories.delete.
  destruct (Store.findOneAndDelete _ _) as [[c|] cs] eqn:F; [|discriminate].
  intros _. cbn [snd].
  destruct (findOneAndDelete_some _ _ _ _ _ F) as (Fc & l1 & l2 & El & Ecs & _).
  rewrite !andb_true_iff in Fc. destruct Fc as [[Fi Fo] Fd].
  apply Nat.eqb_eq in Fi.
  assert (Hc : In c (categories db)) by (rewrite El, in_app_iff; right; now left).
  assert (E : cs = filter (fun y => negb (Category._id y =? id)%nat) (categories db)).
  { rewrite <- Fi.
    pose proof (findOneAndDelete_unique Category._id
                  (fun y => Categories.owned_by (User._id user) y
                            && negb (Category.isDefault y))
                  (categories db) c NC Hc) as U.
    cbv beta in U. rewrite Fo, Fd in U. specialize (U eq_refl).
    assert (F' : Store.findOneAndDelete
                   (fun y => (Category._id y =? Category._id c)%nat
                             && (Categories.owned_by (User._id user) y
                                 && negb (Category.isDefault y)))
                   (categories db) = (Some c, cs)).
    { rewrite <- F, Fi.
      generalize (categories db) as l. clear.
      induction l as [|a l IH]; [reflexivity|].
      cbn [Store.findOneAndDelete]. rewrite andb_assoc, IH. reflexivity. }
    rewrite F' in U. now injection U. }
  assert (Pop : forall e, Expense.category e = id ->
                  populate (set_categories db cs) e = Expense.mkPopulated e None).
  { intros e He. unfold populate. cbn [set_categories categories].
    rewrite (proj2 (findOne_none _ _ cs)); [reflexivity|].
    intros x Hx. rewrite E in Hx. apply filter_In in Hx. destruct Hx as [_ Hx].
    apply negb_true_iff in Hx. now rewrite He. }
  split; [|split; [reflexivity|split; [exact Pop|split]]].
  - unfold without_category. now rewrite E.
  - intros e He. unfold populate. cbn [set_categories categories]. rewrite E.
    now rewrite findOne_filter_other.
  - intros e He Hcat Ho. unfold Expenses.get. cbn [set_categories expenses].
    assert (G : Store.findOne
                  (fun y => (Expense._id y =? Expense._id e)%nat
                            && Expenses.owned_by (User._id user) y)
                  (expenses db) = Some e).
    { pose proof (findOne_unique Expense._id (expenses db) e NE He) as U.
      unfold Store.findOne in *. clear - U Ho.
      induction (expenses db) as [|a l IH]; [discriminate|]. cbn [find] in *.
      destruct (Nat.eqb_spec (Expense._id a) (Expense._id e)) as [E|E].
      - injection U as ->. unfold Expenses.owned_by. now rewrite Ho, Nat.eqb_refl.
      - cbn [andb]. now apply IH. }
    rewrite G. now rewrite (Pop e Hcat).
Qed.

(** X23: PUT /api/categories/:id that answers 200 changes the name,
    the description, the colour and the icon that the body gives, of one
    category of the caller, a default category included; the owner, the
    default flag and the identifier stay, so every expense that names
    the category is shown with the new name, colour and icon. *)
Theorem category_update_shows (user : User.t) (id : ObjectId) (b : CategoryBody.t)
        (db : Db) (c' : Category.t) :
  Invariant.wf db = true ->
  fst (Categories.put user id b db)
  = ok (CategorySaved "Category updated successfully" c') ->
  let db' := snd (Categories.put user id b db) in
  (exists c, In c (categories db) /\ Category._id c = id
             /\ Category.userId c = User._id user
             /\ c' = Categories.apply_update b c
             /\ categories db'
                = map (fun x => if (Category._id x =? id)%nat
                                then Categories.apply_update b x else x)
                    (categories db))
  /\ Category._id c' = id
  /\ Category.userId c' = User._id user
  /\ (forall c, In c (categories db) -> Category._id c = id ->
                Category.isDefault c' = Category.isDefault c
                /\ Category.createdAt c' = Category.createdAt c)
  /\ (forall s, CategoryBody.name b = Some s -> Category.name c' = JsString.trim s)
  /\ expenses db' = expenses db
  /\ (forall e, Expense.category e = id ->
                populate db' e = Expense.mkPopulated e (Some (Category.to_ref c')))
  /\ (forall e, Expense.category e <> id -> populate db' e = populate db e).
Proof.
  intros Hwf. pose proof Hwf as W. apply wf_spec in W. destruct W as (_ & NC & _).
  unfold Categories.put.
  destruct (Categories.update_valid b); [|discriminate].
  destruct (Store.findOneAndUpdate _ _ _) as [[x|] cs] eqn:F; [|discriminate].
  cbn [fst snd]. intros H. injection H as <-.
  destruct (findOneAndUpdate_some _ _ _ _ _ _ F)
    as (c & l1 & l2 & El & Ecs & Ex & Fc & _).
  apply andb_true_iff in Fc. destruct Fc as [Fi Fo].
  apply Nat.eqb_eq in Fi. unfold Categories.owned_by in Fo. apply Nat.eqb_eq in Fo.
  assert (Hc : In c (categories db)) by (rewrite El, in_app_iff; right; now left).
  assert (Other : forall y, In y l1 \/ In y l2 -> Category._id y <> id).
  { intros y Hy E. rewrite El, map_app in NC. cbn [map] in NC.
    apply NoDup_remove_2 in NC. apply NC. rewrite in_app_iff, Fi, <- E.
    destruct Hy; [left|right]; now apply in_map. }
  assert (Ecs' : cs = map (fun y => if (Category._id y =? id)%nat
                                    then Categories.apply_update b y else y)
                        (categories db)).
  { rewrite Ecs, El, map_app. cbn [map]. rewrite Fi, Nat.eqb_refl.
    rewrite !map_unchanged; [reflexivity| |]; intros y Hy;
      (destruct (Nat.eqb_spec (Category._id y) id) as [E|E]; [|reflexivity]);
      exfalso; apply (Other y); auto. }
  assert (Unique : forall c0, In c0 (categories db) -> Category._id c0 = id -> c0 = c).
  { intros c0 H0 E0. apply (NoDup_map_unique Category._id (categories db)); auto.
    congruence. }
  split; [exists c; repeat split; auto|].
  split; [now rewrite Ex|]. split; [now rewrite Ex|].
  split; [intros c0 H0 E0; rewrite (Unique c0 H0 E0), Ex; split; reflexivity|].
  split; [intros s Hs; rewrite Ex; unfold Categories.apply_update;
          cbn [Category.name]; now rewrite Hs|].
  split; [reflexivity|]. split.
  - intros e He. unfold populate. cbn [set_categories categories].
    assert (G : Store.findOne (fun y => (Category._id y =? Expense.category e)%nat) cs
                = Some x).
    { rewrite He, Ecs. unfold Store.findOne. clear - Other Ex Fi.
      induction l1 as [|a l IH]; cbn [app find].
      - rewrite <- Ex. replace (Category._id x =? id)%nat with true; [reflexivity|].
        symmetry. apply Nat.eqb_eq. now rewrite Ex.
      - replace (Category._id a =? id)%nat with false.
        + apply IH. intros y Hy. apply Other. destruct Hy; [left; now right|now right].
        + symmetry. apply Nat.eqb_neq. apply Other. left. now left. }
    rewrite G. reflexivity.
  - intros e He. unfold populate. cbn [set_categories categories]. f_equal. f_equal.
    rewrite Ecs'. unfold Store.findOne. clear - He.
    induction (categories db) as [|a l IH]; [reflexivity|]. cbn [map find].
    destruct (Nat.eqb_spec (Category._id a) id) as [E|E].
    + replace (Category._id (Categories.apply_update b a) =? Expense.category e)%nat
        with false by (symmetry; apply Nat.eqb_neq; cbn; congruence).
      replace (Category._id a =? Expense.category e)%nat
        with false by (symmetry; apply Nat.eqb_neq; congruence).
      exact IH.
    + destruct (Category._id a =? Expense.category e)%nat; [reflexivity|exact IH].
Qed.
(** ** The order and the pages of the expense list *)






Lemma StronglySorted_firstn {A} (R : A -> A -> Prop) (n : nat) (l : list A) :
  StronglySorted R l -> StronglySorted R (firstn n l).
Proof.
  revert l. induction n as [|n IH]; intros l H; [constructor|].
  destruct l as [|a l]; [constructor|]. cbn [firstn].
  inversion H as [|? ? Hl Ha]; subst. constructor; [now apply IH|].
  rewrite Forall_forall in *. intros x Hx. apply Ha. eapply In_firstn. exact Hx.
Qed.

Lemma StronglySorted_map {A B} (R : B -> B -> Prop) (f : A -> B) (l : list A) :
  StronglySorted (fun x y => R (f x) (f y)) l -> StronglySorted R (map f l).
Proof.
  induction 1 as [|a l _ IH Ha]; cbn [map]; constructor; [assumption|].
  rewrite Forall_forall in *. intros y Hy. apply in_map_iff in Hy.
  destruct Hy as (x & <- & Hx). auto.
Qed.







(** ** The dashboard *)

Lemma StronglySorted_split {A} (R : A -> A -> Prop) (l1 l2 : list A) :
  StronglySorted R (l1 ++ l2) -> forall x y, In x l1 -> In y l2 -> R x y.
Proof.
  induction l1 as [|a l1 IH]; cbn [app]; intros H x y Hx Hy; [destruct Hx|].
  inversion H as [|? ? Hl Ha]; subst. destruct Hx as [<-|Hx].
  - rewrite Forall_forall in Ha. apply Ha. rewrite in_app_iff. now right.
  - now apply IH.
Qed.

(** X26: the dashboard's recent expenses are the caller's five latest,
    or all when there are fewer, latest first, each with its category;
    no expense of the caller that is left out is later than one that is
    shown. *)
Theorem dashboard_recent (tz : Z) (user : User.t) (now : Z) (db : Db) :
  let own := filter (Expenses.owned_by (User._id user)) (expenses db) in
  exists d,
    Reports.dashboard tz user now db = ok (Dashboard d)
    /\ List.length (recentExpenses d) = Nat.min 5 (List.length own)
    /\ Forall (fun r => In (Expense.doc r) own /\ r = populate db (Expense.doc r))
         (recentExpenses d)
    /\ StronglySorted
         (fun x y => Expense.date (Expense.doc y) <= Expense.date (Expense.doc x))
         (recentExpenses d)
    /\ (forall e r, In e own -> ~ In e (map Expense.doc (recentExpenses d)) ->
                    In r (recentExpenses d) ->
                    Expense.date e <= Expense.date (Expense.doc r)).
Proof.
  intros own. eexists. split; [reflexivity|]. cbn [recentExpenses]. fold own.
  set (le := fun x y : Expense.t => Expense.date y <=? Expense.date x).
  set (sorted := Store.sort le own).
  assert (S : StronglySorted (fun x y => le x y = true) sorted).
  { apply sort_sorted; unfold le.
    - intros x y. rewrite !Z.leb_le. lia.
    - intros x y z. rewrite !Z.leb_le. lia. }
  unfold Store.limit. split; [|split; [|split]].
  - rewrite length_map, length_firstn. unfold sorted. now rewrite sort_length.
  - apply Forall_forall. intros r Hr. apply in_map_iff in Hr.
    destruct Hr as (e & <- & He). cbn [populate Expense.doc]. split; [|reflexivity].
    apply In_firstn in He. unfold sorted in He. now rewrite sort_In in He.
  - apply StronglySorted_map.
    apply (StronglySorted_impl (fun x y => le x y = true)).
    + intros a b. unfold le. cbn [populate Expense.doc]. apply Z.leb_le.
    + now apply StronglySorted_firstn.
  - intros e r He Hout Hr. apply in_map_iff in Hr. destruct Hr as (x & <- & Hx).
    cbn [populate Expense.doc].
    rewrite map_map in Hout. cbn [populate Expense.doc] in Hout. rewrite map_id in Hout.
    assert (Hs : In e sorted) by (unfold sorted; now rewrite sort_In).
    rewrite <- (firstn_skipn 5 sorted) in Hs, S. apply in_app_iff in Hs.
    destruct Hs as [Hs|Hs]; [contradiction|].
    pose proof (StronglySorted_split _ _ _ S x e Hx Hs) as L.
    unfold le in L. now apply Z.leb_le in L.
Qed.
Lemma sum_app {A} (v : A -> Z) (l1 l2 : list A) :
  Store.sum v (l1 ++ l2) = Store.sum v l1 + Store.sum v l2.
Proof.
  unfold Store.sum. induction l1 as [|a l IH]; cbn [app fold_right]; [reflexivity|].
  rewrite IH. lia.
Qed.

Lemma sum_perm {A} (v : A -> Z) (l l' : list A) :
  Permutation l l' -> Store.sum v l = Store.sum v l'.
Proof.
  unfold Store.sum. induction 1; cbn [fold_right]; lia.
Qed.

Lemma sum_nonneg {A} (v : A -> Z) (l : list A) :
  (forall x, In x l -> 0 <= v x) -> 0 <= Store.sum v l.
Proof.
  unfold Store.sum. induction l as [|a l IH]; cbn [fold_right]; intros H; [lia|].
  specialize (H a (or_introl eq_refl)) as Ha.
  assert (0 <= fold_right (fun x acc => v x + acc) 0 l)
    by (apply IH; intros x Hx; apply H; now right).
  lia.
Qed.

Lemma sum_filter_mono {A} (v : A -> Z) (f g : A -> bool) (l : list A) :
  (forall x, f x = true -> g x = true) -> (forall x, In x l -> 0 <= v x) ->
  Store.sum v (filter f l) <= Store.sum v (filter g l).
Proof.
  intros Hfg. unfold Store.sum.
  induction l as [|a l IH]; cbn [filter fold_right]; intros H; [lia|].
  assert (IH' := IH (fun x Hx => H x (or_intror Hx))).
  specialize (H a (or_introl eq_refl)).
  destruct (f a) eqn:Fa.
  - rewrite (Hfg a Fa). cbn [fold_right]. lia.
  - destruct (g a); cbn [fold_right]; lia.
Qed.

Lemma size_filter_mono {A} (f g : A -> bool) (l : list A) :
  (forall x, f x = true -> g x = true) ->
  Store.size (filter f l) <= Store.size (filter g l).
Proof.
  intros Hfg. unfold Store.size.
  induction l as [|a l IH]; cbn [filter]; [lia|].
  destruct (f a) eqn:Fa.
  - rewrite (Hfg a Fa). cbn [List.length]. lia.
  - destruct (g a); cbn [List.length]; lia.
Qed.

Section GroupSum.
Variables (A K : Type).
Variable eqb : K -> K -> bool.
Variable key : A -> K.
Variable value : A -> Z.

Lemma accumulate_sum (k : K) (v : Z) (gs : list (Group.t K)) :
  Store.sum Group.total (Store.accumulate eqb k v gs) = Store.sum Group.total gs + v.
Proof.
  unfold Store.sum. induction gs as [|g gs IH]; cbn [Store.accumulate fold_right].
  - cbn. lia.
  - destruct (eqb k (Group._id g)); cbn [fold_right Group.total]; [lia|].
    rewrite IH. lia.
Qed.

Lemma group_sum (l : list A) :
  Store.sum Group.total (Store.group eqb key value l) = Store.sum value l.
Proof.
  unfold Store.group.
  assert (G : forall gs,
             Store.sum Group.total
               (fold_left (fun gs x => Store.accumulate eqb (key x) (value x) gs) l gs)
             = Store.sum Group.total gs + Store.sum value l).
  { induction l as [|x l IH]; intros gs; cbn [fold_left].
    - unfold Store.sum at 3. cbn. lia.
    - rewrite IH, accumulate_sum. unfold Store.sum at 4. cbn [fold_right].
      fold (Store.sum value l). lia. }
  rewrite G. unfold Store.sum at 1. cbn. lia.
Qed.
End GroupSum.

Lemma startOfYear_le_startOfMonth (tz now : Z) :
  Reports.startOfYear tz now <= Reports.startOfMonth tz now.
Proof.
  unfold Reports.startOfYear, Reports.startOfMonth, JsDate.Date_of, JsDate.getMonth.
  pose proof (civil_roundtrip (JsDate.localTime tz now / JsDate.msPerDay) 1) as R.
  destruct (JsDate.civil_from_days (JsDate.localTime tz now / JsDate.msPerDay))
    as [[y m] d].
  destruct R as (_ & Hm & _).
  replace (m - 1 + 1) with m by lia. replace (0 + 1) with 1 by lia.
  set (y' := if (0 <=? JsDate.getFullYear tz now)
                && (JsDate.getFullYear tz now <=? 99)
             then 1900 + JsDate.getFullYear tz now else JsDate.getFullYear tz now).
  pose proof (month_start_mono y' 1 m ltac:(lia) ltac:(lia) ltac:(lia)).
  unfold JsDate.msPerDay. lia.
Qed.

Lemma one_category (cs : list Category.t) (k : ObjectId) :
  NoDup (map Category._id cs) ->
  filter (fun c => (Category._id c =? k)%nat) cs = []
  \/ exists c, In c cs /\ Category._id c = k
               /\ filter (fun c => (Category._id c =? k)%nat) cs = [c].
Proof.
  induction cs as [|a cs IH]; cbn [map filter]; intros N; [now left|].
  inversion N as [|? ? Hn Hl]; subst.
  destruct (Nat.eqb_spec (Category._id a) k) as [E|E].
  - right. exists a. split; [now left|]. split; [exact E|]. f_equal.
    apply filter_none. intros c Hc. apply Nat.eqb_neq. intros E'.
    apply Hn. rewrite E, <- E'. now apply in_map.
  - destruct (IH Hl) as [->|(c & Hc & Ek & ->)]; [now left|].
    right. exists c. split; [now right|]. split; [exact Ek|reflexivity].
Qed.

(** The month of the dashboard is part of its year, and the breakdown
    splits the month by category. *)
Lemma dashboard_month_in_year (tz : Z) (user : User.t) (now : Z) (db : Db) :
  Invariant.wf db = true ->
  (forall e, In e (expenses db) -> 0 <= Expense.amount e) ->
  let current :=
    filter (fun e => (Expense.userId e =? User._id user)%nat
                     && (Reports.startOfMonth tz now <=? Expense.date e))
      (expenses db) in
  exists d,
    Reports.dashboard tz user now db = ok (Dashboard d)
    /\ 0 <= monthly_total (monthly d) <= yearly_total (yearly d)
    /\ 0 <= monthly_count (monthly d) <= yearly_count (yearly d)
    /\ StronglySorted (fun x y => breakdown_total y <= breakdown_total x)
         (categoryBreakdown d)
    /\ Store.sum breakdown_total (categoryBreakdown d) <= monthly_total (monthly d)
    /\ ((forall e, In e current ->
           exists c, In c (categories db) /\ Category._id c = Expense.category e) ->
        Store.sum breakdown_total (categoryBreakdown d) = monthly_total (monthly d))
    /\ (forall line, In line (categoryBreakdown d) ->
          exists c, In c (categories db) /\ Category._id c = breakdown_id line
                    /\ Category.userId c = User._id user
                    /\ breakdown_name line = Category.name c
                    /\ breakdown_total line
                       = Store.sum Expense.amount
                           (filter (fun e => (Expense.category e =? Category._id c)%nat)
                              current)).
Proof.
  intros Hwf Ha current. eexists. split; [reflexivity|].
  cbn [monthly yearly categoryBreakdown monthly_total monthly_count
       yearly_total yearly_count].
  pose proof Hwf as W. apply wf_spec in W.
  destruct W as (_ & NC & _ & _ & _ & _ & _ & _ & SO).
  destruct (group_all_totals (Reports.since user (Reports.startOfMonth tz now) db))
    as [Mt Mc].
  destruct (group_all_totals (Reports.since user (Reports.startOfYear tz now) db))
    as [Yt Yc].
  rewrite Mt, Mc, Yt, Yc. unfold Reports.sum_amounts, Reports.since.
  fold current. change (filter _ (expenses db)) with current at 1.
  pose proof (startOfYear_le_startOfMonth tz now) as SY.
  assert (Sub : forall x,
             Expenses.owned_by (User._id user) x
             && (Reports.startOfMonth tz now <=? Expense.date x) = true ->
             Expenses.owned_by (User._id user) x
             && (Reports.startOfYear tz now <=? Expense.date x) = true).
  { intros x. rewrite !andb_true_iff, !Z.leb_le. intros [H1 H2]. split; [exact H1|lia]. }
  assert (Cur : forall e, In e current -> 0 <= Expense.amount e).
  { intros e He. apply filter_In in He. apply Ha. tauto. }
  split; [split; [now apply sum_nonneg|now apply sum_filter_mono]|].
  split; [split; [unfold Store.size; lia|now apply size_filter_mono]|].
  unfold Reports.breakdown, Reports.since. fold current.
  change (filter _ (expenses db)) with current.
  set (groups := Store.group Nat.eqb Expense.category Expense.amount current).
  match goal with
  | |- context [Store.sort ?l ?j] => set (joined := j)
  end.
  set (le := fun x y : BreakdownEntry => breakdown_total y <=? breakdown_total x).
  assert (Gin : forall g, In g groups ->
                  Group.total g
                  = Store.sum Expense.amount
                      (filter (fun e => (Expense.category e =? Group._id g)%nat)
                         current)
                  /\ 0 <= Group.total g
                  /\ exists e, In e current /\ Expense.category e = Group._id g).
  { intros g Hg.
    destruct (group_In _ _ Nat.eqb Expense.category Expense.amount Nat.eqb_eq
                current g Hg) as [_ Hv].
    destruct (group_key _ _ Nat.eqb Expense.category Expense.amount Nat.eqb_eq
                current g Hg) as (e & He & Ek).
    assert (T : Group.total g
                = Store.sum Expense.amount
                    (filter (fun x => (Group._id g =? Expense.category x)%nat) current))
      by (rewrite Hv at 1; reflexivity).
    assert (Fe : filter (fun x => (Group._id g =? Expense.category x)%nat) current
                 = filter (fun e => (Expense.category e =? Group._id g)%nat) current)
      by (apply filter_ext; intros x; apply Nat.eqb_sym).
    rewrite Fe in T. split; [exact T|]. split; [|eauto].
    rewrite T. apply sum_nonneg. intros x Hx. apply filter_In in Hx. apply Cur. tauto. }
  assert (Js : Store.sum breakdown_total joined <= Store.sum Group.total groups
               /\ ((forall e, In e current ->
                      exists c, In c (categories db)
                                /\ Category._id c = Expense.category e) ->
                   Store.sum breakdown_total joined = Store.sum Group.total groups)).
  { unfold joined. clearbody groups.
    induction groups as [|g gs IH]; [split; [cbn; lia|reflexivity]|].
    cbn [flat_map]. rewrite sum_app.
    change (Store.sum Group.total (g :: gs))
      with (Group.total g + Store.sum Group.total gs).
    destruct IH as [IH1 IH2]; [intros x Hx; apply Gin; now right|].
    destruct (Gin g (or_introl eq_refl)) as (_ & G0 & e & He & Ek).
    destruct (one_category (categories db) (@Group._id ObjectId g) NC)
      as [E|(c & Hc & Eid & E)].
    - rewrite E. cbn [map]. change (Store.sum breakdown_total []) with 0.
      split; [lia|]. intros Hex. exfalso.
      destruct (Hex e He) as (c & Hc & Eid).
      assert (Hin : In c (filter (fun c => (Category._id c =? @Group._id ObjectId g)%nat)
                            (categories db)))
        by (apply filter_In; split; [exact Hc|]; apply Nat.eqb_eq;
            rewrite Eid; exact Ek).
      rewrite E in Hin. destruct Hin.
    - rewrite E. cbn [map].
      match goal with
      | |- context [Store.sum breakdown_total [?x]] =>
          change (Store.sum breakdown_total [x]) with (Group.total g + 0)
      end.
      split; [lia|]. intros Hex. rewrite (IH2 Hex). lia. }
  pose proof (group_sum _ _ Nat.eqb Expense.category Expense.amount current) as GS.
  change (Store.sum Group.total groups = Store.sum Expense.amount current) in GS.
  rewrite GS in Js.
  assert (P : Permutation joined (Store.sort le joined)) by apply sort_perm.
  rewrite <- (sum_perm breakdown_total _ _ P).
  split; [|split; [tauto|split; [tauto|]]].
  - apply (StronglySorted_impl (fun x y => le x y = true)).
    + intros a b. unfold le. apply Z.leb_le.
    + apply sort_sorted; unfold le.
      * intros x y. rewrite !Z.leb_le. lia.
      * intros x y z. rewrite !Z.leb_le. lia.
  - intros ln Hln. rewrite sort_In in Hln. unfold joined in Hln.
    apply in_flat_map in Hln. destruct Hln as (g & Hg & Hln).
    apply in_map_iff in Hln. destruct Hln as (c & <- & Hc).
    apply filter_In in Hc. destruct Hc as [Hc Eid]. apply Nat.eqb_eq in Eid.
    destruct (Gin g Hg) as (T & _ & e & He & Ek).
    exists c. cbn [breakdown_id breakdown_name breakdown_total].
    split; [exact Hc|]. split; [exact Eid|]. split; [|split; [reflexivity|]].
    + apply filter_In in He. destruct He as [He Ho].
      apply andb_true_iff in Ho. destruct Ho as [Ho _]. apply Nat.eqb_eq in Ho.
      rewrite <- Ho. apply (SO e c He Hc). rewrite Eid. symmetry. exact Ek.
    + rewrite Eid. exact T.
Qed.

(** The sums the dashboard reports. *)
Lemma dashboard_sums (tz : Z) (user : User.t) (now : Z) (db : Db) :
  exists d,
    Reports.dashboard tz user now db = ok (Dashboard d)
    /\ monthly_total (monthly d)
       = Store.sum Expense.amount
           (Reports.since user (Reports.startOfMonth tz now) db)
    /\ monthly_count (monthly d)
       = Store.size (Reports.since user (Reports.startOfMonth tz now) db)
    /\ yearly_total (yearly d)
       = Store.sum Expense.amount
           (Reports.since user (Reports.startOfYear tz now) db)
    /\ yearly_count (yearly d)
       = Store.size (Reports.since user (Reports.startOfYear tz now) db).
Proof.
  eexists. split; [reflexivity|].
  cbn [monthly yearly monthly_total monthly_count yearly_total yearly_count].
  destruct (group_all_totals (Reports.since user (Reports.startOfMonth tz now) db))
    as [Mt Mc].
  destruct (group_all_totals (Reports.since user (Reports.startOfYear tz now) db))
    as [Yt Yc].
  rewrite Mt, Mc, Yt, Yc. unfold Reports.sum_amounts. tauto.
Qed.

(** X27: the dashboard's monthly total and count are those of the
    caller's expenses dated from the local midnight that opens the month
    of [now], the yearly ones those of the caller's expenses of the
    local year of [now] and later; the month is part of the year: the
    monthly total and count never exceed the yearly ones when no amount
    is negative.  The category breakdown is sorted by total, largest
    first; its totals add up to at most the monthly total, and to
    exactly the monthly total when the category of every expense of the
    month still exists (an expense whose category was deleted is in the
    total and in no line of the breakdown).  (The amounts are whole
    numbers whose sum stays within the range in which doubles are exact,
    the server's zone is a fixed offset and its clock is past the
    year 99.) *)
Theorem dashboard_totals (tz : Z) (user : User.t) (now : Z) (db : Db) :
  Invariant.wf db = true ->
  (forall e, In e (expenses db) -> 0 <= Expense.amount e) ->
  ~ 0 <= JsDate.getFullYear tz now <= 99 ->
  let first := now - ((JsDate.getDate tz now - 1) * JsDate.msPerDay
                      + JsDate.localTime tz now mod JsDate.msPerDay) in
  let current :=
    filter (fun e => (Expense.userId e =? User._id user)%nat
                     && (first <=? Expense.date e))
      (expenses db) in
  let of_year :=
    filter (fun e => (Expense.userId e =? User._id user)%nat
                     && (JsDate.getFullYear tz now
                         <=? JsDate.getFullYear tz (Expense.date e)))
      (expenses db) in
  Store.exact Expense.amount of_year 0 = true ->
  (first <= now
   /\ JsDate.getFullYear tz first = JsDate.getFullYear tz now
   /\ JsDate.getMonth tz first = JsDate.getMonth tz now
   /\ JsDate.getDate tz first = 1
   /\ JsDate.localTime tz first mod JsDate.msPerDay = 0)
  /\ exists d,
    Reports.dashboard tz user now db = ok (Dashboard d)
    /\ monthly_total (monthly d) = Store.sum Expense.amount current
    /\ monthly_count (monthly d) = Store.size current
    /\ yearly_total (yearly d) = Store.sum Expense.amount of_year
    /\ yearly_count (yearly d) = Store.size of_year
    /\ 0 <= monthly_total (monthly d) <= yearly_total (yearly d)
    /\ 0 <= monthly_count (monthly d) <= yearly_count (yearly d)
    /\ StronglySorted (fun x y => breakdown_total y <= breakdown_total x)
         (categoryBreakdown d)
    /\ Store.sum breakdown_total (categoryBreakdown d) <= monthly_total (monthly d)
    /\ ((forall e, In e current ->
           exists c, In c (categories db) /\ Category._id c = Expense.category e) ->
        Store.sum breakdown_total (categoryBreakdown d) = monthly_total (monthly d))
    /\ (forall line, In line (categoryBreakdown d) ->
          exists c, In c (categories db) /\ Category._id c = breakdown_id line
                    /\ Category.userId c = User._id user
                    /\ breakdown_name line = Category.name c
                    /\ breakdown_total line
                       = Store.sum Expense.amount
                           (filter (fun e => (Expense.category e =? Category._id c)%nat)
                              current)).
Proof.
  intros Hwf Ha Hy first current of_year _. split; [apply month_opening|].
  destruct (startOfMonth_first tz now Hy) as (S & _). fold first in S.
  pose proof (dashboard_month_in_year tz user now db Hwf Ha) as H.
  cbv zeta in H. rewrite S in H. fold current in H.
  destruct H as (d & E & T & C & So & Le & Eq & Ln).
  destruct (dashboard_sums tz user now db) as (d' & E' & Mt & Mc & Yt & Yc).
  rewrite E in E'. injection E' as <-.
  assert (Ec : Reports.since user (Reports.startOfMonth tz now) db = current)
    by (unfold Reports.since; rewrite S; reflexivity).
  assert (Ey : Reports.since user (Reports.startOfYear tz now) db = of_year).
  { unfold Reports.since, Reports.startOfYear, of_year. apply filter_ext.
    intros e. now rewrite year_start. }
  rewrite Ec in Mt, Mc. rewrite Ey in Yt, Yc.
  exists d. repeat (split; [assumption|]). exact Ln.
Qed.

(** ** Sample stores the server reaches *)

Lemma register_sign (isEmail : string -> bool) (hash : string -> string)
      (sign sign' : ObjectId -> string) (now : Z) (b : RegisterBody.t) (db : Db) :
  snd (Auth.register isEmail hash sign now b db)
  = snd (Auth.register isEmail hash sign' now b db).
Proof.
  unfold Auth.register. destruct (negb _); [reflexivity|].
  destruct (Store.findOne _ _); [reflexivity|].
  destruct (Auth.new_user _ _ _); reflexivity.
Qed.

Lemma served_two_users (tz : Z) (regex_i : string -> string -> bool)
      (sign : ObjectId -> string) :
  served tz regex_i Sample.isEmail Sample.hash sign Sample.two_users.
Proof.
  unfold served, Sample.two_users.
  rewrite (register_sign _ _ Sample.sign sign 2000).
  rewrite (register_sign _ _ Sample.sign sign 1000).
  eapply later_step; [eapply later_step; [apply later_now|]|];
    apply step_register.
Qed.

Lemma alice_registered : In Sample.alice (users Sample.two_users).
Proof. vm_compute. now left. Qed.

Lemma expense_post_users (caller : User.t) (now : Z) (b : ExpenseBody.t) (db : Db) :
  users (snd (Expenses.post caller now b db)) = users db.
Proof. exact (handle_users 0 (fun _ _ => true) caller now (PostExpense b) db). Qed.

Lemma later_post_expense (tz : Z) (regex_i : string -> string -> bool)
      (isEmail : string -> bool) (hash : string -> string)
      (sign : ObjectId -> string) (db0 db : Db)
      (caller : User.t) (now : Z) (b : ExpenseBody.t) :
  later tz regex_i isEmail hash sign db0 db -> In caller (users db) ->
  later tz regex_i isEmail hash sign db0 (snd (Expenses.post caller now b db)).
Proof.
  intros L I. eapply later_step; [exact L|].
  exact (step_handle tz regex_i isEmail hash sign db caller now (PostExpense b) I).
Qed.

Lemma served_june (tz : Z) (regex_i : string -> string -> bool)
      (sign : ObjectId -> string) :
  served tz regex_i Sample.isEmail Sample.hash sign Sample.june.
Proof.
  unfold served, Sample.june.
  apply later_post_expense; [apply later_post_expense|].
  - apply served_two_users.
  - exact alice_registered.
  - rewrite expense_post_users. exact alice_registered.
Qed.
(** ** The names of a user's categories *)


(** X28: POST /api/categories never gives a user two categories of the
    same name: when the names of the caller's categories are all
    different, they still are after the request.  PUT
    /api/categories/:id makes no such check: it can give a category the
    name of another category of the same user. *)
Theorem category_names_unique (user : User.t) (now : Z) (b : CategoryBody.t) (db : Db) :
  let names db :=
    map Category.name (filter (Categories.owned_by (User._id user)) (categories db)) in
  (NoDup (names db) -> NoDup (names (snd (Categories.post user now b db))))
  /\ exists id b' db0,
       served Sample.tz (fun _ _ => true) Sample.isEmail Sample.hash Sample.sign db0
       /\ NoDup (map Category.name
                   (filter (Categories.owned_by (User._id Sample.alice))
                      (categories db0)))
       /\ status (fst (Categories.put Sample.alice id b' db0)) = 200
       /\ ~ NoDup (map Category.name
                     (filter (Categories.owned_by (User._id Sample.alice))
                        (categories (snd (Categories.put Sample.alice id b' db0))))).
Proof.
  intros names. split.
  - intros N. unfold names, Categories.post.
    destruct (negb _); [exact N|].
    destruct (Store.findOne _ _) eqn:F; [exact N|].
    destruct (Schema.required_string _); [|exact N].
    cbn [snd insert_category categories]. rewrite filter_app, map_app.
    match goal with |- context [filter ?f [?c]] =>
      replace (filter f [c]) with [c]
        by (cbn [filter]; unfold Categories.owned_by; cbn [Category.userId];
            now rewrite Nat.eqb_refl) end.
    cbn [map Category.name].
    apply NoDup_app; [exact N|repeat constructor; intros []|].
    intros x Hx [<-|[]]. apply in_map_iff in Hx. destruct Hx as (c & E & Hc).
    apply filter_In in Hc. destruct Hc as [Hc Ho].
    rewrite findOne_none in F. specialize (F c Hc). cbv beta in F.
    rewrite Ho, E, String.eqb_refl in F. discriminate.
  - exists 2%nat, (CategoryBody.mk (Some "Food & Dining") None None None),
      Sample.two_users.
    split; [apply served_two_users|].
    split.
    { vm_compute.
      repeat (apply NoDup_cons; [cbn [In]; intuition discriminate|]).
      apply NoDup_nil. }
    split; [reflexivity|].
    vm_compute. intros N. inversion N as [|? ? Hn _]. apply Hn. now left.
Qed.
(** ** The properties at the sample stores *)

Lemma served_owners_witness :
  served Sample.tz (fun _ _ => true) Sample.isEmail Sample.hash Sample.sign Sample.june
  /\ (forall e, In e (expenses Sample.june) ->
        exists u, In u (users Sample.june) /\ User._id u = Expense.userId e).
Proof.
  split; [apply served_june|].
  destruct (served_owners Sample.tz (fun _ _ => true) Sample.isEmail Sample.hash
              Sample.sign Sample.june (served_june _ _ _)) as (_ & _ & H).
  exact H.
Defined.

Lemma served_documents_valid_witness :
  served Sample.tz (fun _ _ => true) Sample.isEmail Sample.hash Sample.sign Sample.june
  /\ (forall c, In c (categories Sample.june) ->
        Category.name c <> "" /\ JsString.trim (Category.name c) = Category.name c).
Proof.
  split; [apply served_june|].
  destruct (served_documents_valid Sample.tz (fun _ _ => true) Sample.isEmail
              Sample.hash Sample.sign Sample.june (served_june _ _ _)) as (_ & H & _).
  exact H.
Defined.

Lemma served_users_unique_witness :
  In Sample.alice (users Sample.two_users)
  /\ nth 0 (users Sample.two_users) Sample.bob = Sample.alice.
Proof.
  split; [exact alice_registered|].
  apply (served_users_unique Sample.tz (fun _ _ => true) Sample.isEmail Sample.hash
           Sample.sign Sample.two_users).
  - apply served_two_users.
  - vm_compute. now left.
  - exact alice_registered.
  - left. vm_compute. reflexivity.
Defined.

Lemma served_default_categories_witness :
  In Sample.alice (users Sample.june)
  /\ List.length
       (filter (fun c => Categories.owned_by (User._id Sample.alice) c
                         && Category.isDefault c) (categories Sample.june)) = 8%nat.
Proof.
  assert (I : In Sample.alice (users Sample.june)) by (vm_compute; now left).
  split; [exact I|].
  destruct (served_default_categories Sample.tz (fun _ _ => true) Sample.isEmail
              Sample.hash Sample.sign Sample.june Sample.alice (served_june _ _ _) I)
    as (H & _).
  exact H.
Defined.
Lemma two_users_users : users Sample.two_users = [Sample.alice; Sample.bob].
Proof. vm_compute. reflexivity. Qed.

Lemma login_after_register_witness :
  Reply.status
    (Session.login Demo.compare Demo.sign
       (LoginBody.mk (Some " carol ") (Some "secret3"))
       (snd (Auth.register Sample.isEmail Sample.hash Demo.sign 3000 Demo.carol_body
               Sample.two_users))) = 200
  /\ Reply.status
       (Session.login Demo.compare Demo.sign
          (LoginBody.mk (Some "Carol@Example.com") (Some "secret3"))
          (snd (Auth.register Sample.isEmail Sample.hash Demo.sign 3000
                  Demo.carol_body Sample.two_users))) = 200.
Proof.
  destruct (login_after_register Sample.isEmail Sample.hash Demo.sign Demo.compare
              3000 Demo.carol_body Sample.two_users)
    as (user & U & _ & L1 & L2).
  - vm_compute. reflexivity.
  - vm_compute. reflexivity.
  - assert (E : users (snd (Auth.register Sample.isEmail Sample.hash Demo.sign 3000
                              Demo.carol_body Sample.two_users))
                = users Sample.two_users
                  ++ [User.mk 18 "carol" "carol@example.com" (Sample.hash "secret3")
                        "Carol" 0 "INR"]) by (vm_compute; reflexivity).
    rewrite E in U. apply app_inj_tail in U. destruct U as [_ <-].
    cbv zeta in L1, L2.
    change (RegisterBody.username Demo.carol_body) with (Some " carol ") in L1.
    change (RegisterBody.password Demo.carol_body) with (Some "secret3") in L1, L2.
    change (RegisterBody.email Demo.carol_body) with (Some "Carol@Example.com") in L2.
    rewrite L1, L2.
    + split; reflexivity.
    + intros u Hu. rewrite two_users_users in Hu. destruct Hu as [<-|[<-|[]]]; vm_compute;
        intros X; discriminate X.
    + intros u Hu. rewrite two_users_users in Hu. destruct Hu as [<-|[<-|[]]]; vm_compute;
        intros X; discriminate X.
Defined.

Lemma login_invalid_credentials_witness :
  Session.login Demo.compare Demo.sign (LoginBody.mk (Some "alice") (Some "wrong"))
    Sample.two_users
  = Reply.mk 400 false (Session.Message "Invalid credentials").
Proof.
  apply login_invalid_credentials.
  - vm_compute. reflexivity.
  - vm_compute. reflexivity.
  - intros u Hu. rewrite two_users_users in Hu. destruct Hu as [<-|[<-|[]]].
    + right. vm_compute. reflexivity.
    + left. split; vm_compute; intros X; discriminate X.
Defined.

Lemma register_again_witness :
  status (fst (Auth.register Sample.isEmail Sample.hash Sample.sign 2000
                 (RegisterBody.mk (Some " alice ") (Some "other@example.com")
                    (Some "secret9") (Some "Alice Again") None None)
                 (snd (Auth.register Sample.isEmail Sample.hash Sample.sign 1000
                         Sample.alice_body empty)))) = 400.
Proof.
  destruct (register_again Sample.isEmail Sample.hash Sample.sign 1000 2000
              Sample.alice_body
              (RegisterBody.mk (Some " alice ") (Some "other@example.com")
                 (Some "secret9") (Some "Alice Again") None None) empty)
    as (H & _).
  - vm_compute. reflexivity.
  - left. vm_compute. reflexivity.
  - exact H.
Defined.
Lemma auth_passes_witness :
  Invariant.wf Sample.two_users = true
  /\ Middleware.auth Demo.verify
       (Middleware.mkHeaders (Some "Bearer t.........") None) Sample.two_users
     = inr (Middleware.without_password Sample.bob).
Proof.
  assert (Hwf : Invariant.wf Sample.two_users = true) by (vm_compute; reflexivity).
  split; [exact Hwf|].
  destruct (auth_passes Demo.verify
              (Middleware.mkHeaders (Some "Bearer t.........") None)
              Sample.two_users Hwf) as (H & _).
  apply H. exists "t.........", Sample.bob.
  split; [vm_compute; reflexivity|].
  split; [intros X; discriminate X|].
  split; [vm_compute; reflexivity|].
  split; [vm_compute; tauto|reflexivity].
Defined.

Lemma alice_beside_carol :
  In Sample.alice
    (users (snd (Auth.register Sample.isEmail Sample.hash (Demo.sign_at 3000) 3000
                   Demo.carol_body Sample.two_users))).
Proof. vm_compute. now left. Qed.

Lemma register_token_authenticates_witness :
  exists token view user,
    fst (Auth.register Sample.isEmail Sample.hash (Demo.sign_at 3000) 3000
           Demo.carol_body Sample.two_users)
    = created (Registered "User registered successfully" token view)
    /\ Middleware.auth (Demo.verify_at 5000)
         (Middleware.mkHeaders (Some ("Bearer " ++ token)%string) None)
         (snd (Expenses.post Sample.alice 4000
                 (Sample.expense "Rent" 1200 5 1717500000000)
                 (snd (Auth.register Sample.isEmail Sample.hash (Demo.sign_at 3000)
                         3000 Demo.carol_body Sample.two_users))))
       = inr user
    /\ User._id user = view_id view
    /\ Jwt.fresh 3000 (3000 + 7 * JsDate.msPerDay) = false
    /\ map Expense.title
         (expenses
            (snd (Expenses.post Sample.alice 4000
                    (Sample.expense "Rent" 1200 5 1717500000000)
                    (snd (Auth.register Sample.isEmail Sample.hash
                            (Demo.sign_at 3000) 3000 Demo.carol_body
                            Sample.two_users)))))
       = ["Rent"].
Proof.
  destruct (register_token_authenticates Sample.tz (fun _ _ => true) Sample.isEmail
              Sample.hash Sample.sign Demo.sign_at Demo.verify_at 3000
              Demo.carol_body Sample.two_users
              (snd (Expenses.post Sample.alice 4000
                      (Sample.expense "Rent" 1200 5 1717500000000)
                      (snd (Auth.register Sample.isEmail Sample.hash
                              (Demo.sign_at 3000) 3000 Demo.carol_body
                              Sample.two_users))))
              5000)
    as (token & view & E & F & _).
  - apply served_two_users.
  - vm_compute. reflexivity.
  - apply later_post_expense; [apply later_now|exact alice_beside_carol].
  - vm_compute. reflexivity.
  - vm_compute. intros X. discriminate X.
  - destruct (F eq_refl) as (user & A & I & _).
    exists token, view, user.
    split; [exact E|]. split; [exact A|]. split; [exact I|].
    split; vm_compute; reflexivity.
Defined.

Lemma profile_update_witness :
  In Sample.alice (users Sample.two_users)
  /\ Reply.status
       (fst (Session.updateProfile Sample.alice
               (ProfileBody.mk (Some " Alice B ") (AmountNumber (-5)) None)
               Sample.two_users)) = 200
  /\ categories
       (snd (Session.updateProfile Sample.alice
               (ProfileBody.mk (Some " Alice B ") (AmountNumber (-5)) None)
               Sample.two_users))
     = categories Sample.two_users.
Proof.
  split; [exact alice_registered|].
  destruct (profile_update Sample.alice
              (ProfileBody.mk (Some " Alice B ") (AmountNumber (-5)) None)
              Sample.two_users) as (_ & _ & H).
  - vm_compute. reflexivity.
  - exact alice_registered.
  - destruct H as (E & _ & C & _).
    + vm_compute. intros X. discriminate X.
    + intros X. discriminate X.
    + rewrite E. split; [reflexivity|exact C].
Defined.

Lemma date_ranges_witness :
  JsDate.getFullYear Sample.tz Sample.now = 2024
  /\ Helpers.range_start (Helpers.today (Helpers.getDateRanges Sample.tz Sample.now))
     <= Sample.now
     < Helpers.range_end (Helpers.today (Helpers.getDateRanges Sample.tz Sample.now)).
Proof.
  assert (Y : JsDate.getFullYear Sample.tz Sample.now = 2024)
    by (vm_compute; reflexivity).
  split; [exact Y|].
  destruct (date_ranges Sample.tz Sample.now) as ((H & _) & _).
  - rewrite Y. lia.
  - exact H.
Defined.
Lemma june_expenses : expenses Sample.june = [Demo.rent; Demo.lunch].
Proof. vm_compute. reflexivity. Qed.

Lemma june_wf : Invariant.wf Sample.june = true.
Proof. vm_compute. reflexivity. Qed.

Lemma clear_data_witness :
  Invariant.wf Sample.june = true
  /\ filter (Expenses.owned_by (User._id Sample.alice))
       (expenses (snd (TestRoutes.clearData Sample.alice Sample.june))) = []
  /\ users (snd (TestRoutes.clearData Sample.alice Sample.june)) = users Sample.june.
Proof.
  split; [exact june_wf|].
  destruct (clear_data Sample.alice Sample.june june_wf) as (_ & U & E & _).
  split; [exact E|exact U].
Defined.

Lemma expense_create_then_get_witness :
  exists e,
    fst (Expenses.post Sample.alice Sample.now
           (Sample.expense "Flight" 900 5 1717700000000) Sample.june)
    = created (ExpenseSaved "Expense created successfully" e)
    /\ Expenses.get Sample.alice (Expense._id (Expense.doc e))
         (snd (Expenses.post Sample.alice Sample.now
                 (Sample.expense "Flight" 900 5 1717700000000) Sample.june))
       = ok (ExpenseOne e)
    /\ Expense._id (Expense.doc e) = nextId Sample.june.
Proof.
  set (r := fst (Expenses.post Sample.alice Sample.now
                   (Sample.expense "Flight" 900 5 1717700000000) Sample.june)).
  set (e := match body r with
            | ExpenseSaved _ e => e
            | _ => Expense.mkPopulated Demo.rent None
            end).
  assert (E : r = created (ExpenseSaved "Expense created successfully" e))
    by (vm_compute; reflexivity).
  exists e. split; [exact E|].
  destruct (expense_create_then_get Sample.alice Sample.now
              (Sample.expense "Flight" 900 5 1717700000000) Sample.june e june_wf E)
    as (G & _ & I & _).
  split; [exact G|exact I].
Defined.

Lemma expense_delete_then_get_witness :
  In Demo.rent (expenses Sample.june)
  /\ Expenses.delete Sample.alice 18 Sample.june
     = (ok (Message "Expense deleted successfully"), without_expense 18 Sample.june)
  /\ NotFound (Expenses.get Sample.alice 18 (without_expense 18 Sample.june)).
Proof.
  assert (I : In Demo.rent (expenses Sample.june))
    by (rewrite june_expenses; now left).
  split; [exact I|].
  destruct (expense_delete_then_get Sample.alice Sample.june Demo.rent june_wf I
              eq_refl) as (D & G & _).
  split; [exact D|exact G].
Defined.

Lemma expense_update_then_get_witness :
  exists e,
    fst (Expenses.put Sample.alice Sample.now 18 (Sample.expense "Rent" 1500 5 1717500000000)
           Sample.june)
    = ok (ExpenseSaved "Expense updated successfully" e)
    /\ Expenses.get Sample.alice 18
         (snd (Expenses.put Sample.alice Sample.now 18
                 (Sample.expense "Rent" 1500 5 1717500000000) Sample.june))
       = ok (ExpenseOne e)
    /\ Expense.userId (Expense.doc e) = User._id Sample.alice
    /\ Expense.updatedAt (Expense.doc e) = Sample.now.
Proof.
  set (r := fst (Expenses.put Sample.alice Sample.now 18
                   (Sample.expense "Rent" 1500 5 1717500000000) Sample.june)).
  set (e := match body r with
            | ExpenseSaved _ e => e
            | _ => Expense.mkPopulated Demo.rent None
            end).
  assert (E : r = ok (ExpenseSaved "Expense updated successfully" e))
    by (vm_compute; reflexivity).
  exists e. split; [exact E|].
  destruct (expense_update_then_get Sample.alice Sample.now 18
              (Sample.expense "Rent" 1500 5 1717500000000) Sample.june e june_wf E)
    as (G & _ & _ & O & U & _).
  split; [exact G|split; [exact O|exact U]].
Defined.

Lemma travel_wf : Invariant.wf Demo.travel = true.
Proof. vm_compute. reflexivity. Qed.

Lemma category_delete_keeps_expenses_witness :
  fst (Categories.delete Sample.alice 20 Demo.travel)
  = ok (Message "Category deleted successfully")
  /\ expenses (snd (Categories.delete Sample.alice 20 Demo.travel))
     = expenses Demo.travel
  /\ (forall e, Expense.category e = 20%nat ->
        populate (snd (Categories.delete Sample.alice 20 Demo.travel)) e
        = Expense.mkPopulated e None).
Proof.
  assert (D : fst (Categories.delete Sample.alice 20 Demo.travel)
              = ok (Message "Category deleted successfully"))
    by (vm_compute; reflexivity).
  split; [exact D|].
  destruct (category_delete_keeps_expenses Sample.alice 20 Demo.travel travel_wf D)
    as (_ & E & P & _).
  split; [exact E|exact P].
Defined.

Lemma category_update_shows_witness :
  exists c',
    fst (Categories.put Sample.alice 1
           (CategoryBody.mk (Some " Food ") None None (Some "fas fa-apple"))
           Sample.june)
    = ok (CategorySaved "Category updated successfully" c')
    /\ Category.name c' = JsString.trim " Food "
    /\ (forall e, Expense.category e = 1%nat ->
          populate
            (snd (Categories.put Sample.alice 1
                    (CategoryBody.mk (Some " Food ") None None (Some "fas fa-apple"))
                    Sample.june)) e
          = Expense.mkPopulated e (Some (Category.to_ref c'))).
Proof.
  set (b := CategoryBody.mk (Some " Food ") None None (Some "fas fa-apple")).
  set (r := fst (Categories.put Sample.alice 1 b Sample.june)).
  set (c' := match body r with
             | CategorySaved _ c => c
             | _ => Category.mk 0 "" None "" "" 0 false 0
             end).
  assert (E : r = ok (CategorySaved "Category updated successfully" c'))
    by (vm_compute; reflexivity).
  exists c'. split; [exact E|].
  destruct (category_update_shows Sample.alice 1 b Sample.june c' june_wf E)
    as (_ & _ & _ & _ & N & _ & P & _).
  split; [exact (N " Food " eq_refl)|exact P].
Defined.


Lemma dashboard_totals_witness :
  exists d,
    Reports.dashboard Sample.tz Sample.alice Sample.now Sample.june = ok (Dashboard d)
    /\ 0 <= monthly_total (monthly d) <= yearly_total (yearly d)
    /\ Store.sum breakdown_total (categoryBreakdown d) = monthly_total (monthly d).
Proof.
  destruct (dashboard_totals Sample.tz Sample.alice Sample.now Sample.june june_wf)
    as (_ & d & E & _ & _ & _ & _ & T & _ & _ & _ & Q & _).
  - intros e He. rewrite june_expenses in He.
    destruct He as [<-|[<-|[]]]; cbn [Expense.amount Demo.rent Demo.lunch]; lia.
  - vm_compute. intros [_ H]. apply H. reflexivity.
  - vm_compute. reflexivity.
  - exists d. split; [exact E|]. split; [exact T|]. apply Q.
    intros e He.
    pose proof (proj1 (filter_In _ e (expenses Sample.june)) He) as He'.
    clear He. destruct He' as [He _]. rewrite june_expenses in He.
    destruct He as [<-|[<-|[]]].
    + exists (nth 4 (categories Sample.june) (Category.mk 0 "" None "" "" 0 false 0)).
      split; [vm_compute; tauto|vm_compute; reflexivity].
    + exists (nth 0 (categories Sample.june) (Category.mk 0 "" None "" "" 0 false 0)).
      split; [vm_compute; tauto|vm_compute; reflexivity].
Defined.



Lemma seed_data_witness :
  Reply.status (fst (TestRoutes.seedData Sample.alice Sample.now Sample.june)) = 200.
Proof.
  destruct (seed_data Sample.tz (fun _ _ => true) Sample.isEmail Sample.hash
              Sample.sign Sample.alice Sample.now Sample.june) as (_ & _ & _ & H).
  apply H; [apply served_june|].
  vm_compute. now left.
Defined.
